(** * Shift-time accounting of the machine-log reports (logs/views.py)

    A shallow embedding of the report views of [logs/views.py]: the
    operator report ([operator_reports_by_name], [operator_reports_all]),
    the line report ([process_line_data], [line_reports]) and the machine
    and global reports ([process_machine_data], [machine_reports],
    [all_machines_report]).

    Modelling choices.
    - A queryset is the list of its rows; [filter]/[exclude] are list
      filters, [values(..).annotate(..)] is a group-by over the distinct
      keys, [aggregate] is a fold over the rows.
    - A [TimeField] is a triple hour/minute/second of integers, so
      [start_seconds] and [end_seconds] are integral.  The [FloatField]
      columns and the Python floats are exact rationals ([Q]); equality of
      hours is [Qeq] ([==]).  Binary rounding error is not modelled.
    - Python's [/] raises [ZeroDivisionError] on a zero divisor, and the
      database's cast of a text that is no integer fails the statement with
      a [DataError]; the views are written in a small error monad so that
      both stay visible.
    - [round(x, 2)] is rounding to the nearest hundredth, ties to even.
      Python rounds the exact value of a double; the argument is the exact
      rational here, so a result of the code that lies within the rounding
      error of a tie can fall on the other hundredth.  The statements below
      say what is rounded, and two figures that the code computes in
      different ways and then rounds are related up to one hundredth only. *)

From Stdlib Require Import ZArith QArith Qround Qminmax Lqa Lia List String Ascii Bool
  Permutation Sorted.
Import ListNotations.

#[local] Open Scope Z_scope.
#[local] Open Scope Q_scope.

(* ================================================================== *)
(** * Python and SQL primitives *)
(* ================================================================== *)

Module Py.

(** Comparisons of floats, as booleans. *)
Definition leb (x y : Q) : bool := Qle_bool x y.
Definition ltb (x y : Q) : bool := negb (Qle_bool y x).
Definition geb (x y : Q) : bool := leb y x.
Definition gtb (x y : Q) : bool := ltb y x.

(** Exceptions that the modelled code can raise. *)
Inductive exn : Type :=
| ZeroDivisionError
| DoesNotExist
| MultipleObjectsReturned
| DataError.

Inductive result (A : Type) : Type :=
| Ret (a : A)
| Raise (e : exn).
Arguments Ret {A} a.
Arguments Raise {A} e.

Definition bind {A B : Type} (m : result A) (k : A -> result B) : result B :=
  match m with
  | Ret a => k a
  | Raise e => Raise e
  end.

(** [x / y] on Python numbers. *)
Definition div (x y : Q) : result Q :=
  if Qeq_bool y 0 then Raise ZeroDivisionError else Ret (x / y).

(** [max(a, b)]: the first argument unless the second is strictly larger. *)
Definition max (a b : Q) : Q := if ltb a b then b else a.

(** [round(x, 2)]: nearest multiple of 1/100, ties to the even multiple. *)
Definition round_half_even (x : Q) : Z :=
  let f := Qfloor x in
  let r := x - inject_Z f in
  match Qcompare r (1 # 2) with
  | Lt => f
  | Gt => (f + 1)%Z
  | Eq => if Z.even f then f else (f + 1)%Z
  end.

Definition round2 (x : Q) : Q := inject_Z (round_half_even (x * 100)) / 100.

(** [sum(xs)] over floats. *)
Definition sum (xs : list Q) : Q := fold_left Qplus xs 0.

(** [x or 0] for a nullable aggregate. *)
Definition or0 (x : option Q) : Q :=
  match x with
  | Some v => if Qeq_bool v 0 then 0 else v
  | None => 0
  end.

(** A value that the responses carry as a number in one place and as a
    text in another. *)
Inductive scalar : Type :=
| Int (n : Z)
| Str (s : string).

End Py.

Notation "x <- m ;; k" := (Py.bind m (fun x => k))
  (at level 61, m at next level, right associativity).

(* ================================================================== *)
(** * models.py *)
(* ================================================================== *)

(** [datetime.time] as stored in a [TimeField]. *)
Record time : Type := mk_time {
  hour : Z;
  minute : Z;
  second : Z
}.

(** [MachineLog]; [DATE] is the day's ordinal. *)
Record MachineLog : Type := mk_log {
  MACHINE_ID : Z;
  LINE_NUMBER : Z;
  OPERATOR_ID : string;
  DATE : Z;
  START_TIME : time;
  END_TIME : time;
  MODE : Z;
  OPERATION_COUNT : Z;
  SKIP_COUNT : Q;
  RESERVE : option string
}.

Record Operator : Type := mk_operator {
  rfid_card_no : string;
  operator_name : string
}.

(** [time_to_seconds]: HH:MM:SS to seconds from midnight. *)
Definition time_to_seconds (time_obj : time) : Z :=
  (hour time_obj * 3600 + minute time_obj * 60 + second time_obj)%Z.

(** The annotations [start_seconds] and [end_seconds], shared by all
    report views: [ExtractHour * 3600 + ExtractMinute * 60 + ExtractSecond]
    as a [FloatField]. *)
Definition start_seconds (l : MachineLog) : Q :=
  inject_Z (time_to_seconds (START_TIME l)).
Definition end_seconds (l : MachineLog) : Q :=
  inject_Z (time_to_seconds (END_TIME l)).

(** ** Queryset operations *)

Definition exclude {A : Type} (p : A -> bool) (rows : list A) : list A :=
  filter (fun r => negb (p r)) rows.

(** [logs.filter(DATE__gte=from_date)] and [logs.filter(DATE__lte=to_date)],
    each applied only when the query parameter is present. *)
Definition date_filter (from_date to_date : option Z) (logs : list MachineLog)
  : list MachineLog :=
  let logs1 := match from_date with
               | Some d => filter (fun l => (d <=? DATE l)%Z) logs
               | None => logs
               end in
  match to_date with
  | Some d => filter (fun l => (DATE l <=? d)%Z) logs1
  | None => logs1
  end.

(** A break, as one [Q(start_seconds__gte=b, end_seconds__lte=e)]. *)
Definition in_break (l : MachineLog) (b : Q * Q) : bool :=
  Py.geb (start_seconds l) (fst b) && Py.leb (end_seconds l) (snd b).

(** The disjunction of the break conditions of one [exclude] call. *)
Definition in_some_break (breaks : list (Q * Q)) (l : MachineLog) : bool :=
  existsb (in_break l) breaks.

(** [values(key).distinct()]: the distinct keys, in order of appearance. *)
Fixpoint distinct {K : Type} (eqb : K -> K -> bool) (ks : list K) : list K :=
  match ks with
  | [] => []
  | k :: r => k :: filter (fun k' => negb (eqb k' k)) (distinct eqb r)
  end.

(** [order_by(key)], ascending. *)
Fixpoint insert_sorted {K : Type} (leb : K -> K -> bool) (k : K) (ks : list K)
  : list K :=
  match ks with
  | [] => [k]
  | k' :: r => if leb k k' then k :: ks else k' :: insert_sorted leb k r
  end.

Definition order_by {K : Type} (leb : K -> K -> bool) (ks : list K) : list K :=
  fold_right (insert_sorted leb) [] ks.

(** [Sum(column)] over one group of a [values(..).annotate(..)]: a group
    has at least one row, so the sum is not NULL. *)
Definition SumG {A : Type} (col : A -> Q) (group : list A) : Q :=
  Py.sum (map col group).

(** [Sum(Case(When(MODE=m, then=F(column)), default=Value(0)))]. *)
Definition SumCaseMode (m : Z) (col : MachineLog -> Q) (group : list MachineLog) : Q :=
  SumG (fun l => if (MODE l =? m)%Z then col l else 0) group.

(** [Sum(column)] over a queryset: [None] (SQL NULL) on no rows. *)
Definition Sum {A : Type} (col : A -> Q) (rows : list A) : option Q :=
  match rows with
  | [] => None
  | _ => Some (Py.sum (map col rows))
  end.

(** [Avg(column)] over the rows where the column is not NULL. *)
Definition Avg {A : Type} (col : A -> option Q) (rows : list A) : option Q :=
  let vs := flat_map (fun r => match col r with Some v => [v] | None => [] end) rows in
  match vs with
  | [] => None
  | _ => Some (Py.sum vs / inject_Z (Z.of_nat (List.length vs)))
  end.

(** A [for] loop that builds a list, and one that updates a state; either
    stops at the first exception. *)
Fixpoint for_each {A B : Type} (f : A -> Py.result B) (xs : list A)
  : Py.result (list B) :=
  match xs with
  | [] => Py.Ret []
  | x :: r => y <- f x ;; ys <- for_each f r ;; Py.Ret (y :: ys)
  end.

Fixpoint for_loop {A S : Type} (body : S -> A -> Py.result S) (xs : list A) (s : S)
  : Py.result S :=
  match xs with
  | [] => Py.Ret s
  | x :: r => s' <- body s x ;; for_loop body r s'
  end.

(** [Cast('RESERVE', IntegerField())]: the database's conversion of a text
    to [integer].  White space around the number is skipped, a sign may
    precede the digits, and the value has to fit in 32 bits.  On any other
    text the statement that evaluates the cast fails with a [DataError]
    (invalid input syntax, or value out of range).  The syntax is the
    decimal one; the hexadecimal, octal and binary literals and the
    underscores that PostgreSQL reads from version 16 on are not. *)
Definition is_space (c : ascii) : bool :=
  let n := Z.of_nat (nat_of_ascii c) in
  ((n =? 32) || ((9 <=? n) && (n <=? 13)))%Z.

Definition digit_of (c : ascii) : option Z :=
  let n := Z.of_nat (nat_of_ascii c) in
  if ((48 <=? n) && (n <=? 57))%Z then Some (n - 48)%Z else None.

Fixpoint skip_spaces (s : string) : string :=
  match s with
  | EmptyString => EmptyString
  | String c r => if is_space c then skip_spaces r else s
  end.

(** The value of digits that only white space may follow. *)
Fixpoint digits_value (acc : Z) (s : string) : option Z :=
  match s with
  | EmptyString => Some acc
  | String c r =>
      match digit_of c with
      | Some d => digits_value (acc * 10 + d)%Z r
      | None => match skip_spaces s with
                | EmptyString => Some acc
                | String _ _ => None
                end
      end
  end.

(** At least one digit is required. *)
Definition unsigned_value (s : string) : option Z :=
  match s with
  | EmptyString => None
  | String c _ =>
      match digit_of c with
      | Some _ => digits_value 0 s
      | None => None
      end
  end.

Definition integer_syntax (s : string) : option Z :=
  match skip_spaces s with
  | String "-"%char r => option_map Z.opp (unsigned_value r)
  | String "+"%char r => unsigned_value r
  | r => unsigned_value r
  end.

Definition cast_integer (s : string) : Py.result Z :=
  match integer_syntax s with
  | Some v =>
      if ((-2147483648 <=? v) && (v <=? 2147483647))%Z then Py.Ret v
      else Py.Raise Py.DataError
  | None => Py.Raise Py.DataError
  end.

(** The annotation [reserve_numeric] on one row: a NULL stays NULL. *)
Definition reserve_numeric (l : MachineLog) : Py.result (option Z) :=
  match RESERVE l with
  | Some s => v <- cast_integer s ;; Py.Ret (Some v)
  | None => Py.Ret None
  end.

(** The annotation on the rows of a statement that evaluates it: the
    statement fails when the cast of one of its rows does. *)
Definition reserve_values (rows : list MachineLog) : Py.result (list (option Z)) :=
  for_each reserve_numeric rows.

(* ================================================================== *)
(** * The operator family: window 08:30-19:30, clamped *)
(* ================================================================== *)

Module OperatorFamily.

Definition window_start : Q := 8.5 * 3600.
Definition window_end : Q := 19.5 * 3600.

Definition adjusted_start_seconds (l : MachineLog) : Q :=
  if Py.ltb (start_seconds l) window_start then window_start
  else if Py.gtb (start_seconds l) window_end then window_end
  else start_seconds l.

Definition adjusted_end_seconds (l : MachineLog) : Q :=
  if Py.ltb (end_seconds l) window_start then window_start
  else if Py.gtb (end_seconds l) window_end then window_end
  else end_seconds l.

Definition duration_hours (l : MachineLog) : Q :=
  if Py.leb (end_seconds l) window_start || Py.geb (start_seconds l) window_end
  then 0
  else (adjusted_end_seconds l - adjusted_start_seconds l) / 3600.

(** 10:30-10:40, 13:20-14:00, 16:20-16:30 as the view writes them. *)
Definition breaks : list (Q * Q) :=
  [ (10.5 * 3600, 10.6667 * 3600);
    (13.3333 * 3600, 14 * 3600);
    (16.3333 * 3600, 16.5 * 3600) ].

(** [Q(OPERATOR_ID=0) & Q(MODE=2)]. *)
Definition unassigned_idle (l : MachineLog) : bool :=
  String.eqb (OPERATOR_ID l) "0" && (MODE l =? 2)%Z.

(** The filters every operator view applies after selecting its rows:
    the unassigned-idle exclusion, the positive-duration filter and the
    break exclusion. *)
Definition positive_duration (logs : list MachineLog) : list MachineLog :=
  filter (fun l => Py.gtb (duration_hours l) 0) (exclude unassigned_idle logs).

Definition normalize (logs : list MachineLog) : list MachineLog :=
  exclude (in_some_break breaks) (positive_duration logs).

End OperatorFamily.

(* ================================================================== *)
(** * The line, machine and global families: window 08:25-19:35 *)
(* ================================================================== *)

Module WindowFamily.

Definition window_start : Q := 30300.
Definition window_end : Q := 70500.

Definition duration_hours (l : MachineLog) : Q :=
  (end_seconds l - start_seconds l) / 3600.

Definition in_window (l : MachineLog) : bool :=
  Py.geb (start_seconds l) window_start && Py.leb (end_seconds l) window_end.

Definition breaks : list (Q * Q) :=
  [ (37800, 38400); (48000, 50400); (58800, 59400) ].

(** [OPERATOR_ID__in=valid_operators]. *)
Definition valid_operator (valid_operators : list string) (l : MachineLog) : bool :=
  existsb (String.eqb (OPERATOR_ID l)) valid_operators.

Definition normalize (logs : list MachineLog) : list MachineLog :=
  exclude (in_some_break breaks) (filter in_window logs).

End WindowFamily.

(** [Case(When(reserve_numeric__gt=0, then=F('reserve_numeric')),
    default=Value(0))] on one value of the annotation. *)
Definition speed_or_zero (v : option Z) : Q :=
  match v with
  | Some v => if (0 <? v)%Z then inject_Z v else 0
  | None => 0
  end.

(** [Avg(Case(..))] over one group of a daily table. *)
Definition AvgCaseReserve (group : list MachineLog) : Py.result Q :=
  values <- reserve_values group ;;
  Py.Ret (Py.sum (map speed_or_zero values) / inject_Z (Z.of_nat (List.length values))).

(** [reserve_numeric__gt=0] on one value of the annotation. *)
Definition reserve_positive (v : option Z) : bool :=
  match v with
  | Some v => (0 <? v)%Z
  | None => false
  end.

(** [valid_speed_logs = logs.filter(reserve_numeric__gt=0)] and
    [valid_speed_logs.aggregate(avg_speed=Avg('reserve_numeric'))['avg_speed'] or 0],
    the summary speed of every report view. *)
Definition average_sewing_speed (logs : list MachineLog) : Py.result Q :=
  values <- reserve_values logs ;;
  let valid_speed_logs := filter reserve_positive values in
  Py.Ret (Py.or0 (Avg (option_map inject_Z) valid_speed_logs)).

(** [Sum('OPERATION_COUNT')] on the integer column. *)
Definition SumZ {A : Type} (col : A -> Z) (rows : list A) : Z :=
  fold_left Z.add (map col rows) 0%Z.

(** [(num / den * 100) if den > 0 else 0]. *)
Definition percent_if_positive (num den : Q) : Py.result Q :=
  if Py.gtb den 0 then (q <- Py.div num den ;; Py.Ret (q * 100)) else Py.Ret 0.

(* ================================================================== *)
(** * operator_reports_by_name *)
(* ================================================================== *)

Module OperatorReportsByName.
Import OperatorFamily.

(** [Operator.objects.get(operator_name=operator_name)]. *)
Definition get_by_name (operators : list Operator) (name : string)
  : Py.result Operator :=
  match filter (fun o => String.eqb (operator_name o) name) operators with
  | [] => Py.Raise Py.DoesNotExist
  | [o] => Py.Ret o
  | _ => Py.Raise Py.MultipleObjectsReturned
  end.

(** The rows the view starts from. *)
Definition select (operators : list Operator) (name : string)
    (db : list MachineLog) : Py.result (list MachineLog) :=
  if String.eqb name "All" then Py.Ret db
  else
    operator <- get_by_name operators name ;;
    Py.Ret (filter (fun l => String.eqb (OPERATOR_ID l) (rfid_card_no operator)) db).

(** The queryset [logs] after the date filters, the exclusion of
    unassigned idle rows, the annotation and the break exclusion. *)
Definition report_logs (operators : list Operator) (name : string)
    (from_date to_date : option Z) (db : list MachineLog)
  : Py.result (list MachineLog) :=
  logs <- select operators name db ;;
  Py.Ret (normalize (date_filter from_date to_date logs)).

(** The same queryset before the annotation and its filters. *)
Definition selected (operators : list Operator) (name : string)
    (from_date to_date : option Z) (db : list MachineLog)
  : Py.result (list MachineLog) :=
  logs <- select operators name db ;;
  Py.Ret (date_filter from_date to_date logs).

Section Summary.
Variable logs : list MachineLog.

Definition total_working_days : Z :=
  Z.of_nat (List.length (distinct Z.eqb (map DATE logs))).

Definition total_available_hours : Q := inject_Z (total_working_days * 10).

(** [logs.values('MODE').annotate(total_hours=Sum('duration_hours'))]. *)
Definition mode_hours : list (Z * Q) :=
  map (fun m => (m, SumG duration_hours (filter (fun l => (MODE l =? m)%Z) logs)))
      (distinct Z.eqb (map MODE logs)).

(** The four counters of the loop over [mode_hours]. *)
Record counters : Type := mk_counters {
  c_production : Q;
  c_meeting : Q;
  c_no_feeding : Q;
  c_maintenance : Q
}.

Definition count_mode (c : counters) (mode : Z * Q) : counters :=
  let total_hours := Py.or0 (Some (snd mode)) in
  if (fst mode =? 1)%Z then mk_counters total_hours (c_meeting c) (c_no_feeding c) (c_maintenance c)
  else if (fst mode =? 4)%Z then mk_counters (c_production c) total_hours (c_no_feeding c) (c_maintenance c)
  else if (fst mode =? 3)%Z then mk_counters (c_production c) (c_meeting c) total_hours (c_maintenance c)
  else if (fst mode =? 5)%Z then mk_counters (c_production c) (c_meeting c) (c_no_feeding c) total_hours
  else c.

Definition mode_counters : counters :=
  fold_left count_mode mode_hours (mk_counters 0 0 0 0).

Definition total_production_hours : Q := c_production mode_counters.
Definition total_meeting_hours : Q := c_meeting mode_counters.
Definition total_no_feeding_hours : Q := c_no_feeding mode_counters.
Definition total_maintenance_hours : Q := c_maintenance mode_counters.

Definition total_idle_hours : Q :=
  Py.max (total_available_hours
          - (total_production_hours + total_no_feeding_hours
             + total_meeting_hours + total_maintenance_hours)) 0.

Definition total_non_production_hours : Q :=
  total_no_feeding_hours + total_meeting_hours
  + total_maintenance_hours + total_idle_hours.

Definition production_percentage : Py.result Q :=
  percent_if_positive total_production_hours total_available_hours.

Definition npt_percentage : Py.result Q :=
  percent_if_positive total_non_production_hours total_available_hours.

Definition total_OPERATION_COUNT : Z := SumZ OPERATION_COUNT logs.

Definition sewing_logs : list MachineLog := filter (fun l => (MODE l =? 1)%Z) logs.

(** [sewing_logs.aggregate(total_runtime=Sum('SKIP_COUNT', default=0))['total_runtime'] or 0]. *)
Definition total_SKIP_COUNT : Q := Py.or0 (Sum SKIP_COUNT sewing_logs).

Definition SKIP_COUNT_instances : Z := Z.of_nat (List.length sewing_logs).

Definition average_SKIP_COUNT : Py.result Q :=
  if (0 <? SKIP_COUNT_instances)%Z
  then Py.div total_SKIP_COUNT (inject_Z SKIP_COUNT_instances)
  else Py.Ret 0.

Definition total_SKIP_COUNT_hours : Q := total_SKIP_COUNT / 3600.

Definition SKIP_COUNT_percentage : Py.result Q :=
  percent_if_positive total_SKIP_COUNT_hours total_production_hours.

End Summary.

(** ** The daily table: [logs.values('DATE', 'OPERATOR_ID').annotate(..)] *)

Definition key_eqb (a b : Z * string) : bool :=
  (fst a =? fst b)%Z && String.eqb (snd a) (snd b).

Definition key_leb (a b : Z * string) : bool :=
  (fst a <? fst b)%Z || ((fst a =? fst b)%Z && String.leb (snd a) (snd b)).

Definition key_of (l : MachineLog) : Z * string := (DATE l, OPERATOR_ID l).

(** One row of [table_data], with the names of the annotations. *)
Record table_row : Type := mk_table_row {
  row_DATE : Z;
  row_OPERATOR_ID : string;
  sewing_hours : Q;
  meeting_hours : Q;
  no_feeding_hours : Q;
  maintenance_hours : Q;
  row_total_OPERATION_COUNT : Z;
  sewing_speed : Q;
  row_SKIP_COUNT : Q;
  total_hours : Q;
  idle_hours : Q;
  productive_time_percentage : Q;
  row_npt_percentage : Q
}.

Definition annotate_group (k : Z * string) (group : list MachineLog)
  : Py.result table_row :=
  let sewing := SumCaseMode 1 duration_hours group in
  let meeting := SumCaseMode 4 duration_hours group in
  let no_feeding := SumCaseMode 3 duration_hours group in
  let maintenance := SumCaseMode 5 duration_hours group in
  speed <- AvgCaseReserve group ;;
  Py.Ret (mk_table_row (fst k) (snd k) sewing meeting no_feeding maintenance
    (SumZ OPERATION_COUNT group)
    speed
    (SumG SKIP_COUNT group)
    10
    (10 - (sewing + meeting + no_feeding + maintenance))
    (sewing / 10 * 100)
    (100 - sewing / 10 * 100)).

Definition table_data (logs : list MachineLog) : Py.result (list table_row) :=
  for_each (fun k => annotate_group k (filter (fun l => key_eqb (key_of l) k) logs))
           (order_by key_leb (distinct key_eqb (map key_of logs))).

(** One entry of [formatted_table_data], with the keys of the response. *)
Record formatted_row : Type := mk_formatted_row {
  Date : Z;
  Operator_ID : string;
  Operator_Name : string;
  Total_Hours : Q;
  Sewing_Hours : Q;
  Idle_Hours : Q;
  Meeting_Hours : Q;
  No_Feeding_Hours : Q;
  Maintenance_Hours : Q;
  Productive_Time_in_pct : Q;
  NPT_in_pct : Q;
  Sewing_Speed : Q;
  Stitch_Count : Z;
  Needle_Runtime : Q
}.

(** [Operator.objects.get(rfid_card_no=..)], ["Unknown"] when absent. *)
Definition name_of (operators : list Operator) (rfid : string) : string :=
  match filter (fun o => String.eqb (rfid_card_no o) rfid) operators with
  | o :: _ => operator_name o
  | [] => "Unknown"%string
  end.

Definition format_row (operators : list Operator) (data : table_row) : formatted_row :=
  mk_formatted_row
    (row_DATE data)
    (row_OPERATOR_ID data)
    (name_of operators (row_OPERATOR_ID data))
    (Py.round2 (total_hours data))
    (Py.round2 (sewing_hours data))
    (Py.round2 (Py.max (idle_hours data) 0))
    (Py.round2 (meeting_hours data))
    (Py.round2 (no_feeding_hours data))
    (Py.round2 (maintenance_hours data))
    (Py.round2 (productive_time_percentage data))
    (Py.round2 (row_npt_percentage data))
    (Py.round2 (sewing_speed data))
    (row_total_OPERATION_COUNT data)
    (row_SKIP_COUNT data).

(** The response body. *)
Record response : Type := mk_response {
  totalProductionHours : Q;
  totalNonProductionHours : Q;
  totalIdleHours : Q;
  productionPercentage : Q;
  nptPercentage : Q;
  averageSewingSpeed : Q;
  totalStitchCount : Z;
  totalNeedleRuntime : Q;
  needleRuntimePercentage : Q;
  tableData : list formatted_row;
  totalHours : Q;
  totalPT : Q;
  totalNPT : Q
}.

(** The body of the view from the filtered queryset on. *)
Definition report (operators : list Operator) (logs : list MachineLog)
  : Py.result response :=
  production <- production_percentage logs ;;
  npt <- npt_percentage logs ;;
  average_sewing_speed <- average_sewing_speed logs ;;
  average_SKIP <- average_SKIP_COUNT logs ;;
  SKIP_percentage <- SKIP_COUNT_percentage logs ;;
  table_data <- table_data logs ;;
  Py.Ret (mk_response
    (Py.round2 (total_production_hours logs))
    (Py.round2 (total_non_production_hours logs))
    (Py.round2 (total_idle_hours logs))
    (Py.round2 production)
    (Py.round2 npt)
    (Py.round2 average_sewing_speed)
    (total_OPERATION_COUNT logs)
    (Py.round2 average_SKIP)
    (Py.round2 SKIP_percentage)
    (map (format_row operators) table_data)
    (Py.round2 (total_available_hours logs))
    (Py.round2 (total_production_hours logs))
    (Py.round2 (total_non_production_hours logs))).

Definition operator_reports_by_name (operators : list Operator) (name : string)
    (from_date to_date : option Z) (db : list MachineLog) : Py.result response :=
  logs <- report_logs operators name from_date to_date db ;;
  report operators logs.

End OperatorReportsByName.

(* ================================================================== *)
(** * operator_reports_all *)
(* ================================================================== *)

Module OperatorReportsAll.
Import OperatorFamily.

(** The queryset [logs] of one operator of the loop. *)
Definition selected (operator : Operator) (from_date to_date : option Z)
    (db : list MachineLog) : list MachineLog :=
  date_filter from_date to_date
    (filter (fun l => String.eqb (OPERATOR_ID l) (rfid_card_no operator)) db).

Definition report_logs (operator : Operator) (from_date to_date : option Z)
    (db : list MachineLog) : list MachineLog :=
  normalize (selected operator from_date to_date db).

Section Summary.
Variable logs : list MachineLog.

Definition total_working_days : Z :=
  Z.of_nat (List.length (distinct Z.eqb (map DATE logs))).

Definition total_available_hours : Q := inject_Z (total_working_days * 10).

(** [sum(mode['total_hours'] for mode in mode_hours if mode['MODE'] == 1)]. *)
Definition total_production_hours : Q :=
  Py.sum (map snd (filter (fun mode => (fst mode =? 1)%Z)
                          (OperatorReportsByName.mode_hours logs))).

Definition total_non_production_hours : Q :=
  total_available_hours - total_production_hours.

Definition production_percentage : Py.result Q :=
  percent_if_positive total_production_hours total_available_hours.

Definition npt_percentage : Py.result Q :=
  p <- production_percentage ;; Py.Ret (100 - p).

End Summary.

(** One entry of [all_operators_data]. *)
Record entry : Type := mk_entry {
  operatorId : string;
  operatorName : string;
  totalProductionHours : Q;
  totalNonProductionHours : Q;
  productionPercentage : Q;
  nptPercentage : Q
}.

Definition operator_entry (operator : Operator) (logs : list MachineLog)
  : Py.result entry :=
  production <- production_percentage logs ;;
  npt <- npt_percentage logs ;;
  Py.Ret (mk_entry (rfid_card_no operator) (operator_name operator)
            (Py.round2 (total_production_hours logs))
            (Py.round2 (total_non_production_hours logs))
            (Py.round2 production)
            (Py.round2 npt)).

Definition operator_reports_all (operators : list Operator)
    (from_date to_date : option Z) (db : list MachineLog)
  : Py.result (list entry) :=
  for_each (fun operator =>
              operator_entry operator (report_logs operator from_date to_date db))
           operators.

End OperatorReportsAll.

(* ================================================================== *)
(** * The daily table of process_line_data and process_machine_data *)
(* ================================================================== *)

(** Both helpers build [daily_data] with the same annotations and run the
    same loop over it; only the last column of a formatted row differs
    (['Machine Count'] for a line, ['Machine ID'] for a machine).  The query
    runs when the loop starts. *)
Module DailyTable.
Import WindowFamily.

(** One row of [daily_data]. *)
Record day : Type := mk_day {
  day_DATE : Z;
  sewing_hours : Q;
  no_feeding_hours : Q;
  meeting_hours : Q;
  maintenance_hours : Q;
  idle_hours : Q;
  day_OPERATION_COUNT : Z;
  sewing_speed : Q;
  day_SKIP_COUNT : Q
}.

Definition annotate_group (d : Z) (group : list MachineLog) : Py.result day :=
  speed <- AvgCaseReserve group ;;
  Py.Ret (mk_day d
    (SumCaseMode 1 duration_hours group)
    (SumCaseMode 3 duration_hours group)
    (SumCaseMode 4 duration_hours group)
    (SumCaseMode 5 duration_hours group)
    (SumCaseMode 2 duration_hours group)
    (SumZ OPERATION_COUNT group)
    speed
    (SumG SKIP_COUNT group)).

Definition on_date (d : Z) (logs : list MachineLog) : list MachineLog :=
  filter (fun l => (DATE l =? d)%Z) logs.

Definition dates (logs : list MachineLog) : list Z :=
  order_by Z.leb (distinct Z.eqb (map DATE logs)).

Definition daily_data (logs : list MachineLog) : Py.result (list day) :=
  for_each (fun d => annotate_group d (on_date d logs)) (dates logs).

(** One entry of [formatted_table_data]. *)
Record formatted_row : Type := mk_formatted_row {
  Date : Z;
  Sewing_Hours_PT : Q;
  No_Feeding_Hours : Q;
  Meeting_Hours : Q;
  Maintenance_Hours : Q;
  Idle_Hours : Q;
  Total_Hours : Q;
  Productive_Time_PT_pct : Q;
  Non_Productive_Time_NPT_pct : Q;
  Sewing_Speed : Q;
  Stitch_Count : Z;
  Needle_Runtime : Q;
  Last_Column : Py.scalar
}.

(** The variables the loop updates. *)
Record totals : Type := mk_totals {
  total_sewing_hours : Q;
  total_no_feeding_hours : Q;
  total_meeting_hours : Q;
  total_maintenance_hours : Q;
  total_idle_hours : Q;
  total_OPERATION_COUNT : Z;
  total_SKIP_COUNT : Q;
  total_hours : Q;
  formatted_table_data : list formatted_row
}.

Definition initial : totals := mk_totals 0 0 0 0 0 0 0 0 [].

Definition loop_body (last_column : Z -> Py.scalar) (t : totals) (data : day)
  : Py.result totals :=
  let sewing := Py.or0 (Some (sewing_hours data)) in
  let no_feeding := Py.or0 (Some (no_feeding_hours data)) in
  let meeting := Py.or0 (Some (meeting_hours data)) in
  let maintenance := Py.or0 (Some (maintenance_hours data)) in
  let idle := Py.or0 (Some (idle_hours data)) in
  let productive_time := sewing in
  let non_productive_time := no_feeding + meeting + maintenance + idle in
  let daily_total_hours := productive_time + non_productive_time in
  productive_time_percentage <- percent_if_positive productive_time daily_total_hours ;;
  non_productive_time_percentage <- percent_if_positive non_productive_time daily_total_hours ;;
  Py.Ret (mk_totals
    (total_sewing_hours t + sewing)
    (total_no_feeding_hours t + no_feeding)
    (total_meeting_hours t + meeting)
    (total_maintenance_hours t + maintenance)
    (total_idle_hours t + idle)
    (total_OPERATION_COUNT t + day_OPERATION_COUNT data)%Z
    (total_SKIP_COUNT t + Py.or0 (Some (day_SKIP_COUNT data)))
    (total_hours t + daily_total_hours)
    (formatted_table_data t ++
     [mk_formatted_row (day_DATE data)
        (Py.round2 sewing) (Py.round2 no_feeding) (Py.round2 meeting)
        (Py.round2 maintenance) (Py.round2 idle) (Py.round2 daily_total_hours)
        (Py.round2 productive_time_percentage)
        (Py.round2 non_productive_time_percentage)
        (Py.round2 (sewing_speed data))
        (day_OPERATION_COUNT data)
        (day_SKIP_COUNT data)
        (last_column (day_DATE data))])).

Definition loop (last_column : Z -> Py.scalar) (logs : list MachineLog)
  : Py.result totals :=
  daily_data <- daily_data logs ;;
  for_loop (loop_body last_column) daily_data initial.

End DailyTable.

(* ================================================================== *)
(** * process_line_data and line_reports *)
(* ================================================================== *)

Module LineReports.
Import WindowFamily.

(** The dictionary [process_line_data] returns. *)
Record line_report : Type := mk_line_report {
  lineNumber : Z;  (* the view passes [str(n)] for the number [n] in both its paths *)
  totalIdealHours : Q;
  utilizationPercentage : Q;
  totalWorkingDays : Z;
  averageMachines : Q;
  totalHours : Q;
  totalProductiveTime_hours : Q;
  totalProductiveTime_percentage : Q;
  totalNonProductiveTime_hours : Q;
  totalNonProductiveTime_percentage : Q;
  breakdown_noFeedingHours : Q;
  breakdown_meetingHours : Q;
  breakdown_maintenanceHours : Q;
  breakdown_idleHours : Q;
  totalStitchCount : Z;
  averageSewingSpeed : Q;
  totalNeedleRuntime : Q;
  needleRuntimePercentage : Q;
  tableData : list DailyTable.formatted_row
}.

Section ProcessLineData.
Variable logs : list MachineLog.

(** [logs.filter(MODE=2).aggregate(total_ideal=Sum('duration_hours'))['total_ideal'] or 0]. *)
Definition total_ideal_hours : Q :=
  Py.or0 (Sum duration_hours (filter (fun l => (MODE l =? 2)%Z) logs)).

(** [Count('MACHINE_ID', distinct=True)] per date, ordered by date. *)
Definition daily_machine_counts : list (Z * Z) :=
  map (fun d => (d, Z.of_nat (List.length
                   (distinct Z.eqb (map MACHINE_ID (DailyTable.on_date d logs))))))
      (DailyTable.dates logs).

Definition total_working_days : Z := Z.of_nat (List.length daily_machine_counts).

Definition average_machines : Py.result Q :=
  if (0 <? total_working_days)%Z
  then Py.div (inject_Z (SumZ snd daily_machine_counts)) (inject_Z total_working_days)
  else Py.Ret 0.

(** [date_machine_counts.get(date, 1)]. *)
Definition machine_count (date : Z) : Z :=
  match find (fun item => (fst item =? date)%Z) (rev daily_machine_counts) with
  | Some item => snd item
  | None => 1%Z
  end.

Definition sewing_logs : list MachineLog := filter (fun l => (MODE l =? 1)%Z) logs.

Definition SKIP_COUNT_instances : Z := Z.of_nat (List.length sewing_logs).

Definition process_line_data (LINE_NUMBERer : Z) : Py.result line_report :=
  average_machines <- average_machines ;;
  t <- DailyTable.loop (fun date => Py.Int (machine_count date)) logs ;;
  let total_productive_time := DailyTable.total_sewing_hours t in
  let total_non_productive_time :=
    DailyTable.total_no_feeding_hours t + DailyTable.total_meeting_hours t
    + DailyTable.total_maintenance_hours t + DailyTable.total_idle_hours t in
  let total_hours := DailyTable.total_hours t in
  let total_SKIP_COUNT := DailyTable.total_SKIP_COUNT t in
  total_productive_percentage <- percent_if_positive total_productive_time total_hours ;;
  total_non_productive_percentage <-
    percent_if_positive total_non_productive_time total_hours ;;
  utilization_percentage <- percent_if_positive total_hours total_ideal_hours ;;
  average_sewing_speed <- average_sewing_speed logs ;;
  average_SKIP_COUNT <-
    (if (0 <? SKIP_COUNT_instances)%Z
     then Py.div total_SKIP_COUNT (inject_Z SKIP_COUNT_instances)
     else Py.Ret 0) ;;
  let total_SKIP_COUNT_hours := total_SKIP_COUNT / 3600 in
  SKIP_COUNT_percentage <-
    percent_if_positive total_SKIP_COUNT_hours total_productive_time ;;
  Py.Ret (mk_line_report
    LINE_NUMBERer
    (Py.round2 total_ideal_hours)
    (Py.round2 utilization_percentage)
    total_working_days
    (Py.round2 average_machines)
    (Py.round2 total_hours)
    (Py.round2 total_productive_time)
    (Py.round2 total_productive_percentage)
    (Py.round2 total_non_productive_time)
    (Py.round2 total_non_productive_percentage)
    (Py.round2 (DailyTable.total_no_feeding_hours t))
    (Py.round2 (DailyTable.total_meeting_hours t))
    (Py.round2 (DailyTable.total_maintenance_hours t))
    (Py.round2 (DailyTable.total_idle_hours t))
    (DailyTable.total_OPERATION_COUNT t)
    (Py.round2 average_sewing_speed)
    (Py.round2 average_SKIP_COUNT)
    (Py.round2 SKIP_COUNT_percentage)
    (DailyTable.formatted_table_data t)).

End ProcessLineData.

(** The queryset [logs] of the view: the rows of the valid operators (of
    one line, or of all lines when [LINE_NUMBERer] is [None], the ['all']
    of the URL), date-filtered, inside the window and outside the breaks. *)
Definition selected (operators : list Operator) (LINE_NUMBERer : option Z)
    (from_date to_date : option Z) (db : list MachineLog) : list MachineLog :=
  let valid_operators := map rfid_card_no operators in
  let logs :=
    match LINE_NUMBERer with
    | None => filter (valid_operator valid_operators) db
    | Some n => filter (fun l => (LINE_NUMBER l =? n)%Z && valid_operator valid_operators l) db
    end in
  date_filter from_date to_date logs.

Definition report_logs (operators : list Operator) (LINE_NUMBERer : option Z)
    (from_date to_date : option Z) (db : list MachineLog) : list MachineLog :=
  normalize (selected operators LINE_NUMBERer from_date to_date db).

(** The accumulators of the loop over the lines. *)
Record summary_data : Type := mk_summary_data {
  sd_totalIdealHours : Q;
  sd_totalHours : Q;
  sd_totalProductiveTime : Q;
  sd_totalNonProductiveTime : Q;
  sd_totalStitchCount : Z;
  sd_totalNeedleRuntime : Q;
  sd_averageSewingSpeed : Q;
  sd_totalWorkingDays : Z;
  sd_averageMachines : Q;
  sd_needleRuntimePercentage : option Q;
  speed_sum : Q;
  speed_count : Q;
  SKIP_COUNT_count : Q;
  all_line_reports : list line_report
}.

Definition summary_initial : summary_data :=
  mk_summary_data 0 0 0 0 0 0 0 0 0 None 0 0 0 [].

Definition accumulate (s : summary_data) (line_report : line_report) : summary_data :=
  mk_summary_data
    (sd_totalIdealHours s + totalIdealHours line_report)
    (sd_totalHours s + totalHours line_report)
    (sd_totalProductiveTime s + totalProductiveTime_hours line_report)
    (sd_totalNonProductiveTime s + totalNonProductiveTime_hours line_report)
    (sd_totalStitchCount s + totalStitchCount line_report)%Z
    (sd_totalNeedleRuntime s + totalNeedleRuntime line_report)
    (sd_averageSewingSpeed s)
    (Z.max (sd_totalWorkingDays s) (totalWorkingDays line_report))
    (sd_averageMachines s + averageMachines line_report)
    (sd_needleRuntimePercentage s)
    (speed_sum s + averageSewingSpeed line_report * totalHours line_report)
    (speed_count s + totalHours line_report)
    (SKIP_COUNT_count s
     + (if Py.gtb (totalProductiveTime_hours line_report) 0
        then totalProductiveTime_hours line_report else 0))
    (all_line_reports s ++ [line_report]).

Definition lines_body (logs : list MachineLog) (s : summary_data) (line_num : Z)
  : Py.result summary_data :=
  let line_logs := filter (fun l => (LINE_NUMBER l =? line_num)%Z) logs in
  line_report <- process_line_data line_logs line_num ;;
  Py.Ret (accumulate s line_report).

(** The three updates after the loop ("Calculate weighted averages"). *)
Definition weighted_averages (s : summary_data) : Py.result summary_data :=
  speed <- (if Py.gtb (speed_count s) 0
            then Py.div (speed_sum s) (speed_count s)
            else Py.Ret (sd_averageSewingSpeed s)) ;;
  machines <- (if (0 <? Z.of_nat (List.length (all_line_reports s)))%Z
               then Py.div (sd_averageMachines s)
                           (inject_Z (Z.of_nat (List.length (all_line_reports s))))
               else Py.Ret (sd_averageMachines s)) ;;
  needle <- (if Py.gtb (sd_totalProductiveTime s) 0
             then q <- Py.div (sd_totalNeedleRuntime s) (sd_totalProductiveTime s) ;;
                  Py.Ret (Some (q * 100))
             else Py.Ret (sd_needleRuntimePercentage s)) ;;
  Py.Ret (mk_summary_data
    (sd_totalIdealHours s) (sd_totalHours s) (sd_totalProductiveTime s)
    (sd_totalNonProductiveTime s) (sd_totalStitchCount s) (sd_totalNeedleRuntime s)
    speed (sd_totalWorkingDays s) machines needle
    (speed_sum s) (speed_count s) (SKIP_COUNT_count s) (all_line_reports s)).

(** The ["summary"] object of the response for all lines. *)
Record summary : Type := mk_summary {
  totalLines : Z;
  s_totalIdealHours : Q;
  s_utilizationPercentage : Q;
  s_totalWorkingDays : Z;
  s_averageMachines : Q;
  s_totalHours : Q;
  s_totalProductiveTime_hours : Q;
  s_totalProductiveTime_percentage : Q;
  s_totalNonProductiveTime_hours : Q;
  s_totalNonProductiveTime_percentage : Q;
  s_totalStitchCount : Z;
  s_averageSewingSpeed : Q;
  s_totalNeedleRuntime : Q;
  s_needleRuntimePercentage : Q
}.

Definition make_summary (s : summary_data) : Py.result summary :=
  utilization <- percent_if_positive (sd_totalHours s) (sd_totalIdealHours s) ;;
  productive <- percent_if_positive (sd_totalProductiveTime s) (sd_totalHours s) ;;
  non_productive <- percent_if_positive (sd_totalNonProductiveTime s) (sd_totalHours s) ;;
  Py.Ret (mk_summary
    (Z.of_nat (List.length (all_line_reports s)))
    (Py.round2 (sd_totalIdealHours s))
    (Py.round2 utilization)
    (sd_totalWorkingDays s)
    (Py.round2 (sd_averageMachines s))
    (Py.round2 (sd_totalHours s))
    (Py.round2 (sd_totalProductiveTime s))
    (Py.round2 productive)
    (Py.round2 (sd_totalNonProductiveTime s))
    (Py.round2 non_productive)
    (sd_totalStitchCount s)
    (Py.round2 (sd_averageSewingSpeed s))
    (Py.round2 (sd_totalNeedleRuntime s))
    (Py.round2 (match sd_needleRuntimePercentage s with Some v => v | None => 0 end))).

(** [logs.order_by('LINE_NUMBER').values_list('LINE_NUMBER', flat=True).distinct()]. *)
Definition LINE_NUMBERers (logs : list MachineLog) : list Z :=
  order_by Z.leb (distinct Z.eqb (map LINE_NUMBER logs)).

(** The accumulators when the loop over the lines and the three updates
    after it are done. *)
Definition all_lines_data (logs : list MachineLog) : Py.result summary_data :=
  s <- for_loop (lines_body logs) (LINE_NUMBERers logs) summary_initial ;;
  weighted_averages s.

Inductive response : Type :=
| AllLines (allLinesReport : list line_report) (summary : summary)
| OneLine (line_report : line_report).

Definition line_reports (operators : list Operator) (LINE_NUMBERer : option Z)
    (from_date to_date : option Z) (db : list MachineLog) : Py.result response :=
  let logs := report_logs operators LINE_NUMBERer from_date to_date db in
  match LINE_NUMBERer with
  | None =>
      s <- all_lines_data logs ;;
      summary <- make_summary s ;;
      Py.Ret (AllLines (all_line_reports s) summary)
  | Some n =>
      line_report <- process_line_data logs n ;;
      Py.Ret (OneLine line_report)
  end.

End LineReports.

(* ================================================================== *)
(** * process_machine_data, machine_reports and all_machines_report *)
(* ================================================================== *)

Module MachineReports.
Import WindowFamily.

(** The dictionary [process_machine_data] returns. *)
Record machine_report : Type := mk_machine_report {
  machineId : Py.scalar;
  totalAvailableHours : Z;
  totalWorkingDays : Z;
  totalHours : Q;
  totalProductiveTime_hours : Q;
  totalProductiveTime_percentage : Q;
  totalNonProductiveTime_hours : Q;
  totalNonProductiveTime_percentage : Q;
  breakdown_noFeedingHours : Q;
  breakdown_meetingHours : Q;
  breakdown_maintenanceHours : Q;
  breakdown_idleHours : Q;
  totalStitchCount : Z;
  averageSewingSpeed : Q;
  totalNeedleRuntime : Q;
  tableData : list DailyTable.formatted_row
}.

Definition process_machine_data (logs : list MachineLog) (machine_id : Py.scalar)
  : Py.result machine_report :=
  let total_working_days := Z.of_nat (List.length (distinct Z.eqb (map DATE logs))) in
  let total_available_hours := (total_working_days * 11)%Z in
  t <- DailyTable.loop (fun _ => machine_id) logs ;;
  let total_productive_time := DailyTable.total_sewing_hours t in
  let total_non_productive_time :=
    DailyTable.total_no_feeding_hours t + DailyTable.total_meeting_hours t
    + DailyTable.total_maintenance_hours t + DailyTable.total_idle_hours t in
  let total_hours := DailyTable.total_hours t in
  total_productive_percentage <- percent_if_positive total_productive_time total_hours ;;
  total_non_productive_percentage <-
    percent_if_positive total_non_productive_time total_hours ;;
  average_sewing_speed <- average_sewing_speed logs ;;
  Py.Ret (mk_machine_report
    machine_id total_available_hours total_working_days
    (Py.round2 total_hours)
    (Py.round2 total_productive_time)
    (Py.round2 total_productive_percentage)
    (Py.round2 total_non_productive_time)
    (Py.round2 total_non_productive_percentage)
    (Py.round2 (DailyTable.total_no_feeding_hours t))
    (Py.round2 (DailyTable.total_meeting_hours t))
    (Py.round2 (DailyTable.total_maintenance_hours t))
    (Py.round2 (DailyTable.total_idle_hours t))
    (DailyTable.total_OPERATION_COUNT t)
    (Py.round2 average_sewing_speed)
    (Py.round2 (DailyTable.total_SKIP_COUNT t))
    (DailyTable.formatted_table_data t)).

(** The [machine_id] of the URL: the text 'all', in any case, or a text
    that the lookup [MACHINE_ID=machine_id] reads as the integer [value].
    Any other text is answered with status 400 before a query is made. *)
Inductive url_machine_id : Type :=
| all_machines
| one_machine (text : string) (value : Z).

Definition lookup_value (machine_id : url_machine_id) : option Z :=
  match machine_id with
  | all_machines => None
  | one_machine _ value => Some value
  end.

(** The queryset [logs] of [machine_reports]; [machine_id = None] is the
    ['all'] of the URL. *)
Definition selected (operators : list Operator) (machine_id : option Z)
    (from_date to_date : option Z) (db : list MachineLog) : list MachineLog :=
  let valid_operators := map rfid_card_no operators in
  let logs :=
    match machine_id with
    | None => filter (valid_operator valid_operators) db
    | Some m => filter (fun l => (MACHINE_ID l =? m)%Z && valid_operator valid_operators l) db
    end in
  date_filter from_date to_date logs.

Definition report_logs (operators : list Operator) (machine_id : option Z)
    (from_date to_date : option Z) (db : list MachineLog) : list MachineLog :=
  normalize (selected operators machine_id from_date to_date db).

Definition machine_ids (logs : list MachineLog) : list Z :=
  order_by Z.leb (distinct Z.eqb (map MACHINE_ID logs)).

(** The loop over the machines: [machine_id] is the integer of the
    column. *)
Definition all_machine_reports (logs : list MachineLog)
  : Py.result (list machine_report) :=
  for_each (fun machine_id =>
              process_machine_data
                (filter (fun l => (MACHINE_ID l =? machine_id)%Z) logs)
                (Py.Int machine_id))
           (machine_ids logs).

Inductive response : Type :=
| AllMachines (allMachinesReport : list machine_report) (totalMachines : Z)
| OneMachine (machine_report : machine_report).

(** For one machine the helper is given the text of the URL as it is. *)
Definition machine_reports (operators : list Operator) (machine_id : url_machine_id)
    (from_date to_date : option Z) (db : list MachineLog) : Py.result response :=
  let logs := report_logs operators (lookup_value machine_id) from_date to_date db in
  match machine_id with
  | all_machines =>
      reports <- all_machine_reports logs ;;
      Py.Ret (AllMachines reports (Z.of_nat (List.length reports)))
  | one_machine text _ =>
      machine_report <- process_machine_data logs (Py.Str text) ;;
      Py.Ret (OneMachine machine_report)
  end.

(** [all_machines_report]: the global report.  Its loop catches any
    exception of [process_machine_data] and goes on with the next machine. *)
Definition global_selected (operators : list Operator)
    (from_date to_date : option Z) (db : list MachineLog) : list MachineLog :=
  date_filter from_date to_date
    (filter (valid_operator (map rfid_card_no operators)) db).

Definition global_logs (operators : list Operator) (from_date to_date : option Z)
    (db : list MachineLog) : list MachineLog :=
  normalize (global_selected operators from_date to_date db).

Definition all_machines_report (operators : list Operator)
    (from_date to_date : option Z) (db : list MachineLog)
  : list machine_report * Z :=
  let logs := global_logs operators from_date to_date db in
  let reports :=
    flat_map (fun machine_id =>
                match process_machine_data
                        (filter (fun l => (MACHINE_ID l =? machine_id)%Z) logs)
                        (Py.Int machine_id) with
                | Py.Ret r => [r]
                | Py.Raise _ => []
                end)
             (machine_ids logs) in
  (reports, Z.of_nat (List.length reports)).

End MachineReports.

(* ================================================================== *)
(** * Auxiliary definitions for the statements *)
(* ================================================================== *)

(** ** The annotation [reserve_numeric] and the aggregates over it *)

(** The value of the annotation on a row whose cast succeeds. *)
Definition reserve_value (l : MachineLog) : option Z :=
  match reserve_numeric l with
  | Py.Ret v => v
  | Py.Raise _ => None
  end.

(** The cast of the row succeeds. *)
Definition castable (l : MachineLog) : bool :=
  match reserve_numeric l with
  | Py.Ret _ => true
  | Py.Raise _ => false
  end.

(** The outcome of a computation that evaluates the cast on the rows
    [logs] and has the value [v] when each cast succeeds. *)
Definition evaluated {A : Type} (logs : list MachineLog) (v : A) : Py.result A :=
  if forallb castable logs then Py.Ret v else Py.Raise Py.DataError.

(** The speed of a row of a daily table, and the summary speed. *)
Definition daily_speed (group : list MachineLog) : Q :=
  Py.sum (map speed_or_zero (map reserve_value group))
  / inject_Z (Z.of_nat (List.length (map reserve_value group))).

Definition summary_speed (logs : list MachineLog) : Q :=
  Py.or0 (Avg (option_map inject_Z) (filter reserve_positive (map reserve_value logs))).

(** The row of one (date, operator) group of the operator report, and its
    daily table. *)
Definition row_value (k : Z * string) (group : list MachineLog)
  : OperatorReportsByName.table_row :=
  let sewing := SumCaseMode 1 OperatorFamily.duration_hours group in
  let meeting := SumCaseMode 4 OperatorFamily.duration_hours group in
  let no_feeding := SumCaseMode 3 OperatorFamily.duration_hours group in
  let maintenance := SumCaseMode 5 OperatorFamily.duration_hours group in
  OperatorReportsByName.mk_table_row (fst k) (snd k) sewing meeting no_feeding maintenance
    (SumZ OPERATION_COUNT group)
    (daily_speed group)
    (SumG SKIP_COUNT group)
    10
    (10 - (sewing + meeting + no_feeding + maintenance))
    (sewing / 10 * 100)
    (100 - sewing / 10 * 100).

Definition table_values (logs : list MachineLog) : list OperatorReportsByName.table_row :=
  map (fun k => row_value k
                  (filter (fun l => OperatorReportsByName.key_eqb
                                      (OperatorReportsByName.key_of l) k) logs))
      (order_by OperatorReportsByName.key_leb
         (distinct OperatorReportsByName.key_eqb (map OperatorReportsByName.key_of logs))).

(** The row of one date of [daily_data], and the rows of all dates. *)
Definition day_value (d : Z) (group : list MachineLog) : DailyTable.day :=
  DailyTable.mk_day d
    (SumCaseMode 1 WindowFamily.duration_hours group)
    (SumCaseMode 3 WindowFamily.duration_hours group)
    (SumCaseMode 4 WindowFamily.duration_hours group)
    (SumCaseMode 5 WindowFamily.duration_hours group)
    (SumCaseMode 2 WindowFamily.duration_hours group)
    (SumZ OPERATION_COUNT group)
    (daily_speed group)
    (SumG SKIP_COUNT group).

Definition daily_values (logs : list MachineLog) : list DailyTable.day :=
  map (fun d => day_value d (DailyTable.on_date d logs)) (DailyTable.dates logs).

(** The last column of the daily table of a line: the machine count of the
    date. *)
Definition line_last_column (logs : list MachineLog) (date : Z) : Py.scalar :=
  Py.Int (LineReports.machine_count logs date).

(** The date filters keep or drop a row on its own [DATE]. *)
Definition date_ok (from_date to_date : option Z) (l : MachineLog) : bool :=
  match from_date with Some d => (d <=? DATE l)%Z | None => true end
  && match to_date with Some d => (DATE l <=? d)%Z | None => true end.

(** A log lies inside a break. *)
Definition inside (b : Q * Q) (l : MachineLog) : Prop :=
  fst b <= start_seconds l /\ end_seconds l <= snd b.

(** The report families, each with the selector of its view. *)
Inductive family : Type :=
| operator_by_name (name : string)
| operator_all (operator : Operator)
| line (LINE_NUMBERer : option Z)
| machine (machine_id : option Z)
| global.

(** The logs that enter the aggregation of a view. *)
Definition aggregated_logs (f : family) (operators : list Operator)
    (from_date to_date : option Z) (db : list MachineLog) : list MachineLog :=
  match f with
  | operator_by_name name =>
      match OperatorReportsByName.report_logs operators name from_date to_date db with
      | Py.Ret logs => logs
      | Py.Raise _ => []
      end
  | operator_all operator => OperatorReportsAll.report_logs operator from_date to_date db
  | line n => LineReports.report_logs operators n from_date to_date db
  | machine m => MachineReports.report_logs operators m from_date to_date db
  | global => MachineReports.global_logs operators from_date to_date db
  end.

(** The rows a view has selected (entity and dates) when it annotates
    them. *)
Definition selected_logs (f : family) (operators : list Operator)
    (from_date to_date : option Z) (db : list MachineLog) : list MachineLog :=
  match f with
  | operator_by_name name =>
      match OperatorReportsByName.selected operators name from_date to_date db with
      | Py.Ret logs => logs
      | Py.Raise _ => []
      end
  | operator_all operator => OperatorReportsAll.selected operator from_date to_date db
  | line n => LineReports.selected operators n from_date to_date db
  | machine m => MachineReports.selected operators m from_date to_date db
  | global => MachineReports.global_selected operators from_date to_date db
  end.

(** The annotation [duration_hours] of a family. *)
Definition duration_hours_of (f : family) : MachineLog -> Q :=
  match f with
  | operator_by_name _ | operator_all _ => OperatorFamily.duration_hours
  | _ => WindowFamily.duration_hours
  end.

Definition clamped (f : family) : bool :=
  match f with
  | operator_by_name _ | operator_all _ => true
  | _ => false
  end.

(** The breaks of a family and the queryset its break exclusion is
    applied to. *)
Definition breaks_of (f : family) : list (Q * Q) :=
  if clamped f then OperatorFamily.breaks else WindowFamily.breaks.

Definition before_breaks (f : family) (rows : list MachineLog) : list MachineLog :=
  if clamped f then OperatorFamily.positive_duration rows
  else filter WindowFamily.in_window rows.

(** The span of the window a family uses, in hours: 08:30-19:30 in the
    operator views, 08:25-19:35 in the line, machine and global views. *)
Definition window_hours (f : family) : Q :=
  if clamped f then 11 else 11 + 10 / 60.

(** The span the specification gives: it puts the line view on the
    08:30-19:30 window. *)
Definition specified_window_hours (f : family) : Q :=
  match f with
  | operator_by_name _ | operator_all _ | line _ => 11
  | machine _ | global => 11 + 10 / 60
  end.

(** The entity a view reports on: its test on one row. *)
Definition entity_ok (f : family) (operators : list Operator) (l : MachineLog)
  : bool :=
  match f with
  | operator_by_name name =>
      if String.eqb name "All" then true
      else match OperatorReportsByName.get_by_name operators name with
           | Py.Ret operator => String.eqb (OPERATOR_ID l) (rfid_card_no operator)
           | Py.Raise _ => false
           end
  | operator_all operator => String.eqb (OPERATOR_ID l) (rfid_card_no operator)
  | line (Some n) => (LINE_NUMBER l =? n)%Z
  | machine (Some m) => (MACHINE_ID l =? m)%Z
  | line None | machine None | global => true
  end.

(** What a view asks of the operator id of a row: the operator views drop
    the rows of operator "0" in mode 2, the other views keep the rows of the
    operators of the directory. *)
Definition operator_id_ok (f : family) (operators : list Operator) (l : MachineLog)
  : bool :=
  if clamped f then negb (String.eqb (OPERATOR_ID l) "0" && (MODE l =? 2)%Z)
  else existsb (String.eqb (OPERATOR_ID l)) (map rfid_card_no operators).

(** What a view asks of the times of a row. *)
Definition times_ok (f : family) (l : MachineLog) : bool :=
  (if clamped f then Py.gtb (OperatorFamily.duration_hours l) 0
   else WindowFamily.in_window l)
  && negb (in_some_break (breaks_of f) l).

(** The hours of one mode bucket of a queryset of an operator view. *)
Definition bucket_hours (m : Z) (logs : list MachineLog) : Q :=
  SumG OperatorFamily.duration_hours (filter (fun l => (MODE l =? m)%Z) logs).

(** The number of distinct working days of a queryset. *)
Definition working_days (logs : list MachineLog) : Z :=
  Z.of_nat (List.length (distinct Z.eqb (map DATE logs))).

(** The value of [(num / den * 100) if den > 0 else 0]. *)
Definition guarded_percent (num den : Q) : Q :=
  if Py.gtb den 0 then num / den * 100 else 0.

(** The value of [total / n if n > 0 else 0] for a count [n]. *)
Definition guarded_mean (total : Q) (n : Z) : Q :=
  if (0 <? n)%Z then total / inject_Z n else 0.

(** Two shown figures that differ by no more than one hundredth. *)
Definition within_a_hundredth (p q : Q) : Prop :=
  q - (1 # 100) <= p <= q + (1 # 100).

(** What the operator report shows for one row of its daily table: the
    percentages are each rounded after the non-productive one is taken from
    100. *)
Definition daily_row_shown (operators : list Operator)
    (row : OperatorReportsByName.table_row) : Prop :=
  let shown := OperatorReportsByName.format_row operators row in
  let sewing := OperatorReportsByName.sewing_hours row in
  let meeting := OperatorReportsByName.meeting_hours row in
  let no_feeding := OperatorReportsByName.no_feeding_hours row in
  let maintenance := OperatorReportsByName.maintenance_hours row in
  let idle := OperatorReportsByName.idle_hours row in
  OperatorReportsByName.Total_Hours shown == 10
  /\ OperatorReportsByName.productive_time_percentage row == sewing / 10 * 100
  /\ OperatorReportsByName.row_npt_percentage row
     == 100 - OperatorReportsByName.productive_time_percentage row
  /\ OperatorReportsByName.Productive_Time_in_pct shown
     = Py.round2 (OperatorReportsByName.productive_time_percentage row)
  /\ OperatorReportsByName.NPT_in_pct shown
     = Py.round2 (OperatorReportsByName.row_npt_percentage row)
  /\ within_a_hundredth
       (OperatorReportsByName.NPT_in_pct shown)
       (100 - OperatorReportsByName.Productive_Time_in_pct shown)
  /\ idle == 10 - (sewing + meeting + no_feeding + maintenance)
  /\ OperatorReportsByName.Idle_Hours shown = Py.round2 (Py.max idle 0)
  /\ 0 <= OperatorReportsByName.Idle_Hours shown
  /\ OperatorReportsByName.row_npt_percentage row
     == (meeting + no_feeding + maintenance + idle) / 10 * 100.

(** ** The loop over [daily_data], without the error monad *)

(** The hours of a day as the loop body reads them. *)
Definition day_productive_time (data : DailyTable.day) : Q :=
  Py.or0 (Some (DailyTable.sewing_hours data)).

Definition day_non_productive_time (data : DailyTable.day) : Q :=
  Py.or0 (Some (DailyTable.no_feeding_hours data))
  + Py.or0 (Some (DailyTable.meeting_hours data))
  + Py.or0 (Some (DailyTable.maintenance_hours data))
  + Py.or0 (Some (DailyTable.idle_hours data)).

Definition daily_total_hours (data : DailyTable.day) : Q :=
  day_productive_time data + day_non_productive_time data.

(** The formatted row of a day. *)
Definition shown_day (last_column : Z -> Py.scalar) (data : DailyTable.day)
  : DailyTable.formatted_row :=
  DailyTable.mk_formatted_row (DailyTable.day_DATE data)
    (Py.round2 (Py.or0 (Some (DailyTable.sewing_hours data))))
    (Py.round2 (Py.or0 (Some (DailyTable.no_feeding_hours data))))
    (Py.round2 (Py.or0 (Some (DailyTable.meeting_hours data))))
    (Py.round2 (Py.or0 (Some (DailyTable.maintenance_hours data))))
    (Py.round2 (Py.or0 (Some (DailyTable.idle_hours data))))
    (Py.round2 (daily_total_hours data))
    (Py.round2 (guarded_percent (day_productive_time data) (daily_total_hours data)))
    (Py.round2 (guarded_percent (day_non_productive_time data) (daily_total_hours data)))
    (Py.round2 (DailyTable.sewing_speed data))
    (DailyTable.day_OPERATION_COUNT data)
    (DailyTable.day_SKIP_COUNT data)
    (last_column (DailyTable.day_DATE data)).

(** One turn of the loop. *)
Definition add_day (last_column : Z -> Py.scalar) (t : DailyTable.totals)
    (data : DailyTable.day) : DailyTable.totals :=
  DailyTable.mk_totals
    (DailyTable.total_sewing_hours t + Py.or0 (Some (DailyTable.sewing_hours data)))
    (DailyTable.total_no_feeding_hours t + Py.or0 (Some (DailyTable.no_feeding_hours data)))
    (DailyTable.total_meeting_hours t + Py.or0 (Some (DailyTable.meeting_hours data)))
    (DailyTable.total_maintenance_hours t + Py.or0 (Some (DailyTable.maintenance_hours data)))
    (DailyTable.total_idle_hours t + Py.or0 (Some (DailyTable.idle_hours data)))
    (DailyTable.total_OPERATION_COUNT t + DailyTable.day_OPERATION_COUNT data)%Z
    (DailyTable.total_SKIP_COUNT t + Py.or0 (Some (DailyTable.day_SKIP_COUNT data)))
    (DailyTable.total_hours t + daily_total_hours data)
    (DailyTable.formatted_table_data t ++ [shown_day last_column data]).

(** The totals when the loop is done. *)
Definition day_totals (last_column : Z -> Py.scalar) (logs : list MachineLog)
  : DailyTable.totals :=
  fold_left (add_day last_column) (daily_values logs) DailyTable.initial.

(** ** The values the views return *)

(** The response of [operator_reports_by_name] on its filtered queryset. *)
Definition by_name_value (operators : list Operator) (logs : list MachineLog)
  : OperatorReportsByName.response :=
  let production := OperatorReportsByName.total_production_hours logs in
  let non_production := OperatorReportsByName.total_non_production_hours logs in
  let available := OperatorReportsByName.total_available_hours logs in
  OperatorReportsByName.mk_response
    (Py.round2 production)
    (Py.round2 non_production)
    (Py.round2 (OperatorReportsByName.total_idle_hours logs))
    (Py.round2 (guarded_percent production available))
    (Py.round2 (guarded_percent non_production available))
    (Py.round2 (summary_speed logs))
    (OperatorReportsByName.total_OPERATION_COUNT logs)
    (Py.round2 (guarded_mean (OperatorReportsByName.total_SKIP_COUNT logs)
                  (OperatorReportsByName.SKIP_COUNT_instances logs)))
    (Py.round2 (guarded_percent
                  (OperatorReportsByName.total_SKIP_COUNT_hours logs) production))
    (map (OperatorReportsByName.format_row operators)
         (table_values logs))
    (Py.round2 available)
    (Py.round2 production)
    (Py.round2 non_production).

Definition non_productive_total (t : DailyTable.totals) : Q :=
  DailyTable.total_no_feeding_hours t + DailyTable.total_meeting_hours t
  + DailyTable.total_maintenance_hours t + DailyTable.total_idle_hours t.

(** The dictionary of [process_line_data]. *)
Definition line_report_value (logs : list MachineLog) (LINE_NUMBERer : Z)
  : LineReports.line_report :=
  let t := day_totals (line_last_column logs) logs in
  LineReports.mk_line_report
    LINE_NUMBERer
    (Py.round2 (LineReports.total_ideal_hours logs))
    (Py.round2 (guarded_percent (DailyTable.total_hours t)
                                (LineReports.total_ideal_hours logs)))
    (LineReports.total_working_days logs)
    (Py.round2 (guarded_mean
                  (inject_Z (SumZ snd (LineReports.daily_machine_counts logs)))
                  (LineReports.total_working_days logs)))
    (Py.round2 (DailyTable.total_hours t))
    (Py.round2 (DailyTable.total_sewing_hours t))
    (Py.round2 (guarded_percent (DailyTable.total_sewing_hours t)
                                (DailyTable.total_hours t)))
    (Py.round2 (non_productive_total t))
    (Py.round2 (guarded_percent (non_productive_total t) (DailyTable.total_hours t)))
    (Py.round2 (DailyTable.total_no_feeding_hours t))
    (Py.round2 (DailyTable.total_meeting_hours t))
    (Py.round2 (DailyTable.total_maintenance_hours t))
    (Py.round2 (DailyTable.total_idle_hours t))
    (DailyTable.total_OPERATION_COUNT t)
    (Py.round2 (summary_speed logs))
    (Py.round2 (guarded_mean (DailyTable.total_SKIP_COUNT t)
                             (LineReports.SKIP_COUNT_instances logs)))
    (Py.round2 (guarded_percent (DailyTable.total_SKIP_COUNT t / 3600)
                                (DailyTable.total_sewing_hours t)))
    (DailyTable.formatted_table_data t).

(** The dictionary of [process_machine_data]. *)
Definition machine_report_value (logs : list MachineLog) (machine_id : Py.scalar)
  : MachineReports.machine_report :=
  let t := day_totals (fun _ => machine_id) logs in
  MachineReports.mk_machine_report
    machine_id (working_days logs * 11)%Z (working_days logs)
    (Py.round2 (DailyTable.total_hours t))
    (Py.round2 (DailyTable.total_sewing_hours t))
    (Py.round2 (guarded_percent (DailyTable.total_sewing_hours t)
                                (DailyTable.total_hours t)))
    (Py.round2 (non_productive_total t))
    (Py.round2 (guarded_percent (non_productive_total t) (DailyTable.total_hours t)))
    (Py.round2 (DailyTable.total_no_feeding_hours t))
    (Py.round2 (DailyTable.total_meeting_hours t))
    (Py.round2 (DailyTable.total_maintenance_hours t))
    (Py.round2 (DailyTable.total_idle_hours t))
    (DailyTable.total_OPERATION_COUNT t)
    (Py.round2 (summary_speed logs))
    (Py.round2 (DailyTable.total_SKIP_COUNT t))
    (DailyTable.formatted_table_data t).

(** The per-line reports of the response for all lines. *)
Definition line_report_values (logs : list MachineLog) : list LineReports.line_report :=
  map (fun line_num =>
         line_report_value (filter (fun l => (LINE_NUMBER l =? line_num)%Z) logs) line_num)
      (LineReports.LINE_NUMBERers logs).

(** The accumulators after the loop over the lines. *)
Definition accumulated (reports : list LineReports.line_report)
  : LineReports.summary_data :=
  fold_left LineReports.accumulate reports LineReports.summary_initial.

(** The accumulators after the three updates that follow the loop. *)
Definition averaged (s : LineReports.summary_data) : LineReports.summary_data :=
  LineReports.mk_summary_data
    (LineReports.sd_totalIdealHours s) (LineReports.sd_totalHours s)
    (LineReports.sd_totalProductiveTime s) (LineReports.sd_totalNonProductiveTime s)
    (LineReports.sd_totalStitchCount s) (LineReports.sd_totalNeedleRuntime s)
    (if Py.gtb (LineReports.speed_count s) 0
     then LineReports.speed_sum s / LineReports.speed_count s
     else LineReports.sd_averageSewingSpeed s)
    (LineReports.sd_totalWorkingDays s)
    (if (0 <? Z.of_nat (List.length (LineReports.all_line_reports s)))%Z
     then LineReports.sd_averageMachines s
          / inject_Z (Z.of_nat (List.length (LineReports.all_line_reports s)))
     else LineReports.sd_averageMachines s)
    (if Py.gtb (LineReports.sd_totalProductiveTime s) 0
     then Some (LineReports.sd_totalNeedleRuntime s
                / LineReports.sd_totalProductiveTime s * 100)
     else LineReports.sd_needleRuntimePercentage s)
    (LineReports.speed_sum s) (LineReports.speed_count s)
    (LineReports.SKIP_COUNT_count s) (LineReports.all_line_reports s).

(** The ["summary"] object built from the accumulators. *)
Definition summary_value (s : LineReports.summary_data) : LineReports.summary :=
  LineReports.mk_summary
    (Z.of_nat (List.length (LineReports.all_line_reports s)))
    (Py.round2 (LineReports.sd_totalIdealHours s))
    (Py.round2 (guarded_percent (LineReports.sd_totalHours s)
                                (LineReports.sd_totalIdealHours s)))
    (LineReports.sd_totalWorkingDays s)
    (Py.round2 (LineReports.sd_averageMachines s))
    (Py.round2 (LineReports.sd_totalHours s))
    (Py.round2 (LineReports.sd_totalProductiveTime s))
    (Py.round2 (guarded_percent (LineReports.sd_totalProductiveTime s)
                                (LineReports.sd_totalHours s)))
    (Py.round2 (LineReports.sd_totalNonProductiveTime s))
    (Py.round2 (guarded_percent (LineReports.sd_totalNonProductiveTime s)
                                (LineReports.sd_totalHours s)))
    (LineReports.sd_totalStitchCount s)
    (Py.round2 (LineReports.sd_averageSewingSpeed s))
    (Py.round2 (LineReports.sd_totalNeedleRuntime s))
    (Py.round2 (match LineReports.sd_needleRuntimePercentage s with
                | Some v => v
                | None => 0
                end)).

(** ** The metrics as the specification words them *)

(** Needle-runtime %: the skip counts of the production logs, as hours,
    over the productive hours, times 100; 0 without productive hours. *)
Definition needle_runtime_percent (duration : MachineLog -> Q)
    (logs : list MachineLog) : Q :=
  let production := filter (fun l => (MODE l =? 1)%Z) logs in
  guarded_percent (SumG SKIP_COUNT production / 3600) (SumG duration production).

(** The duration-weighted mean of the average speeds of the entities: the
    sum of speed x total hours over the sum of total hours; 0 when that sum
    is not positive. *)
Definition weighted_mean_speed (reports : list LineReports.line_report) : Q :=
  let hours := Py.sum (map LineReports.totalHours reports) in
  if Py.gtb hours 0
  then Py.sum (map (fun r => LineReports.averageSewingSpeed r * LineReports.totalHours r)
                   reports) / hours
  else 0.

(** The simple mean of the average machine counts of the entities. *)
Definition mean_machines (reports : list LineReports.line_report) : Q :=
  guarded_mean (Py.sum (map LineReports.averageMachines reports))
               (Z.of_nat (List.length reports)).

(** The coerced reserve values that are positive. *)
Definition positive_reserves (logs : list MachineLog) : list Q :=
  flat_map (fun l => match reserve_value l with
                     | Some v => if (0 <? v)%Z then [inject_Z v] else []
                     | None => []
                     end) logs.

(** Average sewing speed: the mean of the positive coerced reserve values;
    0 when there is none. *)
Definition mean_positive_reserve (logs : list MachineLog) : Q :=
  match positive_reserves logs with
  | [] => 0
  | vs => Py.sum vs / inject_Z (Z.of_nat (List.length vs))
  end.

(** A number of hundredths, as [round(x, 2)] returns. *)
Definition hundredths (q : Q) : Prop := exists z : Z, q == inject_Z z / 100.

(** ** Zero denominators *)

(** The fields of the operator report whose denominator is zero. *)
Definition zero_guards_by_name (logs : list MachineLog)
    (r : OperatorReportsByName.response) : Prop :=
  (OperatorReportsByName.total_available_hours logs == 0 ->
   OperatorReportsByName.productionPercentage r == 0
   /\ OperatorReportsByName.nptPercentage r == 0)
  /\ (OperatorReportsByName.total_production_hours logs == 0 ->
      OperatorReportsByName.needleRuntimePercentage r == 0)
  /\ (OperatorReportsByName.SKIP_COUNT_instances logs = 0%Z ->
      OperatorReportsByName.totalNeedleRuntime r == 0)
  /\ (positive_reserves logs = [] ->
      OperatorReportsByName.averageSewingSpeed r == 0).

(** The percentages of a row of a daily table on a day without hours. *)
Definition zero_guards_day (data : DailyTable.day) (row : DailyTable.formatted_row)
  : Prop :=
  daily_total_hours data == 0 ->
  DailyTable.Productive_Time_PT_pct row == 0
  /\ DailyTable.Non_Productive_Time_NPT_pct row == 0.

(** The fields of the report of a line whose denominator is zero. *)
Definition zero_guards_line (logs : list MachineLog) (r : LineReports.line_report)
  : Prop :=
  let t := day_totals (line_last_column logs) logs in
  (DailyTable.total_hours t == 0 ->
   LineReports.totalProductiveTime_percentage r == 0
   /\ LineReports.totalNonProductiveTime_percentage r == 0)
  /\ (LineReports.total_ideal_hours logs == 0 ->
      LineReports.utilizationPercentage r == 0)
  /\ (DailyTable.total_sewing_hours t == 0 ->
      LineReports.needleRuntimePercentage r == 0)
  /\ (LineReports.SKIP_COUNT_instances logs = 0%Z ->
      LineReports.totalNeedleRuntime r == 0)
  /\ (LineReports.total_working_days logs = 0%Z ->
      LineReports.averageMachines r == 0)
  /\ (positive_reserves logs = [] -> LineReports.averageSewingSpeed r == 0)
  /\ Forall2 zero_guards_day (daily_values logs) (LineReports.tableData r).

(** The fields of the report of a machine whose denominator is zero. *)
Definition zero_guards_machine (logs : list MachineLog) (machine_id : Py.scalar)
    (r : MachineReports.machine_report) : Prop :=
  let t := day_totals (fun _ => machine_id) logs in
  (DailyTable.total_hours t == 0 ->
   MachineReports.totalProductiveTime_percentage r == 0
   /\ MachineReports.totalNonProductiveTime_percentage r == 0)
  /\ (positive_reserves logs = [] -> MachineReports.averageSewingSpeed r == 0)
  /\ Forall2 zero_guards_day (daily_values logs) (MachineReports.tableData r).

(** The fields of the summary for all lines whose denominator is zero. *)
Definition zero_guards_summary (s : LineReports.summary_data)
    (summary : LineReports.summary) : Prop :=
  (LineReports.sd_totalHours s == 0 ->
   LineReports.s_totalProductiveTime_percentage summary == 0
   /\ LineReports.s_totalNonProductiveTime_percentage summary == 0)
  /\ (LineReports.sd_totalIdealHours s == 0 ->
      LineReports.s_utilizationPercentage summary == 0)
  /\ (LineReports.sd_totalProductiveTime s == 0 ->
      LineReports.s_needleRuntimePercentage summary == 0)
  /\ (LineReports.speed_count s == 0 ->
      LineReports.s_averageSewingSpeed summary == 0)
  /\ (LineReports.all_line_reports s = [] ->
      LineReports.s_averageMachines summary == 0).

(** The percentages of an entry of [operator_reports_all] without available
    hours: the non-productive one is 100 less the productive one. *)
Definition zero_guards_operator_all (logs : list MachineLog)
    (e : OperatorReportsAll.entry) : Prop :=
  OperatorReportsAll.total_available_hours logs == 0 ->
  OperatorReportsAll.productionPercentage e == 0
  /\ OperatorReportsAll.nptPercentage e == 100.

(** The entry of [operator_reports_all] for one operator. *)
Definition operator_entry_value (operator : Operator) (logs : list MachineLog)
  : OperatorReportsAll.entry :=
  let production :=
    guarded_percent (OperatorReportsAll.total_production_hours logs)
                    (OperatorReportsAll.total_available_hours logs) in
  OperatorReportsAll.mk_entry (rfid_card_no operator) (operator_name operator)
    (Py.round2 (OperatorReportsAll.total_production_hours logs))
    (Py.round2 (OperatorReportsAll.total_non_production_hours logs))
    (Py.round2 production)
    (Py.round2 (100 - production)).

(** ** Sample data *)

Definition sample_operators : list Operator :=
  [ mk_operator "A1" "Asha"; mk_operator "B2" "Bala" ].

(** A log of machine 7 on line 1 on day 100. *)
Definition sample_log (operator_id : string) (start_time end_time : time)
    (mode : Z) (skip_count : Q) (reserve : option string) : MachineLog :=
  mk_log 7 1 operator_id 100 start_time end_time mode 50 skip_count reserve.

(** 09:00-10:00, production. *)
Definition log_morning : MachineLog :=
  sample_log "A1" (mk_time 9 0 0) (mk_time 10 0 0) 1 360 (Some "100"%string).

(** 08:25-19:35, the whole window of the line, machine and global views. *)
Definition log_whole_window : MachineLog :=
  sample_log "A1" (mk_time 8 25 0) (mk_time 19 35 0) 1 0 None.

(** 10:00-09:00: the end time is before the start time. *)
Definition log_backwards : MachineLog :=
  sample_log "A1" (mk_time 10 0 0) (mk_time 9 0 0) 1 0 None.

(** 10:30-10:40, exactly the mid-morning break. *)
Definition log_in_break : MachineLog :=
  sample_log "A1" (mk_time 10 30 0) (mk_time 10 40 0) 1 0 None.

(** 10:20-10:35, across the start of the mid-morning break. *)
Definition log_straddling : MachineLog :=
  sample_log "A1" (mk_time 10 20 0) (mk_time 10 35 0) 1 0 None.

(** 09:00-10:00, production, no operator assigned. *)
Definition log_unassigned_sewing : MachineLog :=
  sample_log "0" (mk_time 9 0 0) (mk_time 10 0 0) 1 0 None.

(** 09:00-10:00, idle, no operator assigned. *)
Definition log_unassigned_idle : MachineLog :=
  sample_log "0" (mk_time 9 0 0) (mk_time 10 0 0) 2 0 None.

(** A directory that has an operator with card number "0". *)
Definition operators_with_zero : list Operator :=
  [ mk_operator "0" "Spare"; mk_operator "A1" "Asha" ].

(** 08:30-19:30, production: the whole window of the operator views. *)
Definition log_full_shift : MachineLog :=
  sample_log "A1" (mk_time 8 30 0) (mk_time 19 30 0) 1 0 None.

(** 11:00-12:00, no feeding, with a skip count of its own. *)
Definition log_no_feeding : MachineLog :=
  sample_log "A1" (mk_time 11 0 0) (mk_time 12 0 0) 3 360 (Some "0"%string).

(** 09:00-12:00 on line 2, production at speed 200. *)
Definition log_line_two : MachineLog :=
  mk_log 8 2 "B2" 100 (mk_time 9 0 0) (mk_time 12 0 0) 1 70 0 (Some "200"%string).

(** 08:00-12:00: starts before the window of the line view. *)
Definition log_early : MachineLog :=
  sample_log "A1" (mk_time 8 0 0) (mk_time 12 0 0) 1 0 None.

(** 09:00-10:00, production, with a reserve that is no integer. *)
Definition log_bad_reserve : MachineLog :=
  sample_log "A1" (mk_time 9 0 0) (mk_time 10 0 0) 1 0 (Some "abc"%string).

(* ================================================================== *)
(** * calculate_operator_efficiency *)
(* ================================================================== *)

(** The invariant of a [datetime.time] (to the second). *)
Definition valid_time (t : time) : Prop :=
  (0 <= hour t < 24 /\ 0 <= minute t < 60 /\ 0 <= second t < 60)%Z.

Module OperatorEfficiency.

Definition standard_work_time : Z := (8 * 3600)%Z.

(** One dictionary of the response. *)
Record entry : Type := mk_entry {
  operator : string;
  efficiency : Q
}.

(** [actual_work_time] of a log, with the adjustment of an end time on the
    next day. *)
Definition actual_work_time (log : MachineLog) : Z :=
  let start_seconds := time_to_seconds (START_TIME log) in
  let end_seconds := time_to_seconds (END_TIME log) in
  let end_seconds :=
    if (end_seconds <? start_seconds)%Z then (end_seconds + 24 * 3600)%Z
    else end_seconds in
  (end_seconds - start_seconds)%Z.

(** The body of the loop over the logs. *)
Definition log_entry (log : MachineLog) : Py.result entry :=
  efficiency <-
    (if (0 <? standard_work_time)%Z
     then q <- Py.div (inject_Z (actual_work_time log)) (inject_Z standard_work_time) ;;
          Py.Ret (q * 100)
     else Py.Ret 0) ;;
  Py.Ret (mk_entry ("Operator " ++ OPERATOR_ID log) (Py.round2 efficiency)).

Definition calculate_operator_efficiency (db : list MachineLog)
  : Py.result (list entry) :=
  for_each log_entry db.

End OperatorEfficiency.

(* ================================================================== *)
(** * Auxiliary definitions for further properties of the reports *)
(* ================================================================== *)

(** Two percentages that add up to 100, or are both 0. *)
Definition complementary (p q : Q) : Prop :=
  p + q == 100 \/ (p == 0 /\ q == 0).

(** Two shown percentages [p] and [q]: each is the rounding of a
    percentage, the two percentages add up to 100 or are both 0, and so the
    shown ones add up to 100 up to one hundredth or are both 0. *)
Definition shown_complementary (p q : Q) : Prop :=
  (exists p' q', p = Py.round2 p' /\ q = Py.round2 q' /\ complementary p' q')
  /\ (within_a_hundredth (p + q) 100 \/ (p == 0 /\ q == 0)).

(** The two percentages of a row of a daily table. *)
Definition row_complementary (row : DailyTable.formatted_row) : Prop :=
  shown_complementary (DailyTable.Productive_Time_PT_pct row)
                      (DailyTable.Non_Productive_Time_NPT_pct row).


(** The hours of the four named buckets of an operator queryset. *)
Definition named_bucket_hours (logs : list MachineLog) : Q :=
  bucket_hours 1 logs + bucket_hours 3 logs + bucket_hours 4 logs + bucket_hours 5 logs.




(** A row of a daily table and a report of a machine under another
    label: a report carries the [machine_id] it was asked for as
    [machineId] and as the 'Machine ID' of each row. *)
Definition relabel_row (last_column : Z -> Py.scalar) (row : DailyTable.formatted_row)
  : DailyTable.formatted_row :=
  DailyTable.mk_formatted_row
    (DailyTable.Date row) (DailyTable.Sewing_Hours_PT row)
    (DailyTable.No_Feeding_Hours row) (DailyTable.Meeting_Hours row)
    (DailyTable.Maintenance_Hours row) (DailyTable.Idle_Hours row)
    (DailyTable.Total_Hours row) (DailyTable.Productive_Time_PT_pct row)
    (DailyTable.Non_Productive_Time_NPT_pct row) (DailyTable.Sewing_Speed row)
    (DailyTable.Stitch_Count row) (DailyTable.Needle_Runtime row)
    (last_column (DailyTable.Date row)).

Definition relabel_totals (last_column : Z -> Py.scalar) (t : DailyTable.totals)
  : DailyTable.totals :=
  DailyTable.mk_totals
    (DailyTable.total_sewing_hours t) (DailyTable.total_no_feeding_hours t)
    (DailyTable.total_meeting_hours t) (DailyTable.total_maintenance_hours t)
    (DailyTable.total_idle_hours t) (DailyTable.total_OPERATION_COUNT t)
    (DailyTable.total_SKIP_COUNT t) (DailyTable.total_hours t)
    (map (relabel_row last_column) (DailyTable.formatted_table_data t)).

Definition relabel (machine_id : Py.scalar) (r : MachineReports.machine_report)
  : MachineReports.machine_report :=
  MachineReports.mk_machine_report
    machine_id (MachineReports.totalAvailableHours r) (MachineReports.totalWorkingDays r)
    (MachineReports.totalHours r) (MachineReports.totalProductiveTime_hours r)
    (MachineReports.totalProductiveTime_percentage r)
    (MachineReports.totalNonProductiveTime_hours r)
    (MachineReports.totalNonProductiveTime_percentage r)
    (MachineReports.breakdown_noFeedingHours r) (MachineReports.breakdown_meetingHours r)
    (MachineReports.breakdown_maintenanceHours r) (MachineReports.breakdown_idleHours r)
    (MachineReports.totalStitchCount r) (MachineReports.averageSewingSpeed r)
    (MachineReports.totalNeedleRuntime r)
    (map (relabel_row (fun _ => machine_id)) (MachineReports.tableData r)).

(* ================================================================== *)
(** * The stored rows and the other views of logs/views.py *)
(* ================================================================== *)

(** The columns of [MachineLog] that the report views do not read.  A row
    of the table is the columns above, these, and [created_at]. *)
Record payload : Type := mk_payload {
  columns : MachineLog;
  Tx_LOG_ID : Z;
  STORED_LOG_ID : Z;
  DEVICE_ID : Z;
  NEEDLE_STOPTIME : Q
}.

Record StoredLog : Type := mk_stored {
  data : payload;
  created_at : Z
}.

Definition log_of (row : StoredLog) : MachineLog := columns (data row).

Record ModeMessage : Type := mk_mode_message {
  mode : Z;
  message : string
}.

Definition time_eqb (a b : time) : bool :=
  (hour a =? hour b)%Z && (minute a =? minute b)%Z && (second a =? second b)%Z.

(** [enumerate(xs, start=i)]. *)
Fixpoint enumerate (i : Z) {A : Type} (xs : list A) : list (Z * A) :=
  match xs with
  | [] => []
  | x :: r => (i, x) :: enumerate (i + 1) r
  end.

(** ** log_machine_data *)

Module LogMachineData.

(** The request as the view reads it: whether [int(data.get("MODE"))]
    succeeds, and the serializer's [validated_data] when it is valid. *)
Record request : Type := mk_request {
  MODE_is_integer : bool;
  validated_data : option payload
}.

Inductive response : Type :=
| InvalidModeFormat
| ValidationFailed
| MachineAndDateRequired
| DuplicateLogEntry
| LogSaved.

(** The HTTP status of each response. *)
Definition status (r : response) : Z :=
  match r with
  | InvalidModeFormat => 400
  | ValidationFailed => 201
  | MachineAndDateRequired => 400
  | DuplicateLogEntry => 201
  | LogSaved => 200
  end.

(** The duplicate test: the same machine, operator, start time, end time
    and date. *)
Definition same_entry (a b : MachineLog) : bool :=
  (MACHINE_ID a =? MACHINE_ID b)%Z
  && String.eqb (OPERATOR_ID a) (OPERATOR_ID b)
  && time_eqb (START_TIME a) (START_TIME b)
  && time_eqb (END_TIME a) (END_TIME b)
  && (DATE a =? DATE b)%Z.

(** "Adjust STORED_LOG_ID if needed". *)
Definition adjust_stored_log_id (v : payload) : payload :=
  if (1000 <? STORED_LOG_ID v)%Z
  then mk_payload (columns v) (Tx_LOG_ID v) (STORED_LOG_ID v - 1000) (DEVICE_ID v)
                  (NEEDLE_STOPTIME v)
  else v.

(** The view on the table [db] at time [now]: the response and the table
    afterwards.  A [date] is always true in a condition, so "not machine_id
    or not log_date" is the test that the machine id is 0. *)
Definition log_machine_data (req : request) (now : Z) (db : list StoredLog)
  : response * list StoredLog :=
  if negb (MODE_is_integer req) then (InvalidModeFormat, db)
  else
    match validated_data req with
    | None => (ValidationFailed, db)
    | Some validated =>
        if (MACHINE_ID (columns validated) =? 0)%Z then (MachineAndDateRequired, db)
        else
          let validated := adjust_stored_log_id validated in
          if existsb (fun row => same_entry (log_of row) (columns validated)) db
          then (DuplicateLogEntry, db)
          else (LogSaved, db ++ [mk_stored validated now])
    end.

End LogMachineData.

(** No two rows of a table are the same entry. *)
Definition unique_entries (db : list StoredLog) : Prop :=
  ForallOrdPairs (fun a b => LogMachineData.same_entry (log_of a) (log_of b) = false) db.

(** ** MachineLogSerializer, get_machine_logs and get_consolidated_logs *)

Module Serializer.

(** [get_operator_name]: the name of the operator with the log's card
    number, [None] when there is none. *)
Definition get_operator_name (operators : list Operator) (obj : StoredLog)
  : option string :=
  match filter (fun o => String.eqb (rfid_card_no o) (OPERATOR_ID (log_of obj)))
               operators with
  | operator :: _ => Some (operator_name operator)
  | [] => None
  end.

(** [get_mode_description]: the message of the first [ModeMessage] of the
    log's mode, "N/A" when there is none. *)
Definition get_mode_description (messages : list ModeMessage) (obj : StoredLog)
  : string :=
  match filter (fun m => (mode m =? MODE (log_of obj))%Z) messages with
  | mode_message :: _ => message mode_message
  | [] => "N/A"%string
  end.

(** One serialized log, with the ['index'] the views add. *)
Record serialized : Type := mk_serialized {
  index : Z;
  fields : StoredLog;
  s_operator_name : option string;
  mode_description : string
}.

Definition serialize (operators : list Operator) (messages : list ModeMessage)
    (item : Z * StoredLog) : serialized :=
  mk_serialized (fst item) (snd item)
    (get_operator_name operators (snd item))
    (get_mode_description messages (snd item)).

(** The date filters of the two views, on stored rows. *)
Definition stored_date_filter (from_date to_date : option Z) (logs : list StoredLog)
  : list StoredLog :=
  let logs1 := match from_date with
               | Some d => filter (fun r => (d <=? DATE (log_of r))%Z) logs
               | None => logs
               end in
  match to_date with
  | Some d => filter (fun r => (DATE (log_of r) <=? d)%Z) logs1
  | None => logs1
  end.

(** [get_machine_logs]: the logs by descending [created_at], date-filtered,
    serialized and indexed from 1. *)
Definition get_machine_logs (operators : list Operator) (messages : list ModeMessage)
    (from_date to_date : option Z) (db : list StoredLog) : list serialized :=
  let logs := order_by (fun a b => (created_at b <=? created_at a)%Z) db in
  let logs := stored_date_filter from_date to_date logs in
  map (serialize operators messages) (enumerate 1 logs).

(** [get_consolidated_logs]: the date-filtered logs by descending [DATE],
    the first 10000 of them, serialized and indexed from 1. *)
Definition get_consolidated_logs (operators : list Operator)
    (messages : list ModeMessage) (from_date to_date : option Z)
    (db : list StoredLog) : list serialized :=
  let logs := stored_date_filter from_date to_date db in
  let logs := firstn (Z.to_nat 10000)
                (order_by (fun a b => (DATE (log_of b) <=? DATE (log_of a))%Z) logs) in
  map (serialize operators messages) (enumerate 1 logs).

End Serializer.

(** The rows of a table inside a date range. *)
Definition stored_in_range (from_date to_date : option Z) (db : list StoredLog)
  : list StoredLog :=
  filter (fun r => date_ok from_date to_date (log_of r)) db.

(** ** filter_logs and filter_logs_by_machine_id *)

Module FilterLogs.

(** The dictionary [MODES] and [MODES.get(mode, 'Unknown mode')]. *)
Definition MODES : list (Z * string) :=
  [ (1, "Sewing"); (2, "Idle"); (3, "No feeding"); (4, "Meeting");
    (5, "Maintenance") ]%Z%string.

Definition MODES_get (m : Z) (default : string) : string :=
  match find (fun item => (fst item =? m)%Z) MODES with
  | Some item => snd item
  | None => default
  end.

(** The query parameter that names the line or the machine: absent or
    empty, 'all' in any case of letters, or a number. *)
Inductive entity_parameter : Type :=
| Absent
| All
| Number (n : Z).

(** One dictionary of the response: the fields of the log and the two
    derived ones. *)
Record log_data : Type := mk_log_data {
  fields : StoredLog;
  mode_description : string;
  operator_name_shown : string
}.

(** [{op.rfid_card_no: op.operator_name for op in operators}] and
    [operator_map.get(key, "")]: a later operator replaces an earlier one of
    the same card number. *)
Definition operator_map_get (operator_map : list (string * string)) (key : string)
  : string :=
  match find (fun item => String.eqb (fst item) key) (rev operator_map) with
  | Some item => snd item
  | None => ""%string
  end.

(** The part of the two views after the queryset is read. *)
Definition respond (operators : list Operator) (logs : list StoredLog)
  : list log_data :=
  let operator_ids :=
    map (fun log => OPERATOR_ID (log_of log))
        (filter (fun log => negb (String.eqb (OPERATOR_ID (log_of log)) "0")) logs) in
  let operators :=
    filter (fun op => existsb (String.eqb (rfid_card_no op)) operator_ids) operators in
  let operator_map := map (fun op => (rfid_card_no op, operator_name op)) operators in
  map (fun log =>
         mk_log_data log
           (MODES_get (MODE (log_of log)) "Unknown mode")
           (if negb (String.eqb (OPERATOR_ID (log_of log)) "0")
            then operator_map_get operator_map (OPERATOR_ID (log_of log))
            else ""%string))
      logs.

Definition filter_logs (operators : list Operator) (LINE_NUMBERer : entity_parameter)
    (from_date to_date : option Z) (db : list StoredLog) : list log_data :=
  let queryset :=
    match LINE_NUMBERer with
    | Number n => filter (fun r => (LINE_NUMBER (log_of r) =? n)%Z) db
    | _ => db
    end in
  respond operators (Serializer.stored_date_filter from_date to_date queryset).

Definition filter_logs_by_machine_id (operators : list Operator)
    (machine_id : entity_parameter) (from_date to_date : option Z)
    (db : list StoredLog) : list log_data :=
  let queryset :=
    match machine_id with
    | Number n => filter (fun r => (MACHINE_ID (log_of r) =? n)%Z) db
    | _ => db
    end in
  respond operators (Serializer.stored_date_filter from_date to_date queryset).

End FilterLogs.

(** The name the directory gives for a card number: that of the last
    operator with the number, or the empty string. *)
Definition directory_name (operators : list Operator) (rfid : string) : string :=
  match find (fun o => String.eqb (rfid_card_no o) rfid) (rev operators) with
  | Some o => operator_name o
  | None => ""%string
  end.

(** ** get_LINE_NUMBERers, get_machine_ids and get_operator_ids *)

Module IdLists.

Inductive response (A : Type) : Type :=
| BothDatesRequired
| Ids (ids : list A).
Arguments BothDatesRequired {A}.
Arguments Ids {A} ids.

(** [MachineLog.objects.filter(DATE__gte=from_date, DATE__lte=to_date)]. *)
Definition in_dates (from_date to_date : Z) (db : list MachineLog) : list MachineLog :=
  filter (fun l => (from_date <=? DATE l)%Z && (DATE l <=? to_date)%Z) db.

Definition get_LINE_NUMBERers (from_date to_date : option Z) (db : list MachineLog)
  : response Z :=
  match from_date, to_date with
  | Some f, Some t =>
      Ids (order_by Z.leb (distinct Z.eqb (map LINE_NUMBER (in_dates f t db))))
  | _, _ => BothDatesRequired
  end.

Definition get_machine_ids (from_date to_date : option Z) (db : list MachineLog)
  : response Z :=
  match from_date, to_date with
  | Some f, Some t =>
      Ids (order_by Z.leb (distinct Z.eqb (map MACHINE_ID (in_dates f t db))))
  | _, _ => BothDatesRequired
  end.

Definition get_operator_ids (from_date to_date : option Z) (db : list MachineLog)
  : response string :=
  match from_date, to_date with
  | Some f, Some t =>
      Ids (order_by String.leb
             (distinct String.eqb
                (map OPERATOR_ID
                   (exclude (fun l => String.eqb (OPERATOR_ID l) "0")
                            (in_dates f t db)))))
  | _, _ => BothDatesRequired
  end.

End IdLists.

(** ** get_machine_id_count, get_LINE_NUMBERer_count and calculate_line_efficiency *)

Module Counts.

(** [MachineLog.objects.values("MACHINE_ID").distinct().count()]. *)
Definition get_machine_id_count (db : list MachineLog) : Z :=
  Z.of_nat (List.length (distinct Z.eqb (map MACHINE_ID db))).

Definition get_LINE_NUMBERer_count (db : list MachineLog) : Z :=
  Z.of_nat (List.length (distinct Z.eqb (map LINE_NUMBER db))).

End Counts.

Module LineEfficiency.

(** One row of [line_stats]. *)
Record stat : Type := mk_stat {
  stat_LINE_NUMBER : Z;
  total_machines : Z;
  total_runtime : Q;
  total_stoptime : Q
}.

(** [values("LINE_NUMBER").annotate(..)]: one row for each line. *)
Definition line_stats (db : list StoredLog) : list stat :=
  map (fun n =>
         let group := filter (fun r => (LINE_NUMBER (log_of r) =? n)%Z) db in
         mk_stat n
           (Z.of_nat (List.length
              (distinct Z.eqb (map (fun r => MACHINE_ID (log_of r)) group))))
           (SumG (fun r => SKIP_COUNT (log_of r)) group)
           (SumG (fun r => NEEDLE_STOPTIME (data r)) group))
      (distinct Z.eqb (map (fun r => LINE_NUMBER (log_of r)) db)).

(** One entry of the response, under the key "Line n".  [Efficiency] is
    the number that is printed with two decimals before the percent sign. *)
Record entry : Type := mk_entry {
  Line : Z;
  Total_Machines : Z;
  Efficiency : Q
}.

Definition stat_entry (s : stat) : Py.result entry :=
  efficiency <-
    (if Py.gtb (total_runtime s + total_stoptime s) 0
     then q <- Py.div (total_runtime s) (total_runtime s + total_stoptime s) ;;
          Py.Ret (q * 100)
     else Py.Ret 0) ;;
  Py.Ret (mk_entry (stat_LINE_NUMBER s) (total_machines s) (Py.round2 efficiency)).

Definition calculate_line_efficiency (db : list StoredLog) : Py.result (list entry) :=
  for_each stat_entry (line_stats db).

End LineEfficiency.

(** ** all_operators_report *)

Module AllOperatorsReport.

Record entry : Type := mk_entry {
  operator_id : string;
  operator_name_shown : string;
  total_hours : Q;
  productive_hours : Q;
  productive_percentage : Q;
  OPERATION_COUNT_total : Z;
  machine_count : Z
}.

Inductive response : Type :=
| BothDatesRequired
| Report (allOperatorsReport : list entry).

(** The name of the operator, the empty string when the directory has
    none.  [rfid_card_no] is a unique column, so [get] finds at most one
    operator. *)
Definition name_or_empty (operators : list Operator) (operator_id : string) : string :=
  match filter (fun o => String.eqb (rfid_card_no o) operator_id) operators with
  | operator_obj :: _ => operator_name operator_obj
  | [] => ""%string
  end.

(** The body of the loop over the operators. *)
Definition operator_entry (operators : list Operator) (from_date to_date : Z)
    (db : list MachineLog) (operator_id : string) : Py.result entry :=
  let operator_data :=
    filter (fun l => String.eqb (OPERATOR_ID l) operator_id
                     && (from_date <=? DATE l)%Z && (DATE l <=? to_date)%Z) db in
  let total_hours := Py.or0 (Sum SKIP_COUNT operator_data) in
  let productive_hours :=
    Py.or0 (Sum SKIP_COUNT (filter (fun l => (MODE l =? 1)%Z) operator_data)) in
  pt_percentage <- percent_if_positive productive_hours total_hours ;;
  Py.Ret (mk_entry operator_id (name_or_empty operators operator_id)
            (Py.round2 total_hours) (Py.round2 productive_hours)
            (Py.round2 pt_percentage)
            (SumZ OPERATION_COUNT operator_data)
            (Z.of_nat (List.length (distinct Z.eqb (map MACHINE_ID operator_data))))).

(** The query of the operators is a [distinct()] without an [order_by]:
    the database returns the distinct ids in an order of its choice, which
    [returned] stands for, a rearrangement of the list it is given. *)
Definition all_operators_report (returned : list string -> list string)
    (operators : list Operator)
    (from_date to_date : option Z) (db : list MachineLog) : Py.result response :=
  match from_date, to_date with
  | Some f, Some t =>
      let ids :=
        returned
          (distinct String.eqb
             (map OPERATOR_ID
                (exclude (fun l => String.eqb (OPERATOR_ID l) "0")
                         (IdLists.in_dates f t db)))) in
      report <- for_each (operator_entry operators f t db) ids ;;
      Py.Ret (Report report)
  | _, _ => Py.Ret BothDatesRequired
  end.

End AllOperatorsReport.

(* ================================================================== *)
(** * Basic facts *)
(* ================================================================== *)

Lemma leb_iff (x y : Q) : Py.leb x y = true <-> x <= y.
Proof. unfold Py.leb. apply Qle_bool_iff. Qed.

Lemma ltb_iff (x y : Q) : Py.ltb x y = true <-> x < y.
Proof.
  unfold Py.ltb. rewrite negb_true_iff.
  split; intro H.
  - apply Qnot_le_lt. intro C. apply Qle_bool_iff in C. congruence.
  - destruct (Qle_bool y x) eqn:E; [|reflexivity].
    apply Qle_bool_iff in E. exfalso. apply (Qlt_not_le _ _ H E).
Qed.

Lemma geb_iff (x y : Q) : Py.geb x y = true <-> y <= x.
Proof. unfold Py.geb. apply leb_iff. Qed.

Lemma gtb_iff (x y : Q) : Py.gtb x y = true <-> y < x.
Proof. unfold Py.gtb. apply ltb_iff. Qed.

Lemma leb_false_iff (x y : Q) : Py.leb x y = false <-> y < x.
Proof.
  rewrite <- ltb_iff. unfold Py.ltb, Py.leb.
  destruct (Qle_bool x y); simpl; split; congruence.
Qed.

Lemma ltb_false_iff (x y : Q) : Py.ltb x y = false <-> y <= x.
Proof.
  rewrite <- leb_iff. unfold Py.ltb, Py.leb.
  destruct (Qle_bool y x); simpl; split; congruence.
Qed.

(** Turns the boolean tests on floats in the context and the goal into
    propositions. *)
Ltac qprop :=
  repeat match goal with
  | H : Py.leb _ _ = true |- _ => apply leb_iff in H
  | H : Py.leb _ _ = false |- _ => apply leb_false_iff in H
  | H : Py.ltb _ _ = true |- _ => apply ltb_iff in H
  | H : Py.ltb _ _ = false |- _ => apply ltb_false_iff in H
  | H : Py.geb _ _ = _ |- _ => unfold Py.geb in H
  | H : Py.gtb _ _ = _ |- _ => unfold Py.gtb in H
  end.

Lemma In_exclude {A : Type} (p : A -> bool) (rows : list A) (x : A) :
  In x (exclude p rows) <-> In x rows /\ p x = false.
Proof.
  unfold exclude. rewrite filter_In, negb_true_iff. reflexivity.
Qed.

Lemma exclude_cons_true {A : Type} (p : A -> bool) (rows : list A) (x : A) :
  p x = true -> exclude p (x :: rows) = exclude p rows.
Proof. intro H. unfold exclude. simpl. rewrite H. reflexivity. Qed.

Lemma filter_cons_false {A : Type} (p : A -> bool) (rows : list A) (x : A) :
  p x = false -> filter p (x :: rows) = filter p rows.
Proof. intro H. simpl. rewrite H. reflexivity. Qed.

Lemma date_filter_spec (from_date to_date : option Z) (logs : list MachineLog) :
  date_filter from_date to_date logs = filter (date_ok from_date to_date) logs.
Proof.
  unfold date_filter, date_ok.
  destruct from_date as [f|], to_date as [t|]; simpl.
  - induction logs as [|l logs IH]; simpl; [reflexivity|].
    destruct (f <=? DATE l)%Z; simpl; [|exact IH].
    destruct (DATE l <=? t)%Z; simpl; rewrite IH; reflexivity.
  - apply filter_ext. intro l. now rewrite andb_true_r.
  - reflexivity.
  - induction logs as [|l logs IH]; simpl; [reflexivity|]. now rewrite <- IH.
Qed.

Lemma in_some_break_iff (breaks : list (Q * Q)) (l : MachineLog) :
  in_some_break breaks l = true <->
  exists b, In b breaks /\ fst b <= start_seconds l /\ end_seconds l <= snd b.
Proof.
  unfold in_some_break. rewrite existsb_exists.
  split; intros [b [Hb H]]; exists b; split; auto.
  - unfold in_break in H. apply andb_true_iff in H. destruct H as [H1 H2].
    qprop. auto.
  - unfold in_break. apply andb_true_iff. rewrite geb_iff, leb_iff. exact H.
Qed.

(** ** The filters of the two families *)

Lemma In_operator_normalize (rows : list MachineLog) (l : MachineLog) :
  In l (OperatorFamily.normalize rows) <->
  In l rows /\ OperatorFamily.unassigned_idle l = false
  /\ 0 < OperatorFamily.duration_hours l
  /\ in_some_break OperatorFamily.breaks l = false.
Proof.
  unfold OperatorFamily.normalize, OperatorFamily.positive_duration.
  rewrite In_exclude, filter_In, In_exclude, gtb_iff. tauto.
Qed.

Lemma In_window_normalize (rows : list MachineLog) (l : MachineLog) :
  In l (WindowFamily.normalize rows) <->
  In l rows /\ WindowFamily.in_window l = true
  /\ in_some_break WindowFamily.breaks l = false.
Proof.
  unfold WindowFamily.normalize. rewrite In_exclude, filter_In. tauto.
Qed.

Lemma in_window_iff (l : MachineLog) :
  WindowFamily.in_window l = true <->
  30300 <= start_seconds l /\ end_seconds l <= 70500.
Proof.
  unfold WindowFamily.in_window. rewrite andb_true_iff, geb_iff, leb_iff.
  reflexivity.
Qed.

Lemma div3600_le (x c : Q) : x <= c * 3600 -> x / 3600 <= c.
Proof. intro H. apply Qle_shift_div_r; [reflexivity | exact H]. Qed.

Lemma div3600_ge (x c : Q) : c * 3600 <= x -> c <= x / 3600.
Proof. intro H. apply Qle_shift_div_l; [reflexivity | exact H]. Qed.

Lemma operator_duration_upper (l : MachineLog) :
  OperatorFamily.duration_hours l <= 11.
Proof.
  unfold OperatorFamily.duration_hours, OperatorFamily.adjusted_end_seconds,
    OperatorFamily.adjusted_start_seconds, OperatorFamily.window_start,
    OperatorFamily.window_end.
  destruct (Py.leb (end_seconds l) (8.5 * 3600)) eqn:E1; cbn [orb]; [lra|].
  destruct (Py.geb (start_seconds l) (19.5 * 3600)) eqn:E2; cbn [orb]; [lra|].
  apply div3600_le.
  destruct (Py.ltb (end_seconds l) (8.5 * 3600)) eqn:E3;
  destruct (Py.gtb (end_seconds l) (19.5 * 3600)) eqn:E4;
  destruct (Py.ltb (start_seconds l) (8.5 * 3600)) eqn:E5;
  destruct (Py.gtb (start_seconds l) (19.5 * 3600)) eqn:E6;
  qprop; lra.
Qed.

Lemma window_duration_bounds (l : MachineLog) :
  WindowFamily.in_window l = true ->
  WindowFamily.duration_hours l <= 11 + 10 / 60
  /\ (start_seconds l <= end_seconds l -> 0 <= WindowFamily.duration_hours l).
Proof.
  rewrite in_window_iff. unfold WindowFamily.duration_hours. intros [H1 H2].
  split; [|intro H3].
  - apply div3600_le.
    assert (E : (11 + 10 / 60) * 3600 == 40200) by reflexivity.
    rewrite E. lra.
  - apply div3600_ge. lra.
Qed.

(** Every view aggregates the output of its family's filters on the rows
    it selected. *)
Lemma aggregated_logs_selected (f : family) (operators : list Operator)
    (from_date to_date : option Z) (db : list MachineLog) :
  aggregated_logs f operators from_date to_date db =
  exclude (in_some_break (breaks_of f))
    (before_breaks f (selected_logs f operators from_date to_date db)).
Proof.
  destruct f as [name|operator|n|m|]; try reflexivity.
  simpl. unfold OperatorReportsByName.report_logs, OperatorReportsByName.selected.
  destruct (OperatorReportsByName.select operators name db); reflexivity.
Qed.

Lemma aggregated_logs_normalized (f : family) (operators : list Operator)
    (from_date to_date : option Z) (db : list MachineLog) (l : MachineLog) :
  In l (aggregated_logs f operators from_date to_date db) ->
  exists rows,
    In l (if clamped f then OperatorFamily.normalize rows
          else WindowFamily.normalize rows).
Proof.
  rewrite aggregated_logs_selected. intro H. eexists.
  unfold breaks_of, before_breaks in H. destruct (clamped f); exact H.
Qed.

(** The selection of a view keeps or drops a row on the row alone. *)
Lemma selected_logs_cons (f : family) (operators : list Operator)
    (from_date to_date : option Z) (db : list MachineLog) (l : MachineLog) :
  selected_logs f operators from_date to_date (l :: db)
  = selected_logs f operators from_date to_date db
  \/ selected_logs f operators from_date to_date (l :: db)
    = l :: selected_logs f operators from_date to_date db.
Proof.
  assert (F : forall (p q : MachineLog -> bool),
             filter q (filter p (l :: db)) = filter q (filter p db)
             \/ filter q (filter p (l :: db)) = l :: filter q (filter p db)).
  { intros p q. simpl. destruct (p l); simpl; [|auto]. destruct (q l); auto. }
  destruct f as [name|operator|n|m|]; cbn -[filter].
  - unfold OperatorReportsByName.selected, OperatorReportsByName.select.
    destruct (String.eqb name "All"); cbn -[filter].
    + rewrite !date_filter_spec. simpl. destruct (date_ok from_date to_date l); auto.
    + destruct (OperatorReportsByName.get_by_name operators name); cbn -[filter]; auto.
      rewrite !date_filter_spec. apply F.
  - unfold OperatorReportsAll.selected. rewrite !date_filter_spec. apply F.
  - unfold LineReports.selected. rewrite !date_filter_spec. destruct n; apply F.
  - unfold MachineReports.selected. rewrite !date_filter_spec. destruct m; apply F.
  - unfold MachineReports.global_selected. rewrite !date_filter_spec. apply F.
Qed.

(* ================================================================== *)
(** * C1: durations and the working window *)
(* ================================================================== *)

(** C1, as amended.  For every log that enters the aggregation of a view:
    in the operator views (08:30-19:30, clamped) the duration is positive
    and at most 11 hours; in the line, machine and global views (all three
    on 08:25-19:35, not clamped) it is at most 11 hours 10 minutes, and it
    is not negative when the log does not end before it starts. *)
Theorem C1_duration_within_window :
  forall (f : family) (operators : list Operator) (from_date to_date : option Z)
         (db : list MachineLog) (l : MachineLog),
    In l (aggregated_logs f operators from_date to_date db) ->
    duration_hours_of f l <= window_hours f
    /\ (clamped f = true -> 0 < duration_hours_of f l)
    /\ (start_seconds l <= end_seconds l -> 0 <= duration_hours_of f l).
Proof.
  intros f operators from_date to_date db l H.
  apply aggregated_logs_normalized in H. destruct H as [rows H].
  unfold window_hours.
  destruct f; simpl in *;
    try (apply In_operator_normalize in H; destruct H as (_ & _ & Hpos & _);
         split; [apply operator_duration_upper|];
         split; intros; [exact Hpos | apply Qlt_le_weak; exact Hpos]);
    apply In_window_normalize in H; destruct H as (_ & Hw & _);
    destruct (window_duration_bounds _ Hw) as [Hu Hl];
    (split; [exact Hu|]); (split; [discriminate | exact Hl]).
Qed.

Lemma C1_duration_within_window_witness :
  In log_morning
     (aggregated_logs (operator_by_name "Asha") sample_operators None None [log_morning])
  /\ OperatorFamily.duration_hours log_morning <= 11
  /\ 0 < OperatorFamily.duration_hours log_morning.
Proof.
  assert (H : In log_morning
     (aggregated_logs (operator_by_name "Asha") sample_operators None None [log_morning]))
    by (left; reflexivity).
  split; [exact H|].
  destruct (C1_duration_within_window (operator_by_name "Asha") sample_operators
              None None [log_morning] log_morning H) as (Hu & Hp & _).
  split; [exact Hu | apply Hp; reflexivity].
Defined.

(** The claim as written fails in the line view: a log over the whole
    08:25-19:35 window enters the aggregation with 11 hours 10 minutes, more
    than the 11 hours of the 08:30-19:30 window. *)
Lemma C1_line_window_counterexample :
  In log_whole_window
     (aggregated_logs (line (Some 1%Z)) sample_operators None None [log_whole_window])
  /\ ~ (duration_hours_of (line (Some 1%Z)) log_whole_window
        <= specified_window_hours (line (Some 1%Z))).
Proof.
  split.
  - left. reflexivity.
  - intro H. vm_compute in H. apply H. reflexivity.
Qed.

(** The line view has no positive-duration filter: a log that ends before
    it starts enters the aggregation with a negative duration. *)
Lemma line_negative_duration :
  In log_backwards
     (aggregated_logs (line (Some 1%Z)) sample_operators None None [log_backwards])
  /\ WindowFamily.duration_hours log_backwards == -1.
Proof. split; [left; reflexivity | reflexivity]. Qed.

(* ================================================================== *)
(** * C9: the window of the line, machine and global views *)
(* ================================================================== *)

Lemma before_breaks_cons (f : family) (rows : list MachineLog) (l : MachineLog) :
  before_breaks f (l :: rows) = before_breaks f rows
  \/ before_breaks f (l :: rows) = l :: before_breaks f rows.
Proof.
  unfold before_breaks, OperatorFamily.positive_duration, exclude.
  destruct (clamped f); simpl.
  - destruct (negb (OperatorFamily.unassigned_idle l)); simpl; auto.
    destruct (Py.gtb (OperatorFamily.duration_hours l) 0); auto.
  - destruct (WindowFamily.in_window l); auto.
Qed.

(** C9.  In the line, machine and global views a log that starts before
    08:25 (30300 s) or ends after 19:35 (70500 s) does not enter the
    aggregation: the view computes what it computes without that log.  The
    logs that do enter lie inside the window and keep their own span as
    duration, so nothing is clamped. *)
Theorem C9_outside_window_excluded :
  forall (f : family) (operators : list Operator) (from_date to_date : option Z)
         (db : list MachineLog) (l : MachineLog),
    clamped f = false ->
    (start_seconds l < 30300 \/ 70500 < end_seconds l ->
     aggregated_logs f operators from_date to_date (l :: db)
     = aggregated_logs f operators from_date to_date db)
    /\ (In l (aggregated_logs f operators from_date to_date db) ->
        30300 <= start_seconds l /\ end_seconds l <= 70500
        /\ duration_hours_of f l == (end_seconds l - start_seconds l) / 3600).
Proof.
  intros f operators from_date to_date db l Hf. split.
  - intro Hout.
    assert (Hw : WindowFamily.in_window l = false).
    { destruct (WindowFamily.in_window l) eqn:E; [|reflexivity].
      apply in_window_iff in E. destruct E as [E1 E2].
      destruct Hout as [H|H]; exfalso.
      - apply (Qlt_not_le _ _ H E1).
      - apply (Qlt_not_le _ _ H E2). }
    rewrite !aggregated_logs_selected.
    destruct (selected_logs_cons f operators from_date to_date db l) as [E|E];
      rewrite E; [reflexivity|].
    unfold before_breaks. rewrite Hf.
    rewrite (filter_cons_false _ _ _ Hw). reflexivity.
  - intro H. rewrite aggregated_logs_selected in H.
    unfold before_breaks, breaks_of in H. rewrite Hf in H.
    apply In_window_normalize in H. destruct H as (_ & Hw & _).
    apply in_window_iff in Hw. destruct Hw as [H1 H2].
    split; [exact H1|]. split; [exact H2|].
    destruct f; try discriminate; reflexivity.
Qed.

Lemma C9_outside_window_excluded_witness :
  aggregated_logs (line (Some 1%Z)) sample_operators None None [log_early; log_morning]
  = aggregated_logs (line (Some 1%Z)) sample_operators None None [log_morning].
Proof.
  refine (proj1 (C9_outside_window_excluded (line (Some 1%Z)) sample_operators
                   None None [log_morning] log_early eq_refl) _).
  left. reflexivity.
Defined.

(* ================================================================== *)
(** * C2: the break exclusion *)
(* ================================================================== *)

(** On whole seconds the break bounds the operator views write as decimal
    hours select the same logs as the bounds in seconds of the other
    views. *)
Lemma operator_breaks_whole_seconds (l : MachineLog) :
  in_some_break OperatorFamily.breaks l = in_some_break WindowFamily.breaks l.
Proof.
  unfold in_some_break, OperatorFamily.breaks, WindowFamily.breaks, in_break,
    start_seconds, end_seconds.
  generalize (time_to_seconds (START_TIME l)) as s.
  generalize (time_to_seconds (END_TIME l)) as e. intros e s.
  assert (L : forall (a b : Q) (z : Z),
             (a <= inject_Z z <-> b <= inject_Z z) -> Py.geb (inject_Z z) a = Py.geb (inject_Z z) b).
  { intros a b z H. apply eq_true_iff_eq. rewrite !geb_iff. exact H. }
  assert (R : forall (a b : Q) (z : Z),
             (inject_Z z <= a <-> inject_Z z <= b) -> Py.leb (inject_Z z) a = Py.leb (inject_Z z) b).
  { intros a b z H. apply eq_true_iff_eq. rewrite !leb_iff. exact H. }
  cbn [existsb fst snd].
  rewrite (L (10.5 * 3600) 37800 s), (R (10.6667 * 3600) 38400 e),
          (L (13.3333 * 3600) 48000 s), (R (14 * 3600) 50400 e),
          (L (16.3333 * 3600) 58800 s), (R (16.5 * 3600) 59400 e);
    try reflexivity; unfold Qle; simpl; lia.
Qed.

Lemma break_exclusion_iff (f : family) (operators : list Operator)
    (from_date to_date : option Z) (db : list MachineLog) (l : MachineLog) :
  In l (aggregated_logs f operators from_date to_date db) <->
  In l (before_breaks f (selected_logs f operators from_date to_date db))
  /\ forall b, In b (breaks_of f) -> ~ inside b l.
Proof.
  rewrite aggregated_logs_selected, In_exclude.
  split; intros [H1 H2]; split; try exact H1.
  - intros b Hb Hin.
    assert (T : in_some_break (breaks_of f) l = true)
      by (apply in_some_break_iff; exists b; split; [exact Hb | exact Hin]).
    congruence.
  - destruct (in_some_break (breaks_of f) l) eqn:E; [|reflexivity].
    apply in_some_break_iff in E. destruct E as [b [Hb Hin]].
    exfalso. exact (H2 b Hb Hin).
Qed.

Lemma inside_break_adds_nothing (f : family) (operators : list Operator)
    (from_date to_date : option Z) (db : list MachineLog) (l : MachineLog) :
  (exists b, In b (breaks_of f) /\ inside b l) ->
  aggregated_logs f operators from_date to_date (l :: db)
  = aggregated_logs f operators from_date to_date db.
Proof.
  intros [b [Hb Hin]].
  assert (T : in_some_break (breaks_of f) l = true)
    by (apply in_some_break_iff; exists b; split; [exact Hb | exact Hin]).
  rewrite !aggregated_logs_selected.
  destruct (selected_logs_cons f operators from_date to_date db l) as [E|E];
    rewrite E; [reflexivity|].
  destruct (before_breaks_cons f (selected_logs f operators from_date to_date db) l)
    as [E'|E']; rewrite E'; [reflexivity|].
  apply exclude_cons_true. exact T.
Qed.

(** C2.  A log that reaches the break exclusion of a view is kept by it if
    and only if it lies inside no break of the view, that is, unless for
    some break its start is at or after the break's start and its end at or
    before the break's end.  A log inside a break adds nothing: the view
    aggregates the same logs with it as without it.  A kept log is the row
    itself, with the duration of its annotation. *)
Theorem C2_break_exclusion :
  forall (f : family) (operators : list Operator) (from_date to_date : option Z)
         (db : list MachineLog) (l : MachineLog),
    (In l (aggregated_logs f operators from_date to_date db) <->
     In l (before_breaks f (selected_logs f operators from_date to_date db))
     /\ forall b, In b (breaks_of f) -> ~ inside b l)
    /\ ((exists b, In b (breaks_of f) /\ inside b l) ->
        aggregated_logs f operators from_date to_date (l :: db)
        = aggregated_logs f operators from_date to_date db).
Proof.
  intros f operators from_date to_date db l. split.
  - apply break_exclusion_iff.
  - apply inside_break_adds_nothing.
Qed.

Lemma C2_break_exclusion_witness :
  aggregated_logs (operator_by_name "Asha") sample_operators None None
    [log_in_break; log_morning]
  = aggregated_logs (operator_by_name "Asha") sample_operators None None [log_morning].
Proof.
  refine (proj2 (C2_break_exclusion (operator_by_name "Asha") sample_operators
                   None None [log_morning] log_in_break) _).
  exists (10.5 * 3600, 10.6667 * 3600). split.
  - left. reflexivity.
  - split; vm_compute; discriminate.
Defined.

(** A log across the start of the mid-morning break is kept in both
    families, with its quarter of an hour. *)
Lemma straddling_log_kept :
  aggregated_logs (operator_by_name "Asha") sample_operators None None [log_straddling]
  = [log_straddling]
  /\ aggregated_logs (line None) sample_operators None None [log_straddling]
     = [log_straddling]
  /\ OperatorFamily.duration_hours log_straddling == 1 # 4
  /\ WindowFamily.duration_hours log_straddling == 1 # 4.
Proof. repeat split. Qed.

(** A log that is exactly the mid-morning break is dropped by every view. *)
Lemma break_log_dropped (f : family) :
  aggregated_logs f sample_operators None None [log_in_break] = [].
Proof.
  rewrite (inside_break_adds_nothing f sample_operators None None [] log_in_break).
  - rewrite aggregated_logs_selected.
    destruct f as [name|operator|[n|]|[m|]|]; try reflexivity.
    simpl. unfold OperatorReportsByName.selected, OperatorReportsByName.select.
    destruct (String.eqb name "All"); [reflexivity|].
    destruct (OperatorReportsByName.get_by_name sample_operators name); reflexivity.
  - unfold breaks_of. destruct (clamped f).
    + exists (10.5 * 3600, 10.6667 * 3600). split; [left; reflexivity|].
      split; vm_compute; discriminate.
    + exists (37800, 38400). split; [left; reflexivity|].
      split; vm_compute; discriminate.
Qed.

(* ================================================================== *)
(** * C7: the rows of operator "0" *)
(* ================================================================== *)

Lemma In_selected_logs (f : family) (operators : list Operator)
    (from_date to_date : option Z) (db : list MachineLog) (l : MachineLog) :
  In l (selected_logs f operators from_date to_date db) <->
  In l db /\ entity_ok f operators l = true
  /\ (if clamped f then true else operator_id_ok f operators l) = true
  /\ date_ok from_date to_date l = true.
Proof.
  destruct f as [name|operator|[n|]|[m|]|]; simpl;
    unfold OperatorReportsByName.selected, OperatorReportsByName.select,
      OperatorReportsAll.selected, LineReports.selected, MachineReports.selected,
      MachineReports.global_selected, operator_id_ok, WindowFamily.valid_operator;
    simpl.
  - destruct (String.eqb name "All"); simpl.
    + rewrite date_filter_spec, filter_In. tauto.
    + destruct (OperatorReportsByName.get_by_name operators name); simpl.
      * rewrite date_filter_spec, !filter_In. tauto.
      * split; [intros [] | intros (_ & H & _); discriminate].
  - rewrite date_filter_spec, !filter_In. tauto.
  - rewrite date_filter_spec, !filter_In, andb_true_iff. tauto.
  - rewrite date_filter_spec, !filter_In. tauto.
  - rewrite date_filter_spec, !filter_In, andb_true_iff. tauto.
  - rewrite date_filter_spec, !filter_In. tauto.
  - rewrite date_filter_spec, !filter_In. tauto.
Qed.

(** C7, as amended.  A row of the database enters the aggregation of a view
    exactly when it is of the view's entity and dates, passes the view's
    test on times, and passes its test on the operator id.  In the operator
    views that test drops the rows with OPERATOR_ID "0" and MODE 2 and no
    others.  The line, machine and global views have no such test: they keep
    the rows whose OPERATOR_ID is a card number of the operator directory,
    in every mode. *)
Theorem C7_operator_id_filter :
  forall (f : family) (operators : list Operator) (from_date to_date : option Z)
         (db : list MachineLog) (l : MachineLog),
    (In l (aggregated_logs f operators from_date to_date db) <->
     In l db /\ entity_ok f operators l = true
     /\ date_ok from_date to_date l = true
     /\ times_ok f l = true
     /\ operator_id_ok f operators l = true)
    /\ (operator_id_ok f operators l = true <->
        if clamped f then ~ (OPERATOR_ID l = "0"%string /\ MODE l = 2%Z)
        else In (OPERATOR_ID l) (map rfid_card_no operators)).
Proof.
  intros f operators from_date to_date db l. split.
  - rewrite aggregated_logs_selected, In_exclude.
    unfold before_breaks, times_ok, operator_id_ok, OperatorFamily.positive_duration.
    destruct (clamped f) eqn:Hf.
    + rewrite filter_In, In_exclude, In_selected_logs, Hf.
      unfold OperatorFamily.unassigned_idle.
      rewrite !andb_true_iff, !negb_true_iff. tauto.
    + rewrite filter_In, In_selected_logs, Hf.
      unfold operator_id_ok. rewrite Hf.
      rewrite !andb_true_iff, !negb_true_iff. tauto.
  - unfold operator_id_ok. destruct (clamped f).
    + rewrite negb_true_iff, andb_false_iff, String.eqb_neq, Z.eqb_neq. 
      split.
      * intros [H|H] [H1 H2]; contradiction.
      * intro H. destruct (String.eqb_spec (OPERATOR_ID l) "0"); [|left; assumption].
        right. intro H2. apply H. split; assumption.
    + rewrite existsb_exists. split.
      * intros [x [Hx E]]. apply String.eqb_eq in E. subst x. exact Hx.
      * intro H. exists (OPERATOR_ID l). split; [exact H | apply String.eqb_refl].
Qed.

(** The claim as written fails in the line view: a production row of
    operator "0" is dropped when "0" is not in the directory, and an idle
    row of operator "0" is kept when it is. *)
Lemma C7_line_view_counterexample :
  OPERATOR_ID log_unassigned_sewing = "0"%string
  /\ MODE log_unassigned_sewing <> 2%Z
  /\ ~ In log_unassigned_sewing
        (aggregated_logs (line None) sample_operators None None [log_unassigned_sewing])
  /\ In log_unassigned_idle
        (aggregated_logs (line None) operators_with_zero None None [log_unassigned_idle]).
Proof.
  split; [reflexivity|]. split; [discriminate|]. split.
  - intros [].
  - left. reflexivity.
Qed.

(** The operator view on the same two rows. *)
Lemma operator_view_keeps_unassigned_sewing :
  aggregated_logs (operator_by_name "All") sample_operators None None
    [log_unassigned_sewing; log_unassigned_idle]
  = [log_unassigned_sewing].
Proof. reflexivity. Qed.

(* ================================================================== *)
(** * Sums, distinct keys and rounding *)
(* ================================================================== *)

Lemma fold_plus_acc (xs : list Q) (a : Q) :
  fold_left Qplus xs a == a + fold_left Qplus xs 0.
Proof.
  revert a. induction xs as [|x xs IH]; intro a; simpl.
  - ring.
  - rewrite (IH (a + x)), (IH (0 + x)). ring.
Qed.

Lemma sum_nil : Py.sum [] == 0.
Proof. reflexivity. Qed.

Lemma sum_cons (x : Q) (xs : list Q) : Py.sum (x :: xs) == x + Py.sum xs.
Proof. unfold Py.sum. simpl. rewrite fold_plus_acc. ring. Qed.

Lemma sum_app (xs ys : list Q) : Py.sum (xs ++ ys) == Py.sum xs + Py.sum ys.
Proof.
  induction xs as [|x xs IH]; simpl.
  - rewrite sum_nil. ring.
  - rewrite !sum_cons, IH. ring.
Qed.

Lemma or0_some (v : Q) : Py.or0 (Some v) == v.
Proof.
  unfold Py.or0. destruct (Qeq_bool v 0) eqn:E; [|reflexivity].
  apply Qeq_bool_iff in E. symmetry. exact E.
Qed.

Lemma max_zero_spec (a : Q) :
  0 <= Py.max a 0 /\ a <= Py.max a 0
  /\ (Py.max a 0 == a \/ Py.max a 0 == 0).
Proof.
  unfold Py.max. destruct (Py.ltb a 0) eqn:E; qprop.
  - split; [lra|]. split; [lra|]. right. reflexivity.
  - split; [lra|]. split; [lra|]. left. reflexivity.
Qed.

Lemma In_distinct (ks : list Z) (k : Z) :
  In k (distinct Z.eqb ks) <-> In k ks.
Proof.
  induction ks as [|k' ks IH]; simpl; [reflexivity|].
  rewrite filter_In, negb_true_iff, Z.eqb_neq, IH.
  destruct (Z.eq_dec k' k); [subst; tauto|].
  split; [tauto|]. intros [H|H]; [tauto|]. right. split; [exact H|]. congruence.
Qed.

Lemma NoDup_filter {A : Type} (p : A -> bool) (xs : list A) :
  NoDup xs -> NoDup (filter p xs).
Proof.
  induction 1 as [|x xs Hx Hn IH]; simpl; [constructor|].
  destruct (p x); [|exact IH].
  constructor; [|exact IH]. rewrite filter_In. tauto.
Qed.

Lemma NoDup_distinct (ks : list Z) : NoDup (distinct Z.eqb ks).
Proof.
  induction ks as [|k ks IH]; simpl; constructor.
  - rewrite filter_In, negb_true_iff, Z.eqb_neq. tauto.
  - apply NoDup_filter. exact IH.
Qed.

Lemma existsb_eqb_In (k : Z) (ks : list Z) :
  existsb (Z.eqb k) ks = true <-> In k ks.
Proof.
  rewrite existsb_exists. split.
  - intros [x [Hx E]]. apply Z.eqb_eq in E. subst. exact Hx.
  - intro H. exists k. split; [exact H | apply Z.eqb_refl].
Qed.

Lemma filter_none {A : Type} (p : A -> bool) (xs : list A) :
  (forall x, In x xs -> p x = false) -> filter p xs = [].
Proof.
  induction xs as [|x xs IH]; intro H; simpl; [reflexivity|].
  rewrite (H x (or_introl eq_refl)). apply IH. intros y Hy. apply H. right. exact Hy.
Qed.

Lemma SumCaseMode_filter (m : Z) (col : MachineLog -> Q) (logs : list MachineLog) :
  SumCaseMode m col logs == SumG col (filter (fun l => (MODE l =? m)%Z) logs).
Proof.
  unfold SumCaseMode, SumG.
  induction logs as [|l logs IH]; [reflexivity|].
  cbn [map filter]. destruct (MODE l =? m)%Z.
  - cbn [map]. rewrite !sum_cons, IH. reflexivity.
  - rewrite sum_cons, IH. ring.
Qed.

(* ================================================================== *)
(** * Rounding to hundredths *)
(* ================================================================== *)

Lemma Qfloor_unique (x : Q) (k : Z) :
  inject_Z k <= x -> x < inject_Z (k + 1) -> Qfloor x = k.
Proof.
  intros H1 H2.
  pose proof (Qfloor_le x) as F1. pose proof (Qlt_floor x) as F2.
  assert (A : inject_Z k < inject_Z (Qfloor x + 1)) by lra.
  assert (B : inject_Z (Qfloor x) < inject_Z (k + 1)) by lra.
  rewrite <- Zlt_Qlt in A, B. lia.
Qed.

Lemma round_half_even_comp (x y : Q) : x == y -> Py.round_half_even x = Py.round_half_even y.
Proof.
  intro H. unfold Py.round_half_even. rewrite (Qfloor_comp _ _ H).
  assert (E : x - inject_Z (Qfloor y) == y - inject_Z (Qfloor y)) by (rewrite H; reflexivity).
  rewrite (Qcompare_comp _ _ E _ _ (Qeq_refl (1#2))). reflexivity.
Qed.

Lemma round_half_even_Z (z : Z) : Py.round_half_even (inject_Z z) = z.
Proof.
  unfold Py.round_half_even. rewrite Qfloor_Z.
  assert (E : inject_Z z - inject_Z z == 0) by ring.
  rewrite (Qcompare_comp _ _ E _ _ (Qeq_refl (1#2))). reflexivity.
Qed.

Lemma round2_comp (x y : Q) : x == y -> Py.round2 x = Py.round2 y.
Proof.
  intro H. unfold Py.round2.
  rewrite (round_half_even_comp (x * 100) (y * 100)); [reflexivity|].
  rewrite H. reflexivity.
Qed.

Lemma round2_hundredths (z : Z) : Py.round2 (inject_Z z / 100) = inject_Z z / 100.
Proof.
  unfold Py.round2.
  rewrite (round_half_even_comp (inject_Z z / 100 * 100) (inject_Z z)).
  - rewrite round_half_even_Z. reflexivity.
  - field.
Qed.

Lemma round2_idempotent (x : Q) : Py.round2 (Py.round2 x) = Py.round2 x.
Proof. unfold Py.round2 at 2 3. apply round2_hundredths. Qed.

Lemma round2_zero (x : Q) : x == 0 -> Py.round2 x == 0.
Proof. intro H. rewrite (round2_comp x 0 H). reflexivity. Qed.

Lemma round2_nonneg (x : Q) : 0 <= x -> 0 <= Py.round2 x.
Proof.
  intro H. unfold Py.round2.
  assert (F : (0 <= Qfloor (x * 100))%Z).
  { rewrite <- (Qfloor_Z 0). apply Qfloor_resp_le. change (inject_Z 0) with 0. lra. }
  assert (R : (0 <= Py.round_half_even (x * 100))%Z).
  { unfold Py.round_half_even.
    destruct (Qcompare _ _); [destruct (Z.even _)| |]; lia. }
  apply Qle_shift_div_l; [reflexivity|].
  rewrite Zle_Qle in R. change (inject_Z 0) with 0 in R. lra.
Qed.

(** Rounding moves a number by half a unit at most. *)
Lemma round_half_even_error (y : Q) :
  y - (1 # 2) <= inject_Z (Py.round_half_even y) <= y + (1 # 2).
Proof.
  unfold Py.round_half_even.
  pose proof (Qfloor_le y) as F1. pose proof (Qlt_floor y) as F2.
  rewrite inject_Z_plus in F2. change (inject_Z 1) with 1 in F2.
  destruct (Qcompare (y - inject_Z (Qfloor y)) (1 # 2)) eqn:E.
  - apply Qeq_alt in E.
    destruct (Z.even (Qfloor y));
      rewrite ?inject_Z_plus; change (inject_Z 1) with 1; lra.
  - apply Qlt_alt in E. lra.
  - apply Qgt_alt in E. rewrite inject_Z_plus. change (inject_Z 1) with 1. lra.
Qed.

Lemma round2_error (x : Q) : x - (1 # 200) <= Py.round2 x <= x + (1 # 200).
Proof.
  unfold Py.round2. destruct (round_half_even_error (x * 100)) as [L U].
  split.
  - apply Qle_shift_div_l; [reflexivity | lra].
  - apply Qle_shift_div_r; [reflexivity | lra].
Qed.

(** Two numbers that add up to 100 still do so, up to one hundredth, when
    each is rounded. *)
Lemma rounded_complement (p q : Q) :
  p + q == 100 -> within_a_hundredth (Py.round2 q) (100 - Py.round2 p).
Proof.
  intro H. unfold within_a_hundredth.
  destruct (round2_error p) as [P1 P2]. destruct (round2_error q) as [Q1 Q2].
  split; lra.
Qed.

(* ================================================================== *)
(** * C3: idle hours of the operator report *)
(* ================================================================== *)

Section ModeCounters.
Import OperatorReportsByName.

Variable g : Z -> Q.

Let rows (ms : list Z) : list (Z * Q) := map (fun m => (m, g m)) ms.

(** The loop over [mode_hours] leaves in each counter the total of its
    mode, or the initial value when the mode has no row. *)
Lemma fold_count_mode (ms : list Z) (c : counters) :
  NoDup ms ->
  let r := fold_left count_mode (rows ms) c in
  c_production r == (if existsb (Z.eqb 1) ms then g 1 else c_production c)
  /\ c_meeting r == (if existsb (Z.eqb 4) ms then g 4 else c_meeting c)
  /\ c_no_feeding r == (if existsb (Z.eqb 3) ms then g 3 else c_no_feeding c)
  /\ c_maintenance r == (if existsb (Z.eqb 5) ms then g 5 else c_maintenance c).
Proof.
  intro Hnd. revert c. induction Hnd as [|m ms Hm Hnd IH]; intro c.
  - simpl. repeat split; reflexivity.
  - cbn [rows map fold_left existsb]. fold (rows ms).
    specialize (IH (count_mode c (m, g m))). cbv zeta in IH.
    destruct IH as (I1 & I4 & I3 & I5).
    assert (N : forall k, k = m -> existsb (Z.eqb k) ms = false).
    { intros k ->. destruct (existsb (Z.eqb m) ms) eqn:E; [|reflexivity].
      apply existsb_eqb_In in E. contradiction. }
    cbv zeta. rewrite I1, I4, I3, I5. clear I1 I4 I3 I5.
    unfold count_mode. cbn [fst snd].
    destruct (Z.eqb_spec m 1) as [->|n1].
    { rewrite (N 1%Z eq_refl). cbn. repeat split; try reflexivity. apply or0_some. }
    destruct (Z.eqb_spec m 4) as [->|n4].
    { rewrite (N 4%Z eq_refl). cbn. repeat split; try reflexivity. apply or0_some. }
    destruct (Z.eqb_spec m 3) as [->|n3].
    { rewrite (N 3%Z eq_refl). cbn. repeat split; try reflexivity. apply or0_some. }
    destruct (Z.eqb_spec m 5) as [->|n5].
    { rewrite (N 5%Z eq_refl). cbn. repeat split; try reflexivity. apply or0_some. }
    assert (F : forall k, k <> m -> (k =? m)%Z = false)
      by (intros k Hk; apply Z.eqb_neq; exact Hk).
    rewrite (F 1%Z), (F 4%Z), (F 3%Z), (F 5%Z) by congruence.
    cbn [orb]. repeat split; reflexivity.
Qed.

End ModeCounters.

(** Each counter of the summary is the sum of the durations of its mode. *)
Lemma mode_counters_buckets (logs : list MachineLog) :
  OperatorReportsByName.total_production_hours logs == bucket_hours 1 logs
  /\ OperatorReportsByName.total_meeting_hours logs == bucket_hours 4 logs
  /\ OperatorReportsByName.total_no_feeding_hours logs == bucket_hours 3 logs
  /\ OperatorReportsByName.total_maintenance_hours logs == bucket_hours 5 logs.
Proof.
  unfold OperatorReportsByName.total_production_hours,
    OperatorReportsByName.total_meeting_hours,
    OperatorReportsByName.total_no_feeding_hours,
    OperatorReportsByName.total_maintenance_hours,
    OperatorReportsByName.mode_counters, OperatorReportsByName.mode_hours.
  pose proof (fold_count_mode (fun m => bucket_hours m logs)
                (distinct Z.eqb (map MODE logs))
                (OperatorReportsByName.mk_counters 0 0 0 0)
                (NoDup_distinct _)) as H.
  cbv zeta in H. unfold bucket_hours in *.
  assert (E : forall k, existsb (Z.eqb k) (distinct Z.eqb (map MODE logs)) = false ->
                        0 == SumG OperatorFamily.duration_hours
                               (filter (fun l => (MODE l =? k)%Z) logs)).
  { intros k Hk. rewrite filter_none; [reflexivity|].
    intros l Hl. apply Z.eqb_neq. intro Hm.
    assert (T : existsb (Z.eqb k) (distinct Z.eqb (map MODE logs)) = true).
    { apply existsb_eqb_In, In_distinct. rewrite <- Hm. apply in_map. exact Hl. }
    congruence. }
  destruct H as (H1 & H4 & H3 & H5).
  repeat split.
  - rewrite H1. destruct (existsb (Z.eqb 1) _) eqn:X; [reflexivity | apply E, X].
  - rewrite H4. destruct (existsb (Z.eqb 4) _) eqn:X; [reflexivity | apply E, X].
  - rewrite H3. destruct (existsb (Z.eqb 3) _) eqn:X; [reflexivity | apply E, X].
  - rewrite H5. destruct (existsb (Z.eqb 5) _) eqn:X; [reflexivity | apply E, X].
Qed.

Lemma max_zero_comp (a b : Q) : a == b -> Py.max a 0 == Py.max b 0.
Proof.
  intro H. unfold Py.max.
  destruct (Py.ltb a 0) eqn:Ea; destruct (Py.ltb b 0) eqn:Eb; qprop; lra.
Qed.

Lemma max_zero_Qmax (a : Q) : Py.max a 0 == Qmax a 0.
Proof.
  unfold Py.max. destruct (Py.ltb a 0) eqn:E; qprop.
  - symmetry. apply Q.max_r. apply Qlt_le_weak. exact E.
  - symmetry. apply Q.max_l. exact E.
Qed.

(** ** Ordered and distinct keys *)

Lemma insert_sorted_perm {K : Type} (leb : K -> K -> bool) (k : K) (ks : list K) :
  Permutation (insert_sorted leb k ks) (k :: ks).
Proof.
  induction ks as [|k' ks IH]; simpl.
  - apply Permutation_refl.
  - destruct (leb k k').
    + apply Permutation_refl.
    + apply perm_trans with (k' :: k :: ks).
      * apply perm_skip. exact IH.
      * apply perm_swap.
Qed.

Lemma order_by_perm {K : Type} (leb : K -> K -> bool) (ks : list K) :
  Permutation (order_by leb ks) ks.
Proof.
  induction ks as [|k ks IH]; simpl.
  - apply perm_nil.
  - apply perm_trans with (k :: order_by leb ks).
    + apply insert_sorted_perm.
    + apply perm_skip. exact IH.
Qed.

(** The sum of a column over the groups of a key is its sum over all the
    rows. *)
Section DistinctBy.
Context {K : Type} (eqb : K -> K -> bool).
Hypothesis eqb_eq : forall a b, eqb a b = true <-> a = b.

Lemma In_distinct_by (ks : list K) (k : K) : In k (distinct eqb ks) <-> In k ks.
Proof.
  induction ks as [|k' ks IH]; simpl; [reflexivity|].
  rewrite filter_In, negb_true_iff, IH.
  destruct (eqb k k') eqn:E.
  - apply eqb_eq in E. subst. tauto.
  - split; [tauto|]. intros [H|H]; [|tauto].
    subst. rewrite (proj2 (eqb_eq k k) eq_refl) in E. discriminate.
Qed.

Lemma NoDup_distinct_by (ks : list K) : NoDup (distinct eqb ks).
Proof.
  induction ks as [|k ks IH]; simpl; constructor.
  - rewrite filter_In, negb_true_iff. intros [_ H].
    rewrite (proj2 (eqb_eq k k) eq_refl) in H. discriminate.
  - apply NoDup_filter. exact IH.
Qed.

End DistinctBy.

(** ** The guarded divisions never raise *)

Lemma div_ret (x y : Q) : ~ y == 0 -> Py.div x y = Py.Ret (x / y).
Proof.
  intro H. unfold Py.div. destruct (Qeq_bool y 0) eqn:E; [|reflexivity].
  apply Qeq_bool_iff in E. contradiction.
Qed.

Lemma percent_if_positive_ret (num den : Q) :
  percent_if_positive num den = Py.Ret (guarded_percent num den).
Proof.
  unfold percent_if_positive, guarded_percent.
  destruct (Py.gtb den 0) eqn:E; [|reflexivity].
  unfold Py.gtb in E. apply ltb_iff in E.
  rewrite div_ret; [reflexivity|]. intro H. rewrite H in E. apply (Qlt_irrefl _ E).
Qed.

Lemma guarded_mean_ret (total : Q) (n : Z) :
  (if (0 <? n)%Z then Py.div total (inject_Z n) else Py.Ret 0)
  = Py.Ret (guarded_mean total n).
Proof.
  unfold guarded_mean. destruct (0 <? n)%Z eqn:E; [|reflexivity].
  apply Z.ltb_lt in E. apply div_ret.
  unfold Qeq. simpl. lia.
Qed.

Lemma guarded_percent_nonpositive (num den : Q) :
  den <= 0 -> guarded_percent num den = 0.
Proof.
  intro H. unfold guarded_percent. destruct (Py.gtb den 0) eqn:E; [|reflexivity].
  unfold Py.gtb in E. apply ltb_iff in E. exfalso. apply (Qlt_not_le _ _ E H).
Qed.

Lemma for_loop_ret {A S : Type} (body : S -> A -> Py.result S) (step : S -> A -> S)
    (xs : list A) (s : S) :
  (forall s x, body s x = Py.Ret (step s x)) ->
  for_loop body xs s = Py.Ret (fold_left step xs s).
Proof.
  intro H. revert s. induction xs as [|x xs IH]; intro s; simpl.
  - reflexivity.
  - rewrite H. simpl. apply IH.
Qed.

Lemma for_each_ret {A B : Type} (f : A -> Py.result B) (g : A -> B) (xs : list A) :
  (forall x, f x = Py.Ret (g x)) -> for_each f xs = Py.Ret (map g xs).
Proof.
  intro H. induction xs as [|x xs IH]; simpl.
  - reflexivity.
  - rewrite H, IH. reflexivity.
Qed.

(** What a loop that builds a list returns is what its body returned, turn
    by turn. *)
Lemma for_each_Forall2 {A B : Type} (f : A -> Py.result B) (xs : list A) (ys : list B) :
  for_each f xs = Py.Ret ys -> Forall2 (fun x y => f x = Py.Ret y) xs ys.
Proof.
  revert ys. induction xs as [|x xs IH]; intros ys H; simpl in H.
  - injection H as <-. constructor.
  - destruct (f x) as [y|e] eqn:E; [|discriminate].
    cbn [Py.bind] in H. destruct (for_each f xs) as [ys'|e]; [|discriminate].
    cbn [Py.bind] in H. injection H as <-. constructor; [exact E | apply IH; reflexivity].
Qed.

(** ** The statements that evaluate the cast *)

(** The cast on some texts: white space around the number is accepted; a
    text without digits, a fraction and a value beyond 32 bits are not. *)
Lemma cast_integer_examples :
  cast_integer " 100 " = Py.Ret 100%Z
  /\ cast_integer "-5" = Py.Ret (-5)%Z
  /\ cast_integer "2147483647" = Py.Ret 2147483647%Z
  /\ cast_integer "abc" = Py.Raise Py.DataError
  /\ cast_integer "" = Py.Raise Py.DataError
  /\ cast_integer "12.5" = Py.Raise Py.DataError
  /\ cast_integer "99999999999" = Py.Raise Py.DataError.
Proof. repeat split. Qed.

(** The cast raises nothing but [DataError]. *)
Lemma cast_integer_exn (s : string) (e : Py.exn) :
  cast_integer s = Py.Raise e -> e = Py.DataError.
Proof.
  unfold cast_integer. destruct (integer_syntax s) as [v|].
  - destruct ((-2147483648 <=? v) && (v <=? 2147483647))%Z; [discriminate|].
    intro H. injection H as <-. reflexivity.
  - intro H. injection H as <-. reflexivity.
Qed.

Lemma reserve_numeric_outcome (l : MachineLog) :
  reserve_numeric l
  = if castable l then Py.Ret (reserve_value l) else Py.Raise Py.DataError.
Proof.
  unfold castable, reserve_value, reserve_numeric.
  destruct (RESERVE l) as [s|]; [|reflexivity].
  destruct (cast_integer s) as [v|e] eqn:E; cbn [Py.bind]; [reflexivity|].
  rewrite (cast_integer_exn s e E). reflexivity.
Qed.

Lemma evaluated_ret {A : Type} (logs : list MachineLog) (v : A) :
  forallb castable logs = true -> evaluated logs v = Py.Ret v.
Proof. intro H. unfold evaluated. rewrite H. reflexivity. Qed.

Lemma evaluated_inv {A : Type} (logs : list MachineLog) (v r : A) :
  evaluated logs v = Py.Ret r -> r = v /\ forallb castable logs = true.
Proof.
  unfold evaluated. destruct (forallb castable logs); [|discriminate].
  intro H. injection H as <-. split; reflexivity.
Qed.

Lemma evaluated_exn {A : Type} (logs : list MachineLog) (v : A) (e : Py.exn) :
  evaluated logs v = Py.Raise e -> e = Py.DataError /\ forallb castable logs = false.
Proof.
  unfold evaluated. destruct (forallb castable logs); [discriminate|].
  intro H. injection H as <-. split; reflexivity.
Qed.

Lemma evaluated_nil {A : Type} (v : A) : evaluated [] v = Py.Ret v.
Proof. reflexivity. Qed.

Lemma reserve_values_evaluated (logs : list MachineLog) :
  reserve_values logs = evaluated logs (map reserve_value logs).
Proof.
  unfold reserve_values, evaluated. induction logs as [|l logs IH]; [reflexivity|].
  cbn [for_each forallb map]. rewrite reserve_numeric_outcome, IH.
  destruct (castable l); [|reflexivity].
  destruct (forallb castable logs); reflexivity.
Qed.

Lemma AvgCaseReserve_evaluated (group : list MachineLog) :
  AvgCaseReserve group = evaluated group (daily_speed group).
Proof.
  unfold AvgCaseReserve. rewrite reserve_values_evaluated. unfold evaluated.
  destruct (forallb castable group); reflexivity.
Qed.

Lemma average_sewing_speed_evaluated (logs : list MachineLog) :
  average_sewing_speed logs = evaluated logs (summary_speed logs).
Proof.
  unfold average_sewing_speed. rewrite reserve_values_evaluated. unfold evaluated.
  destruct (forallb castable logs); reflexivity.
Qed.

(** A loop that runs one such statement for each key. *)
Lemma for_each_evaluated {K B : Type} (group : K -> list MachineLog)
    (f : K -> Py.result B) (g : K -> B) (ks : list K) :
  (forall k, f k = evaluated (group k) (g k)) ->
  for_each f ks
  = if forallb (fun k => forallb castable (group k)) ks
    then Py.Ret (map g ks) else Py.Raise Py.DataError.
Proof.
  intro H. induction ks as [|k ks IH]; [reflexivity|].
  cbn [for_each forallb map]. rewrite H, IH. unfold evaluated.
  destruct (forallb castable (group k)); [|reflexivity].
  destruct (forallb _ ks); reflexivity.
Qed.

Lemma for_loop_evaluated {K S : Type} (group : K -> list MachineLog)
    (body : S -> K -> Py.result S) (step : S -> K -> S) (ks : list K) (s : S) :
  (forall s k, body s k = evaluated (group k) (step s k)) ->
  for_loop body ks s
  = if forallb (fun k => forallb castable (group k)) ks
    then Py.Ret (fold_left step ks s) else Py.Raise Py.DataError.
Proof.
  intro H. revert s. induction ks as [|k ks IH]; intro s; [reflexivity|].
  cbn [for_loop forallb fold_left]. rewrite H. unfold evaluated.
  destruct (forallb castable (group k)); [|reflexivity].
  cbn [Py.bind andb]. apply IH.
Qed.

(** The groups of a queryset by a key cover it. *)
Lemma forallb_groups {K : Type} (key : MachineLog -> K) (eqb : K -> K -> bool)
    (ks : list K) (logs : list MachineLog) :
  (forall a, eqb a a = true) ->
  (forall l, In l logs -> In (key l) ks) ->
  forallb (fun k => forallb castable (filter (fun l => eqb (key l) k) logs)) ks
  = forallb castable logs.
Proof.
  intros Hrefl Hin. apply eq_true_iff_eq. rewrite !forallb_forall. split.
  - intros H l Hl. specialize (H (key l) (Hin l Hl)).
    rewrite forallb_forall in H. apply H. apply filter_In. split; [exact Hl | apply Hrefl].
  - intros H k _. apply forallb_forall. intros l Hl. apply filter_In in Hl. apply H, Hl.
Qed.

Lemma forallb_castable_filter (p : MachineLog -> bool) (logs : list MachineLog) :
  forallb castable logs = true -> forallb castable (filter p logs) = true.
Proof.
  rewrite !forallb_forall. intros H l Hl. apply filter_In in Hl. apply H, Hl.
Qed.

Lemma key_eqb_refl (k : Z * string) : OperatorReportsByName.key_eqb k k = true.
Proof.
  unfold OperatorReportsByName.key_eqb. rewrite Z.eqb_refl, String.eqb_refl. reflexivity.
Qed.

(** The daily table of the operator report. *)
Lemma table_data_evaluated (logs : list MachineLog) :
  OperatorReportsByName.table_data logs = evaluated logs (table_values logs).
Proof.
  unfold OperatorReportsByName.table_data.
  rewrite (for_each_evaluated
             (fun k => filter (fun l => OperatorReportsByName.key_eqb
                                          (OperatorReportsByName.key_of l) k) logs)
             _ (fun k => row_value k
                  (filter (fun l => OperatorReportsByName.key_eqb
                                      (OperatorReportsByName.key_of l) k) logs))).
  - rewrite (forallb_groups OperatorReportsByName.key_of OperatorReportsByName.key_eqb).
    + reflexivity.
    + exact key_eqb_refl.
    + intros l Hl.
      apply (Permutation_in _ (Permutation_sym (order_by_perm _ _))).
      apply (In_distinct_by OperatorReportsByName.key_eqb); [|apply in_map; exact Hl].
      intros a b. unfold OperatorReportsByName.key_eqb.
      rewrite andb_true_iff, Z.eqb_eq, String.eqb_eq.
      destruct a, b; simpl; split; [intros [-> ->]; reflexivity|].
      intro E. injection E as -> ->. split; reflexivity.
  - intro k. unfold OperatorReportsByName.annotate_group. cbv zeta.
    rewrite AvgCaseReserve_evaluated. unfold evaluated.
    destruct (forallb castable _); reflexivity.
Qed.

(** The response of [operator_reports_by_name] on its filtered queryset:
    the summary speed and the daily table evaluate the cast on every row. *)
Lemma by_name_report_ret (operators : list Operator) (logs : list MachineLog) :
  OperatorReportsByName.report operators logs
  = evaluated logs (by_name_value operators logs).
Proof.
  unfold OperatorReportsByName.report, by_name_value,
    OperatorReportsByName.production_percentage,
    OperatorReportsByName.npt_percentage,
    OperatorReportsByName.average_SKIP_COUNT,
    OperatorReportsByName.SKIP_COUNT_percentage.
  rewrite !percent_if_positive_ret, guarded_mean_ret.
  rewrite average_sewing_speed_evaluated, table_data_evaluated.
  unfold evaluated. destruct (forallb castable logs); reflexivity.
Qed.

Lemma sum_single_mode (g : Z -> Q) (ms : list Z) :
  NoDup ms ->
  Py.sum (map snd (filter (fun mode : Z * Q => (fst mode =? 1)%Z)
                          (map (fun m => (m, g m)) ms)))
  == (if existsb (Z.eqb 1) ms then g 1%Z else 0).
Proof.
  induction 1 as [|m ms Hm Hnd IH]; [reflexivity|].
  cbn [map filter fst existsb].
  destruct (Z.eqb_spec m 1%Z) as [->|N].
  - cbn [map snd]. rewrite sum_cons, IH. rewrite Z.eqb_refl. cbn [orb].
    destruct (existsb (Z.eqb 1) ms) eqn:E.
    + apply existsb_eqb_In in E. contradiction.
    + ring.
  - rewrite IH. assert (F : (1 =? m)%Z = false) by (apply Z.eqb_neq; congruence).
    rewrite F. reflexivity.
Qed.

(** The production hours of [operator_reports_all] are those of the
    operator report. *)
Lemma all_production_hours (logs : list MachineLog) :
  OperatorReportsAll.total_production_hours logs
  == OperatorReportsByName.total_production_hours logs.
Proof.
  destruct (mode_counters_buckets logs) as (H1 & _). rewrite H1.
  unfold OperatorReportsAll.total_production_hours, OperatorReportsByName.mode_hours.
  rewrite (sum_single_mode
             (fun m => SumG OperatorFamily.duration_hours
                         (filter (fun l => (MODE l =? m)%Z) logs)))
    by apply NoDup_distinct.
  unfold bucket_hours.
  destruct (existsb (Z.eqb 1) (distinct Z.eqb (map MODE logs))) eqn:E; [reflexivity|].
  rewrite filter_none; [reflexivity|].
  intros l Hl. apply Z.eqb_neq. intro Hm.
  assert (T : existsb (Z.eqb 1) (distinct Z.eqb (map MODE logs)) = true).
  { apply existsb_eqb_In, In_distinct. rewrite <- Hm. apply in_map. exact Hl. }
  congruence.
Qed.

Lemma annotate_group_row (k : Z * string) (group : list MachineLog) :
  OperatorReportsByName.annotate_group k group = evaluated group (row_value k group).
Proof.
  unfold OperatorReportsByName.annotate_group. cbv zeta.
  rewrite AvgCaseReserve_evaluated. unfold evaluated.
  destruct (forallb castable group); reflexivity.
Qed.

(** The entry of [operator_reports_all] for one operator. *)
Lemma operator_entry_ret (operator : Operator) (logs : list MachineLog) :
  OperatorReportsAll.operator_entry operator logs
  = Py.Ret (operator_entry_value operator logs).
Proof.
  unfold OperatorReportsAll.operator_entry, OperatorReportsAll.npt_percentage,
    OperatorReportsAll.production_percentage, operator_entry_value.
  rewrite !percent_if_positive_ret. reflexivity.
Qed.

(** C3, as amended.  In the operator report the idle hours of the summary
    are the larger of 0 and the nominal hours (10 for each distinct working
    day) less the hours of the production, no-feeding, meeting and
    maintenance buckets, so they are never negative; a response of the view
    carries that value, rounded, and each row of its daily table shows the
    same for the logs of its day and operator, with a nominal 10 hours.  The
    view answers whenever the cast of the reserve of each of its logs
    succeeds.  [operator_reports_all] has no idle hours: the figure it
    derives by subtraction, the non-production hours, is the nominal hours
    less the production hours, without a floor. *)
Theorem C3_derived_idle :
  forall (operators : list Operator) (logs : list MachineLog),
    OperatorReportsByName.total_idle_hours logs
    == Qmax (inject_Z (working_days logs * 10)
             - (bucket_hours 1 logs + bucket_hours 3 logs
                + bucket_hours 4 logs + bucket_hours 5 logs)) 0
    /\ 0 <= OperatorReportsByName.total_idle_hours logs
    /\ (forallb castable logs = true ->
        exists r, OperatorReportsByName.report operators logs = Py.Ret r)
    /\ (forall r, OperatorReportsByName.report operators logs = Py.Ret r ->
        OperatorReportsByName.totalIdleHours r
        = Py.round2 (OperatorReportsByName.total_idle_hours logs)
        /\ exists rows,
             OperatorReportsByName.tableData r
             = map (OperatorReportsByName.format_row operators) rows
             /\ Forall2 (fun k row =>
                           OperatorReportsByName.annotate_group k
                             (filter (fun l => OperatorReportsByName.key_eqb
                                                 (OperatorReportsByName.key_of l) k) logs)
                           = Py.Ret row)
                        (order_by OperatorReportsByName.key_leb
                           (distinct OperatorReportsByName.key_eqb
                              (map OperatorReportsByName.key_of logs)))
                        rows)
    /\ (forall k group row,
          OperatorReportsByName.annotate_group k group = Py.Ret row ->
          OperatorReportsByName.Idle_Hours
            (OperatorReportsByName.format_row operators row)
          = Py.round2 (Py.max (10 - (bucket_hours 1 group + bucket_hours 4 group
                                     + bucket_hours 3 group + bucket_hours 5 group)) 0))
    /\ (forall operator,
          exists e, OperatorReportsAll.operator_entry operator logs = Py.Ret e
                    /\ OperatorReportsAll.totalNonProductionHours e
                       = Py.round2 (inject_Z (working_days logs * 10)
                                    - bucket_hours 1 logs)).
Proof.
  intros operators logs.
  destruct (mode_counters_buckets logs) as (H1 & H4 & H3 & H5).
  split; [|split; [|split; [|split; [|split]]]].
  - unfold OperatorReportsByName.total_idle_hours.
    rewrite max_zero_Qmax.
    unfold OperatorReportsByName.total_available_hours,
      OperatorReportsByName.total_working_days, working_days.
    rewrite H1, H4, H3, H5. reflexivity.
  - apply max_zero_spec.
  - intro C. eexists. rewrite by_name_report_ret. apply evaluated_ret, C.
  - intros r Hr. rewrite by_name_report_ret in Hr.
    apply evaluated_inv in Hr. destruct Hr as [-> C]. split; [reflexivity|].
    exists (table_values logs). split; [reflexivity|].
    apply (for_each_Forall2
             (fun k => OperatorReportsByName.annotate_group k
                         (filter (fun l => OperatorReportsByName.key_eqb
                                             (OperatorReportsByName.key_of l) k) logs))).
    fold (OperatorReportsByName.table_data logs).
    rewrite table_data_evaluated. apply evaluated_ret, C.
  - intros k group row Hrow. rewrite annotate_group_row in Hrow.
    apply evaluated_inv in Hrow. destruct Hrow as [-> _].
    cbn [row_value OperatorReportsByName.format_row
         OperatorReportsByName.Idle_Hours OperatorReportsByName.idle_hours].
    apply round2_comp, max_zero_comp. unfold bucket_hours.
    rewrite !SumCaseMode_filter. reflexivity.
  - intro operator. eexists. split; [apply operator_entry_ret|].
    cbn [operator_entry_value OperatorReportsAll.totalNonProductionHours].
    apply round2_comp. unfold OperatorReportsAll.total_non_production_hours.
    rewrite all_production_hours, H1. reflexivity.
Qed.

Lemma C3_derived_idle_witness :
  exists r, OperatorReportsByName.report sample_operators [log_morning] = Py.Ret r
            /\ OperatorReportsByName.totalIdleHours r == 9.
Proof.
  destruct (C3_derived_idle sample_operators [log_morning])
    as (_ & _ & Hret & Hval & _).
  destruct (Hret eq_refl) as [r Hr]. exists r. split; [exact Hr|].
  destruct (Hval r Hr) as [E _]. rewrite E. reflexivity.
Defined.

(** The claim as written fails in [operator_reports_all]: for an operator
    with 11 hours of sewing on one day the nominal hours less the bucket
    hours are -1, which the claim floors at 0, and the entry shows
    non-production hours of -1. *)
Lemma C3_operator_all_counterexample :
  let operator := mk_operator "A1" "Asha" in
  let logs := OperatorReportsAll.report_logs operator None None [log_full_shift] in
  exists e,
    OperatorReportsAll.operator_reports_all [operator] None None [log_full_shift]
    = Py.Ret [e]
    /\ inject_Z (working_days logs * 10)
       - (bucket_hours 1 logs + bucket_hours 3 logs
          + bucket_hours 4 logs + bucket_hours 5 logs) == -1
    /\ OperatorReportsAll.totalNonProductionHours e == -1
    /\ ~ 0 <= OperatorReportsAll.totalNonProductionHours e.
Proof.
  cbv zeta. eexists. split; [vm_compute; reflexivity|].
  split; [reflexivity|]. split; [reflexivity|]. intro H. apply H. reflexivity.
Qed.

(* ================================================================== *)
(** * C10: the daily table of the operator report *)
(* ================================================================== *)

Lemma daily_row_shown_holds (operators : list Operator) (k : Z * string)
    (group : list MachineLog) :
  daily_row_shown operators (row_value k group).
Proof.
  unfold daily_row_shown. cbn.
  split; [reflexivity|]. split; [reflexivity|]. split; [reflexivity|].
  split; [reflexivity|]. split; [reflexivity|].
  split; [apply rounded_complement; ring|]. split; [reflexivity|].
  split; [reflexivity|]. split.
  - apply round2_nonneg. apply max_zero_spec.
  - field.
Qed.

(** C10.  A response of the operator report carries a daily table of one
    formatted row for each (date, operator) group, and the view answers
    whenever the cast of the reserve of each of its logs succeeds.  In each
    row 'Total Hours' is 10 whatever the bucket hours of the day are; the
    productive percentage is sewing hours / 10 x 100 and the non-productive
    percentage is exactly 100 less the productive one; 'Productive Time in
    %' and 'NPT in %' are the two, each rounded, so that 'NPT in %' is 100
    less 'Productive Time in %' up to one hundredth; and 'Idle Hours' is the
    rounded larger of 0 and the idle hours 10 less the four bucket hours,
    while the non-productive percentage is the one of the non-production
    hours with that idle value before it is floored. *)
Theorem C10_operator_daily_table :
  forall (operators : list Operator) (logs : list MachineLog),
    (forallb castable logs = true ->
     exists r, OperatorReportsByName.report operators logs = Py.Ret r)
    /\ (forall r, OperatorReportsByName.report operators logs = Py.Ret r ->
        exists rows,
          OperatorReportsByName.table_data logs = Py.Ret rows
          /\ OperatorReportsByName.tableData r
             = map (OperatorReportsByName.format_row operators) rows
          /\ Forall (daily_row_shown operators) rows).
Proof.
  intros operators logs. split.
  - intro C. eexists. rewrite by_name_report_ret. apply evaluated_ret, C.
  - intros r Hr. rewrite by_name_report_ret in Hr.
    apply evaluated_inv in Hr. destruct Hr as [-> C].
    exists (table_values logs). split; [|split].
    + rewrite table_data_evaluated. apply evaluated_ret, C.
    + reflexivity.
    + unfold table_values. apply Forall_forall.
      intros row H. apply in_map_iff in H. destruct H as [k [<- _]].
      apply daily_row_shown_holds.
Qed.

Lemma C10_operator_daily_table_witness :
  exists r row,
    OperatorReportsByName.report sample_operators [log_full_shift] = Py.Ret r
    /\ OperatorReportsByName.tableData r = [row]
    /\ OperatorReportsByName.Total_Hours row == 10.
Proof.
  destruct (C10_operator_daily_table sample_operators [log_full_shift]) as [Hret Hval].
  destruct (Hret eq_refl) as [r Hr].
  destruct (Hval r Hr) as (rows & H1 & H2 & H3).
  assert (E : rows = table_values [log_full_shift]).
  { rewrite table_data_evaluated in H1. apply evaluated_inv in H1.
    destruct H1 as [-> _]. reflexivity. }
  exists r, (OperatorReportsByName.format_row sample_operators
               (row_value (100%Z, "A1"%string) [log_full_shift])).
  split; [exact Hr|]. split.
  - rewrite H2, E. reflexivity.
  - reflexivity.
Defined.

(** A day with 11 hours of sewing: the row shows 10 total hours, no idle
    hours, 110 % productive time and -10 % non-productive time. *)
Lemma full_shift_row :
  exists shown,
    option_map OperatorReportsByName.tableData
      (match OperatorReportsByName.operator_reports_by_name
               sample_operators "Asha" None None [log_full_shift] with
       | Py.Ret r => Some r
       | Py.Raise _ => None
       end) = Some [shown]
    /\ OperatorReportsByName.Total_Hours shown == 10
    /\ OperatorReportsByName.Sewing_Hours shown == 11
    /\ OperatorReportsByName.Idle_Hours shown == 0
    /\ OperatorReportsByName.Productive_Time_in_pct shown == 110
    /\ OperatorReportsByName.NPT_in_pct shown == -10.
Proof.
  eexists. split; [vm_compute; reflexivity|]. repeat split.
Qed.

(* ================================================================== *)
(** * The loop over the daily data *)
(* ================================================================== *)

Lemma loop_body_ret (last_column : Z -> Py.scalar) (t : DailyTable.totals)
    (data : DailyTable.day) :
  DailyTable.loop_body last_column t data = Py.Ret (add_day last_column t data).
Proof.
  unfold DailyTable.loop_body. cbv zeta.
  rewrite !percent_if_positive_ret. reflexivity.
Qed.

(** The query of the daily table evaluates the cast on every row. *)
Lemma daily_data_evaluated (logs : list MachineLog) :
  DailyTable.daily_data logs = evaluated logs (daily_values logs).
Proof.
  unfold DailyTable.daily_data.
  rewrite (for_each_evaluated (fun d => DailyTable.on_date d logs)
             _ (fun d => day_value d (DailyTable.on_date d logs))).
  - unfold DailyTable.on_date.
    rewrite (forallb_groups DATE Z.eqb).
    + reflexivity.
    + exact Z.eqb_refl.
    + intros l Hl. unfold DailyTable.dates.
      apply (Permutation_in _ (Permutation_sym (order_by_perm _ _))).
      apply In_distinct, in_map, Hl.
  - intro d. unfold DailyTable.annotate_group.
    rewrite AvgCaseReserve_evaluated. unfold evaluated.
    destruct (forallb castable _); reflexivity.
Qed.

Lemma loop_ret (last_column : Z -> Py.scalar) (logs : list MachineLog) :
  DailyTable.loop last_column logs = evaluated logs (day_totals last_column logs).
Proof.
  unfold DailyTable.loop, day_totals. rewrite daily_data_evaluated.
  unfold evaluated. destruct (forallb castable logs); [|reflexivity].
  cbn [Py.bind]. apply for_loop_ret. apply loop_body_ret.
Qed.

(** The table the loop builds has the row of each day, in order. *)
Lemma fold_add_day_table (last_column : Z -> Py.scalar) (days : list DailyTable.day)
    (t : DailyTable.totals) :
  DailyTable.formatted_table_data (fold_left (add_day last_column) days t)
  = DailyTable.formatted_table_data t ++ map (shown_day last_column) days.
Proof.
  revert t. induction days as [|d days IH]; intro t; simpl.
  - now rewrite app_nil_r.
  - rewrite IH. simpl. now rewrite <- app_assoc.
Qed.

(** The totals the loop builds are the sums of the columns of the days. *)
Lemma fold_add_day_totals (last_column : Z -> Py.scalar) (days : list DailyTable.day)
    (t : DailyTable.totals) :
  let r := fold_left (add_day last_column) days t in
  DailyTable.total_sewing_hours r
  == DailyTable.total_sewing_hours t + Py.sum (map DailyTable.sewing_hours days)
  /\ DailyTable.total_SKIP_COUNT r
     == DailyTable.total_SKIP_COUNT t + Py.sum (map DailyTable.day_SKIP_COUNT days)
  /\ DailyTable.total_hours r
     == DailyTable.total_hours t + Py.sum (map daily_total_hours days).
Proof.
  revert t. induction days as [|d days IH]; intro t; cbv zeta.
  - simpl. rewrite sum_nil. repeat split; ring.
  - cbn [fold_left map]. destruct (IH (add_day last_column t d)) as (I1 & I2 & I3).
    rewrite I1, I2, I3, !sum_cons. unfold add_day.
    cbn [DailyTable.total_sewing_hours DailyTable.total_SKIP_COUNT
         DailyTable.total_hours].
    rewrite !or0_some. repeat split; ring.
Qed.

(** The dictionary of [process_line_data]. *)
Lemma process_line_data_ret (logs : list MachineLog) (LINE_NUMBERer : Z) :
  LineReports.process_line_data logs LINE_NUMBERer
  = evaluated logs (line_report_value logs LINE_NUMBERer).
Proof.
  unfold LineReports.process_line_data, line_report_value,
    LineReports.average_machines.
  rewrite guarded_mean_ret. cbn [Py.bind].
  change (fun date => Py.Int (LineReports.machine_count logs date))
    with (line_last_column logs).
  rewrite loop_ret, average_sewing_speed_evaluated. unfold evaluated.
  destruct (forallb castable logs); [|reflexivity]. cbn [Py.bind].
  rewrite !percent_if_positive_ret. cbn [Py.bind].
  rewrite guarded_mean_ret. reflexivity.
Qed.

(** The dictionary of [process_machine_data]. *)
Lemma process_machine_data_ret (logs : list MachineLog) (machine_id : Py.scalar) :
  MachineReports.process_machine_data logs machine_id
  = evaluated logs (machine_report_value logs machine_id).
Proof.
  unfold MachineReports.process_machine_data, machine_report_value.
  rewrite loop_ret, average_sewing_speed_evaluated. unfold evaluated.
  destruct (forallb castable logs); [|reflexivity]. cbn [Py.bind].
  rewrite !percent_if_positive_ret. reflexivity.
Qed.

(* ================================================================== *)
(** * Sums by group *)
(* ================================================================== *)

Lemma sum_Permutation (xs ys : list Q) :
  Permutation xs ys -> Py.sum xs == Py.sum ys.
Proof.
  induction 1 as [|x xs ys _ IH|x y xs|xs ys zs _ IH1 _ IH2].
  - reflexivity.
  - rewrite !sum_cons, IH. reflexivity.
  - rewrite !sum_cons. ring.
  - rewrite IH1. exact IH2.
Qed.

Lemma sum_by_key (key : MachineLog -> Z) (col : MachineLog -> Q)
    (ks : list Z) (logs : list MachineLog) :
  NoDup ks -> (forall l, In l logs -> In (key l) ks) ->
  Py.sum (map (fun k => SumG col (filter (fun l => (key l =? k)%Z) logs)) ks)
  == SumG col logs.
Proof.
  intros Hnd. induction logs as [|l logs IH]; intro Hin.
  - unfold SumG. simpl. clear. induction ks as [|k ks IH]; simpl.
    + reflexivity.
    + rewrite sum_cons, IH, sum_nil. ring.
  - assert (S : forall ks', NoDup ks' ->
        Py.sum (map (fun k => SumG col (filter (fun l0 => (key l0 =? k)%Z) (l :: logs))) ks')
        == (if existsb (Z.eqb (key l)) ks' then col l else 0)
           + Py.sum (map (fun k => SumG col (filter (fun l0 => (key l0 =? k)%Z) logs)) ks')).
    { clear. induction 1 as [|k ks' Hk Hnd' IH']; cbn [map existsb].
      - rewrite sum_nil. ring.
      - rewrite !sum_cons, IH'. cbn [filter].
        destruct (Z.eqb_spec (key l) k) as [E|E]; cbn [orb].
        + assert (X : existsb (Z.eqb (key l)) ks' = false).
          { destruct (existsb (Z.eqb (key l)) ks') eqn:T; [|reflexivity].
            apply existsb_eqb_In in T. rewrite E in T. contradiction. }
          rewrite X. unfold SumG. cbn [map]. rewrite sum_cons. ring.
        + ring. }
    rewrite (S ks Hnd), IH.
    + assert (X : existsb (Z.eqb (key l)) ks = true).
      { apply existsb_eqb_In. apply Hin. left. reflexivity. }
      rewrite X. unfold SumG. cbn [map]. rewrite sum_cons. reflexivity.
    + intros l' Hl'. apply Hin. right. exact Hl'.
Qed.

(** The sum of a column of [daily_data] is the sum of the column over the
    queryset. *)
Lemma sum_over_days (col : MachineLog -> Q) (logs : list MachineLog) :
  Py.sum (map (fun d => SumG col (DailyTable.on_date d logs)) (DailyTable.dates logs))
  == SumG col logs.
Proof.
  unfold DailyTable.dates, DailyTable.on_date.
  rewrite (sum_Permutation _
             (map (fun d => SumG col (filter (fun l => (DATE l =? d)%Z) logs))
                  (distinct Z.eqb (map DATE logs)))).
  - apply sum_by_key.
    + apply NoDup_distinct.
    + intros l Hl. apply In_distinct. apply in_map. exact Hl.
  - apply Permutation_map. apply order_by_perm.
Qed.

(** The totals of the loop over the days, as sums over the queryset: the
    sewing hours over the production logs, the skip counts over the logs of
    every mode. *)
Lemma day_totals_sums (last_column : Z -> Py.scalar) (logs : list MachineLog) :
  let t := day_totals last_column logs in
  DailyTable.total_sewing_hours t
  == SumG WindowFamily.duration_hours (filter (fun l => (MODE l =? 1)%Z) logs)
  /\ DailyTable.total_SKIP_COUNT t == SumG SKIP_COUNT logs.
Proof.
  cbv zeta. unfold day_totals.
  destruct (fold_add_day_totals last_column (daily_values logs)
              DailyTable.initial) as (H1 & H2 & _).
  rewrite H1, H2. unfold daily_values. rewrite !map_map.
  cbn [DailyTable.sewing_hours DailyTable.day_SKIP_COUNT day_value
       DailyTable.initial DailyTable.total_sewing_hours DailyTable.total_SKIP_COUNT].
  split.
  - rewrite <- SumCaseMode_filter. unfold SumCaseMode at 2.
    rewrite <- (sum_over_days (fun l => if (MODE l =? 1)%Z
                                        then WindowFamily.duration_hours l else 0) logs).
    unfold SumCaseMode. ring.
  - rewrite <- (sum_over_days SKIP_COUNT logs). ring.
Qed.

(* ================================================================== *)
(** * C6: needle-runtime percentage *)
(* ================================================================== *)

Lemma guarded_percent_comp (n n' d d' : Q) :
  n == n' -> d == d' -> guarded_percent n d == guarded_percent n' d'.
Proof.
  intros Hn Hd. unfold guarded_percent.
  destruct (Py.gtb d 0) eqn:E; destruct (Py.gtb d' 0) eqn:E'; qprop.
  - rewrite Hn, Hd. reflexivity.
  - rewrite Hd in E. exfalso. apply (Qlt_not_le _ _ E E').
  - rewrite Hd in E. exfalso. apply (Qlt_not_le _ _ E' E).
  - reflexivity.
Qed.

(** The operator report computes the needle-runtime percentage from the
    skip counts of the production logs. *)
Lemma operator_needle_runtime (operators : list Operator) (logs : list MachineLog)
    (r : OperatorReportsByName.response) :
  OperatorReportsByName.report operators logs = Py.Ret r ->
  OperatorReportsByName.needleRuntimePercentage r
  = Py.round2 (needle_runtime_percent OperatorFamily.duration_hours logs).
Proof.
  intro Hr. rewrite by_name_report_ret in Hr. apply evaluated_inv in Hr.
  destruct Hr as [-> _].
  cbn [by_name_value OperatorReportsByName.needleRuntimePercentage].
  apply round2_comp. unfold needle_runtime_percent. apply guarded_percent_comp.
  - unfold OperatorReportsByName.total_SKIP_COUNT_hours,
      OperatorReportsByName.total_SKIP_COUNT, OperatorReportsByName.sewing_logs, Sum, SumG.
    destruct (filter (fun l => (MODE l =? 1)%Z) logs) as [|l ls].
    + reflexivity.
    + rewrite or0_some. reflexivity.
  - apply mode_counters_buckets.
Qed.

(** The line report computes it from the skip counts of the logs of every
    mode: [total_SKIP_COUNT] accumulates the daily [Sum('SKIP_COUNT')]. *)
Lemma line_needle_runtime (logs : list MachineLog) (LINE_NUMBERer : Z)
    (r : LineReports.line_report) :
  LineReports.process_line_data logs LINE_NUMBERer = Py.Ret r ->
  LineReports.needleRuntimePercentage r
  = Py.round2 (guarded_percent
                 (SumG SKIP_COUNT logs / 3600)
                 (SumG WindowFamily.duration_hours
                       (filter (fun l => (MODE l =? 1)%Z) logs))).
Proof.
  intro Hr. rewrite process_line_data_ret in Hr. apply evaluated_inv in Hr.
  destruct Hr as [-> _].
  cbn [line_report_value LineReports.needleRuntimePercentage].
  destruct (day_totals_sums (line_last_column logs) logs) as [H1 H2].
  apply round2_comp. apply guarded_percent_comp.
  - rewrite H2. reflexivity.
  - exact H1.
Qed.

(** C6, at an input where the line report departs from it.  One hour of
    production with a skip count of 360 and one hour without feeding with a
    skip count of 360, same line and day: the line report answers 20 % where
    the production skip counts over the productive hour give 10 %, which is
    what the operator report answers on the same logs. *)
Theorem C6_line_needle_runtime_all_modes :
  let logs := [log_morning; log_no_feeding] in
  (exists r, LineReports.line_reports sample_operators (Some 1%Z) None None logs
             = Py.Ret (LineReports.OneLine r)
             /\ LineReports.needleRuntimePercentage r == 20)
  /\ needle_runtime_percent WindowFamily.duration_hours
       (aggregated_logs (line (Some 1%Z)) sample_operators None None logs) == 10
  /\ (exists r, OperatorReportsByName.operator_reports_by_name
                  sample_operators "Asha" None None logs = Py.Ret r
                /\ OperatorReportsByName.needleRuntimePercentage r == 10).
Proof.
  cbv zeta. split; [|split].
  - eexists. split; [vm_compute; reflexivity | reflexivity].
  - reflexivity.
  - eexists. split; [vm_compute; reflexivity | reflexivity].
Qed.

(* ================================================================== *)
(** * C4: average sewing speed *)
(* ================================================================== *)

Lemma valid_speed_values (logs : list MachineLog) :
  flat_map (fun v => match option_map inject_Z v with Some q => [q] | None => [] end)
           (filter reserve_positive (map reserve_value logs))
  = positive_reserves logs.
Proof.
  unfold positive_reserves, reserve_positive.
  induction logs as [|l logs IH]; [reflexivity|].
  cbn [map filter flat_map].
  destruct (reserve_value l) as [v|] eqn:Hv; [|exact IH].
  destruct (0 <? v)%Z eqn:E; [|exact IH].
  cbn [flat_map option_map app]. rewrite IH. reflexivity.
Qed.

(** The summary speed of every view is the mean of the positive coerced
    reserve values. *)
Lemma summary_speed_mean_positive (logs : list MachineLog) :
  summary_speed logs == mean_positive_reserve logs.
Proof.
  unfold summary_speed, Avg, mean_positive_reserve.
  rewrite valid_speed_values.
  destruct (positive_reserves logs) as [|v vs]; [reflexivity|].
  apply or0_some.
Qed.

(** The speed of a row of a daily table divides the sum of the positive
    coerced reserve values by the number of all the logs of the group. *)
Lemma daily_speed_over_all_logs (group : list MachineLog) (speed : Q) :
  AvgCaseReserve group = Py.Ret speed ->
  speed == Py.sum (positive_reserves group) / inject_Z (Z.of_nat (List.length group)).
Proof.
  intro H. rewrite AvgCaseReserve_evaluated in H. apply evaluated_inv in H.
  destruct H as [-> _]. unfold daily_speed. rewrite length_map.
  assert (E : Py.sum (map speed_or_zero (map reserve_value group))
              == Py.sum (positive_reserves group)).
  { unfold positive_reserves, speed_or_zero.
    induction group as [|l group IH]; [reflexivity|].
    cbn [map flat_map]. rewrite sum_cons, sum_app, IH.
    destruct (reserve_value l) as [v|]; [destruct (0 <? v)%Z|];
      rewrite ?sum_cons, ?sum_nil; ring. }
  rewrite E. reflexivity.
Qed.

(** C4, at an input where the daily tables depart from it.  Two logs of one
    operator, line and day, with reserve values "100" and "0": the mean of
    the positive values is 100, which is the average sewing speed of the
    summaries; the rows of the daily tables of the operator and the line
    report show 50, the zero being counted. *)
Theorem C4_daily_speed_counts_nonpositive :
  let logs := [log_morning; log_no_feeding] in
  mean_positive_reserve logs == 100
  /\ (exists r row,
        OperatorReportsByName.operator_reports_by_name
          sample_operators "Asha" None None logs = Py.Ret r
        /\ OperatorReportsByName.averageSewingSpeed r == 100
        /\ OperatorReportsByName.tableData r = [row]
        /\ OperatorReportsByName.Sewing_Speed row == 50)
  /\ (exists r row,
        LineReports.line_reports sample_operators (Some 1%Z) None None logs
        = Py.Ret (LineReports.OneLine r)
        /\ LineReports.averageSewingSpeed r == 100
        /\ LineReports.tableData r = [row]
        /\ DailyTable.Sewing_Speed row == 50).
Proof.
  cbv zeta. split; [reflexivity|]. split.
  - eexists. eexists. split; [vm_compute; reflexivity|].
    split; [reflexivity|]. split; reflexivity.
  - eexists. eexists. split; [vm_compute; reflexivity|].
    split; [reflexivity|]. split; reflexivity.
Qed.

(* ================================================================== *)
(** * C5: the summary of the report for all lines *)
(* ================================================================== *)

Lemma weighted_averages_ret (s : LineReports.summary_data) :
  LineReports.weighted_averages s = Py.Ret (averaged s).
Proof.
  unfold LineReports.weighted_averages, averaged.
  assert (D : forall n d, Py.gtb d 0 = true -> Py.div n d = Py.Ret (n / d)).
  { intros n d H. unfold Py.gtb in H. apply ltb_iff in H. apply div_ret.
    intro E. rewrite E in H. apply (Qlt_irrefl _ H). }
  destruct (Py.gtb (LineReports.speed_count s) 0) eqn:E1;
    [rewrite (D _ _ E1)|]; cbn [Py.bind];
  (destruct (0 <? Z.of_nat (List.length (LineReports.all_line_reports s)))%Z eqn:E2;
    [rewrite div_ret by (apply Z.ltb_lt in E2; unfold Qeq; simpl; lia)|]);
  cbn [Py.bind];
  (destruct (Py.gtb (LineReports.sd_totalProductiveTime s) 0) eqn:E3;
    [rewrite (D _ _ E3)|]); reflexivity.
Qed.

Lemma make_summary_ret (s : LineReports.summary_data) :
  LineReports.make_summary s = Py.Ret (summary_value s).
Proof.
  unfold LineReports.make_summary. rewrite !percent_if_positive_ret. reflexivity.
Qed.

(** The lines of a queryset cover it. *)
Lemma forallb_lines (logs : list MachineLog) :
  forallb (fun n => forallb castable (filter (fun l => (LINE_NUMBER l =? n)%Z) logs))
          (LineReports.LINE_NUMBERers logs)
  = forallb castable logs.
Proof.
  apply (forallb_groups LINE_NUMBER Z.eqb).
  - exact Z.eqb_refl.
  - intros l Hl. unfold LineReports.LINE_NUMBERers.
    apply (Permutation_in _ (Permutation_sym (order_by_perm _ _))).
    apply In_distinct, in_map, Hl.
Qed.

Lemma all_lines_data_ret (logs : list MachineLog) :
  LineReports.all_lines_data logs
  = evaluated logs (averaged (accumulated (line_report_values logs))).
Proof.
  unfold LineReports.all_lines_data, accumulated, line_report_values.
  rewrite (for_loop_evaluated
             (fun line_num => filter (fun l => (LINE_NUMBER l =? line_num)%Z) logs)
             (LineReports.lines_body logs)
             (fun s line_num =>
                LineReports.accumulate s
                  (line_report_value
                     (filter (fun l => (LINE_NUMBER l =? line_num)%Z) logs) line_num))).
  - rewrite forallb_lines. unfold evaluated.
    destruct (forallb castable logs); [|reflexivity].
    cbn [Py.bind]. rewrite weighted_averages_ret. f_equal. f_equal.
    generalize LineReports.summary_initial.
    induction (LineReports.LINE_NUMBERers logs) as [|n ns IH]; intro s0; simpl.
    + reflexivity.
    + apply IH.
  - intros s line_num. unfold LineReports.lines_body.
    rewrite process_line_data_ret. unfold evaluated.
    destruct (forallb castable _); reflexivity.
Qed.

(** The response of [line_reports] for all lines. *)
Lemma line_reports_all_ret (operators : list Operator)
    (from_date to_date : option Z) (db : list MachineLog) :
  let logs := LineReports.report_logs operators None from_date to_date db in
  let s := averaged (accumulated (line_report_values logs)) in
  LineReports.line_reports operators None from_date to_date db
  = evaluated logs
      (LineReports.AllLines (LineReports.all_line_reports s) (summary_value s)).
Proof.
  cbv zeta. unfold LineReports.line_reports.
  rewrite all_lines_data_ret. unfold evaluated.
  destruct (forallb castable _); [|reflexivity]. cbn [Py.bind].
  rewrite make_summary_ret. reflexivity.
Qed.

(** The accumulators of the loop over the lines are sums over the reports
    of the lines. *)
Lemma fold_accumulate (reports : list LineReports.line_report)
    (s0 : LineReports.summary_data) :
  let s := fold_left LineReports.accumulate reports s0 in
  LineReports.sd_totalIdealHours s
  == LineReports.sd_totalIdealHours s0
     + Py.sum (map LineReports.totalIdealHours reports)
  /\ LineReports.sd_totalHours s
     == LineReports.sd_totalHours s0 + Py.sum (map LineReports.totalHours reports)
  /\ LineReports.sd_totalProductiveTime s
     == LineReports.sd_totalProductiveTime s0
        + Py.sum (map LineReports.totalProductiveTime_hours reports)
  /\ LineReports.sd_totalNonProductiveTime s
     == LineReports.sd_totalNonProductiveTime s0
        + Py.sum (map LineReports.totalNonProductiveTime_hours reports)
  /\ LineReports.sd_totalStitchCount s
     = (LineReports.sd_totalStitchCount s0
        + fold_right Z.add 0 (map LineReports.totalStitchCount reports))%Z
  /\ LineReports.sd_averageMachines s
     == LineReports.sd_averageMachines s0
        + Py.sum (map LineReports.averageMachines reports)
  /\ LineReports.speed_sum s
     == LineReports.speed_sum s0
        + Py.sum (map (fun r => LineReports.averageSewingSpeed r
                                * LineReports.totalHours r) reports)
  /\ LineReports.speed_count s
     == LineReports.speed_count s0 + Py.sum (map LineReports.totalHours reports)
  /\ LineReports.sd_averageSewingSpeed s = LineReports.sd_averageSewingSpeed s0
  /\ LineReports.all_line_reports s = LineReports.all_line_reports s0 ++ reports.
Proof.
  revert s0. induction reports as [|r reports IH]; intro s0; cbv zeta.
  - cbn [fold_left map fold_right]. rewrite sum_nil, app_nil_r, Z.add_0_r.
    repeat split; ring.
  - cbn [fold_left map fold_right].
    destruct (IH (LineReports.accumulate s0 r))
      as (I1 & I2 & I3 & I4 & I5 & I6 & I7 & I8 & I9 & I10).
    rewrite I1, I2, I3, I4, I5, I6, I7, I8, I9, I10, !sum_cons.
    unfold LineReports.accumulate.
    cbn [LineReports.sd_totalIdealHours LineReports.sd_totalHours
         LineReports.sd_totalProductiveTime LineReports.sd_totalNonProductiveTime
         LineReports.sd_totalStitchCount LineReports.sd_averageMachines
         LineReports.speed_sum LineReports.speed_count
         LineReports.sd_averageSewingSpeed LineReports.all_line_reports].
    rewrite <- app_assoc.
    repeat split; try ring; reflexivity.
Qed.

Lemma hundredths_round2 (x : Q) : hundredths (Py.round2 x).
Proof. exists (Py.round_half_even (x * 100)). reflexivity. Qed.

Lemma round2_fixed (q : Q) : hundredths q -> Py.round2 q == q.
Proof.
  intros [z Hz]. rewrite (round2_comp q _ Hz), round2_hundredths.
  symmetry. exact Hz.
Qed.

Lemma hundredths_sum (xs : list Q) : Forall hundredths xs -> hundredths (Py.sum xs).
Proof.
  induction 1 as [|x xs [z Hz] _ [zs Hzs]].
  - exists 0%Z. reflexivity.
  - exists (z + zs)%Z. rewrite sum_cons, Hz, Hzs, inject_Z_plus. field.
Qed.

Lemma gtb_comp (a b : Q) : a == b -> Py.gtb a 0 = Py.gtb b 0.
Proof.
  intro H. apply eq_true_iff_eq. rewrite !gtb_iff, H. reflexivity.
Qed.

Lemma all_line_reports_value (reports : list LineReports.line_report) :
  LineReports.all_line_reports (averaged (accumulated reports)) = reports.
Proof.
  destruct (fold_accumulate reports LineReports.summary_initial)
    as (_ & _ & _ & _ & _ & _ & _ & _ & _ & I10). exact I10.
Qed.

(** What [line_reports] returns for all lines, when it returns. *)
Lemma line_reports_all_inv (operators : list Operator)
    (from_date to_date : option Z) (db : list MachineLog)
    (reports : list LineReports.line_report) (summary : LineReports.summary) :
  let logs := LineReports.report_logs operators None from_date to_date db in
  LineReports.line_reports operators None from_date to_date db
  = Py.Ret (LineReports.AllLines reports summary) ->
  forallb castable logs = true
  /\ reports = line_report_values logs
  /\ summary = summary_value (averaged (accumulated reports)).
Proof.
  cbv zeta. intro H.
  pose proof (line_reports_all_ret operators from_date to_date db) as R.
  cbv zeta in R. rewrite R in H. apply evaluated_inv in H. destruct H as [H C].
  rewrite all_line_reports_value in H. injection H as -> ->.
  split; [exact C|]. split; reflexivity.
Qed.

(** The figures of a report of a line are hundredths. *)
Lemma hundredths_reports (reports : list LineReports.line_report)
    (field : LineReports.line_report -> Q) :
  (forall r, In r reports -> hundredths (field r)) ->
  Forall hundredths (map field reports).
Proof.
  intro H. apply Forall_forall. intros q Hq. apply in_map_iff in Hq.
  destruct Hq as [r [<- Hr]]. apply H, Hr.
Qed.

(** C5.  A response of the report for all lines lists the report of each
    line, as [process_line_data] returns it on the logs of the line, and a
    summary computed from the figures of those reports; the view answers
    whenever the cast of the reserve of each of its logs succeeds.  The
    average sewing speed of the summary is the rounded mean of the lines'
    average speeds weighted by their total hours (0 when the total hours
    are not positive), its average machine count the rounded simple mean of
    the lines' averages, and its hours and stitch count are the sums of the
    lines' totals. *)
Theorem C5_all_lines_summary :
  forall (operators : list Operator) (from_date to_date : option Z)
         (db : list MachineLog),
    let logs := LineReports.report_logs operators None from_date to_date db in
    (forallb castable logs = true ->
     exists reports summary,
       LineReports.line_reports operators None from_date to_date db
       = Py.Ret (LineReports.AllLines reports summary))
    /\ (forall reports summary,
          LineReports.line_reports operators None from_date to_date db
          = Py.Ret (LineReports.AllLines reports summary) ->
          Forall2 (fun line_num r =>
                     LineReports.process_line_data
                       (filter (fun l => (LINE_NUMBER l =? line_num)%Z) logs) line_num
                     = Py.Ret r)
                  (LineReports.LINE_NUMBERers logs) reports
          /\ LineReports.s_averageSewingSpeed summary
             = Py.round2 (weighted_mean_speed reports)
          /\ LineReports.s_averageMachines summary = Py.round2 (mean_machines reports)
          /\ LineReports.s_totalHours summary
             == Py.sum (map LineReports.totalHours reports)
          /\ LineReports.s_totalIdealHours summary
             == Py.sum (map LineReports.totalIdealHours reports)
          /\ LineReports.s_totalProductiveTime_hours summary
             == Py.sum (map LineReports.totalProductiveTime_hours reports)
          /\ LineReports.s_totalNonProductiveTime_hours summary
             == Py.sum (map LineReports.totalNonProductiveTime_hours reports)
          /\ LineReports.s_totalStitchCount summary
             = fold_right Z.add 0%Z (map LineReports.totalStitchCount reports)).
Proof.
  intros operators from_date to_date db logs. split.
  { intro C. pose proof (line_reports_all_ret operators from_date to_date db) as R.
    cbv zeta in R. fold logs in R. rewrite R. do 2 eexists. apply evaluated_ret, C. }
  intros reports summary H.
  apply line_reports_all_inv in H. fold logs in H. destruct H as (C & Hr & ->).
  assert (Hund : forall (field : LineReports.line_report -> Q),
             (forall ls n, hundredths (field (line_report_value ls n))) ->
             Forall hundredths (map field reports)).
  { intros field Hf. apply hundredths_reports. intros r Hin. rewrite Hr in Hin.
    unfold line_report_values in Hin. apply in_map_iff in Hin.
    destruct Hin as [n [<- _]]. apply Hf. }
  destruct (fold_accumulate reports LineReports.summary_initial)
    as (I1 & I2 & I3 & I4 & I5 & I6 & I7 & I8 & I9 & I10).
  fold (accumulated reports) in I1, I2, I3, I4, I5, I6, I7, I8, I9, I10.
  cbn [LineReports.summary_initial LineReports.sd_totalIdealHours
       LineReports.sd_totalHours LineReports.sd_totalProductiveTime
       LineReports.sd_totalNonProductiveTime LineReports.sd_totalStitchCount
       LineReports.sd_averageMachines LineReports.speed_sum LineReports.speed_count
       LineReports.sd_averageSewingSpeed LineReports.all_line_reports app]
    in I1, I2, I3, I4, I5, I6, I7, I8, I9, I10.
  split.
  - rewrite Hr. unfold line_report_values.
    assert (G : forall n, In n (LineReports.LINE_NUMBERers logs) ->
                forallb castable (filter (fun l => (LINE_NUMBER l =? n)%Z) logs) = true).
    { intros n _. apply forallb_castable_filter, C. }
    induction (LineReports.LINE_NUMBERers logs) as [|n ns IH]; simpl; constructor.
    + rewrite process_line_data_ret. apply evaluated_ret, G. left. reflexivity.
    + apply IH. intros m Hm. apply G. right. exact Hm.
  - cbn [summary_value averaged LineReports.s_averageSewingSpeed
         LineReports.s_averageMachines LineReports.s_totalHours
         LineReports.s_totalIdealHours LineReports.s_totalProductiveTime_hours
         LineReports.s_totalNonProductiveTime_hours LineReports.s_totalStitchCount
         LineReports.sd_averageSewingSpeed LineReports.sd_averageMachines
         LineReports.sd_totalHours LineReports.sd_totalIdealHours
         LineReports.sd_totalProductiveTime LineReports.sd_totalNonProductiveTime
         LineReports.sd_totalStitchCount].
    assert (Z0 : forall a : Q, 0 + a == a) by (intro; ring).
    assert (S : forall (field : LineReports.line_report -> Q) (acc : Q),
               (forall ls n, hundredths (field (line_report_value ls n))) ->
               acc == 0 + Py.sum (map field reports) ->
               Py.round2 acc == Py.sum (map field reports)).
    { intros field acc Hf Hacc.
      rewrite (round2_comp _ _ Hacc), (round2_comp _ _ (Z0 _)).
      apply round2_fixed, hundredths_sum, Hund. exact Hf. }
    split; [|split; [|split; [|split; [|split; [|split]]]]].
    + apply round2_comp. unfold weighted_mean_speed.
      rewrite (gtb_comp (LineReports.speed_count (accumulated reports))
                 (Py.sum (map LineReports.totalHours reports)))
        by (rewrite I8; ring).
      destruct (Py.gtb (Py.sum (map LineReports.totalHours reports)) 0).
      * rewrite I7, I8, !Z0. reflexivity.
      * rewrite I9. reflexivity.
    + apply round2_comp. unfold mean_machines, guarded_mean. rewrite I10.
      destruct (0 <? Z.of_nat (List.length reports))%Z eqn:E.
      * rewrite I6, Z0. reflexivity.
      * rewrite I6, Z0.
        assert (N : reports = []).
        { destruct reports; [reflexivity|]. simpl in E. discriminate. }
        rewrite N. reflexivity.
    + apply S; [intros; apply hundredths_round2 | exact I2].
    + apply S; [intros; apply hundredths_round2 | exact I1].
    + apply S; [intros; apply hundredths_round2 | exact I3].
    + apply S; [intros; apply hundredths_round2 | exact I4].
    + rewrite I5. reflexivity.
Qed.

Lemma C5_all_lines_summary_witness :
  exists reports summary,
    LineReports.line_reports sample_operators None None None [log_morning; log_line_two]
    = Py.Ret (LineReports.AllLines reports summary)
    /\ LineReports.s_averageSewingSpeed summary
       = Py.round2 (weighted_mean_speed reports).
Proof.
  destruct (C5_all_lines_summary sample_operators None None [log_morning; log_line_two])
    as [Hret Hval].
  destruct (Hret eq_refl) as (reports & summary & H).
  exists reports, summary. split; [exact H|]. apply (Hval reports summary H).
Defined.

(* ================================================================== *)
(** * C8: zero denominators *)
(* ================================================================== *)

Lemma guarded_percent_zero (num den : Q) : den == 0 -> guarded_percent num den = 0.
Proof. intro H. apply guarded_percent_nonpositive. rewrite H. apply Qle_refl. Qed.

Lemma round2_guarded_percent_zero (num den : Q) :
  den == 0 -> Py.round2 (guarded_percent num den) == 0.
Proof. intro H. rewrite (guarded_percent_zero num den H). reflexivity. Qed.

Lemma speed_without_samples (logs : list MachineLog) :
  positive_reserves logs = [] -> Py.round2 (summary_speed logs) == 0.
Proof.
  intro H. apply round2_zero. rewrite summary_speed_mean_positive.
  unfold mean_positive_reserve. rewrite H. reflexivity.
Qed.

Lemma zero_guards_by_name_holds (operators : list Operator) (logs : list MachineLog) :
  zero_guards_by_name logs (by_name_value operators logs).
Proof.
  unfold zero_guards_by_name, by_name_value.
  cbn [OperatorReportsByName.productionPercentage OperatorReportsByName.nptPercentage
       OperatorReportsByName.needleRuntimePercentage
       OperatorReportsByName.totalNeedleRuntime
       OperatorReportsByName.averageSewingSpeed].
  split; [|split; [|split]].
  - intro H. split; apply round2_guarded_percent_zero; exact H.
  - intro H. apply round2_guarded_percent_zero. exact H.
  - intro H. rewrite H. reflexivity.
  - apply speed_without_samples.
Qed.

Lemma zero_guards_days (last_column : Z -> Py.scalar) (logs : list MachineLog) :
  Forall2 zero_guards_day (daily_values logs)
    (DailyTable.formatted_table_data (day_totals last_column logs)).
Proof.
  unfold day_totals. rewrite fold_add_day_table. cbn [DailyTable.initial
    DailyTable.formatted_table_data app].
  induction (daily_values logs) as [|d ds IH]; simpl; constructor.
  - intro H. cbn. split; apply round2_guarded_percent_zero; exact H.
  - exact IH.
Qed.

Lemma zero_guards_line_holds (logs : list MachineLog) (LINE_NUMBERer : Z) :
  zero_guards_line logs (line_report_value logs LINE_NUMBERer).
Proof.
  unfold zero_guards_line, line_report_value. cbv zeta.
  cbn [LineReports.totalProductiveTime_percentage
       LineReports.totalNonProductiveTime_percentage
       LineReports.utilizationPercentage LineReports.needleRuntimePercentage
       LineReports.totalNeedleRuntime LineReports.averageMachines
       LineReports.averageSewingSpeed LineReports.tableData].
  split; [|split; [|split; [|split; [|split; [|split]]]]].
  - intro H. split; apply round2_guarded_percent_zero; exact H.
  - intro H. apply round2_guarded_percent_zero. exact H.
  - intro H. apply round2_guarded_percent_zero. exact H.
  - intro H. rewrite H. reflexivity.
  - intro H. rewrite H. reflexivity.
  - apply speed_without_samples.
  - apply zero_guards_days.
Qed.

Lemma zero_guards_machine_holds (logs : list MachineLog) (machine_id : Py.scalar) :
  zero_guards_machine logs machine_id (machine_report_value logs machine_id).
Proof.
  unfold zero_guards_machine, machine_report_value. cbv zeta.
  cbn [MachineReports.totalProductiveTime_percentage
       MachineReports.totalNonProductiveTime_percentage
       MachineReports.averageSewingSpeed MachineReports.tableData].
  split; [|split].
  - intro H. split; apply round2_guarded_percent_zero; exact H.
  - apply speed_without_samples.
  - apply zero_guards_days.
Qed.

Lemma fold_accumulate_needle (reports : list LineReports.line_report)
    (s0 : LineReports.summary_data) :
  LineReports.sd_needleRuntimePercentage (fold_left LineReports.accumulate reports s0)
  = LineReports.sd_needleRuntimePercentage s0.
Proof.
  revert s0. induction reports as [|r reports IH]; intro s0; simpl.
  - reflexivity.
  - rewrite IH. reflexivity.
Qed.

Lemma gtb_zero_false (d : Q) : d == 0 -> Py.gtb d 0 = false.
Proof.
  intro H. destruct (Py.gtb d 0) eqn:E; [|reflexivity].
  unfold Py.gtb in E. apply ltb_iff in E. rewrite H in E.
  exfalso. apply (Qlt_irrefl _ E).
Qed.

Lemma zero_guards_summary_holds (reports : list LineReports.line_report) :
  zero_guards_summary (accumulated reports) (summary_value (averaged (accumulated reports))).
Proof.
  unfold zero_guards_summary, summary_value, averaged.
  cbn [LineReports.s_totalProductiveTime_percentage
       LineReports.s_totalNonProductiveTime_percentage
       LineReports.s_utilizationPercentage LineReports.s_needleRuntimePercentage
       LineReports.s_averageSewingSpeed LineReports.s_averageMachines
       LineReports.sd_totalHours LineReports.sd_totalIdealHours
       LineReports.sd_totalProductiveTime LineReports.sd_totalNonProductiveTime
       LineReports.sd_needleRuntimePercentage LineReports.sd_averageSewingSpeed
       LineReports.sd_averageMachines].
  split; [|split; [|split; [|split]]].
  - intro H. split; apply round2_guarded_percent_zero; exact H.
  - intro H. apply round2_guarded_percent_zero. exact H.
  - intro H. rewrite (gtb_zero_false _ H).
    unfold accumulated. rewrite fold_accumulate_needle. reflexivity.
  - intro H. rewrite (gtb_zero_false _ H).
    destruct (fold_accumulate reports LineReports.summary_initial)
      as (_ & _ & _ & _ & _ & _ & _ & _ & I9 & _).
    unfold accumulated. rewrite I9. reflexivity.
  - intro H. rewrite H.
    destruct (fold_accumulate reports LineReports.summary_initial)
      as (_ & _ & _ & _ & _ & _ & _ & _ & _ & I10).
    unfold accumulated in H. rewrite I10 in H. cbn in H. subst reports.
    reflexivity.
Qed.

Lemma zero_guards_operator_all_holds (operator : Operator) (logs : list MachineLog) :
  zero_guards_operator_all logs (operator_entry_value operator logs).
Proof.
  unfold zero_guards_operator_all, operator_entry_value. intro H. cbn.
  rewrite (guarded_percent_zero _ _ H). split; reflexivity.
Qed.

(** The views raise no exception but the ones of the operator lookup and
    of the cast. *)
Lemma by_name_exceptions (operators : list Operator) (name : string)
    (from_date to_date : option Z) (db : list MachineLog) (e : Py.exn) :
  OperatorReportsByName.operator_reports_by_name operators name from_date to_date db
  = Py.Raise e ->
  e = Py.DoesNotExist \/ e = Py.MultipleObjectsReturned \/ e = Py.DataError.
Proof.
  unfold OperatorReportsByName.operator_reports_by_name,
    OperatorReportsByName.report_logs, OperatorReportsByName.select.
  destruct (String.eqb name "All"); cbn [Py.bind].
  - rewrite by_name_report_ret. intro H. apply evaluated_exn in H. tauto.
  - unfold OperatorReportsByName.get_by_name.
    destruct (filter _ operators) as [|o [|o' os]]; cbn [Py.bind].
    + intro H. injection H as <-. tauto.
    + rewrite by_name_report_ret. intro H. apply evaluated_exn in H. tauto.
    + intro H. injection H as <-. tauto.
Qed.

Lemma all_machine_reports_ret (logs : list MachineLog) :
  MachineReports.all_machine_reports logs
  = evaluated logs
      (map (fun machine_id =>
              machine_report_value
                (filter (fun l => (MACHINE_ID l =? machine_id)%Z) logs)
                (Py.Int machine_id))
           (MachineReports.machine_ids logs)).
Proof.
  unfold MachineReports.all_machine_reports.
  rewrite (for_each_evaluated
             (fun machine_id => filter (fun l => (MACHINE_ID l =? machine_id)%Z) logs)
             _ (fun machine_id =>
                  machine_report_value
                    (filter (fun l => (MACHINE_ID l =? machine_id)%Z) logs)
                    (Py.Int machine_id))).
  - rewrite (forallb_groups MACHINE_ID Z.eqb).
    + reflexivity.
    + exact Z.eqb_refl.
    + intros l Hl. unfold MachineReports.machine_ids.
      apply (Permutation_in _ (Permutation_sym (order_by_perm _ _))).
      apply In_distinct, in_map, Hl.
  - intro m. apply process_machine_data_ret.
Qed.

Lemma line_reports_exceptions (operators : list Operator) (LINE_NUMBERer : option Z)
    (from_date to_date : option Z) (db : list MachineLog) (e : Py.exn) :
  LineReports.line_reports operators LINE_NUMBERer from_date to_date db = Py.Raise e ->
  e = Py.DataError.
Proof.
  destruct LINE_NUMBERer as [n|].
  - unfold LineReports.line_reports. rewrite process_line_data_ret.
    unfold evaluated. destruct (forallb castable _); [discriminate|].
    intro H. injection H as <-. reflexivity.
  - pose proof (line_reports_all_ret operators from_date to_date db) as R.
    cbv zeta in R. rewrite R. intro H. apply evaluated_exn in H. tauto.
Qed.

Lemma machine_reports_exceptions (operators : list Operator)
    (machine_id : MachineReports.url_machine_id)
    (from_date to_date : option Z) (db : list MachineLog) (e : Py.exn) :
  MachineReports.machine_reports operators machine_id from_date to_date db = Py.Raise e ->
  e = Py.DataError.
Proof.
  unfold MachineReports.machine_reports. destruct machine_id as [|text m].
  - rewrite all_machine_reports_ret. unfold evaluated.
    destruct (forallb castable _); [discriminate|].
    intro H. injection H as <-. reflexivity.
  - rewrite process_machine_data_ret. unfold evaluated.
    destruct (forallb castable _); [discriminate|].
    intro H. injection H as <-. reflexivity.
Qed.

(** C8, as amended.  No view raises a division error: every ratio is
    computed behind a test that its denominator is positive, so a zero
    denominator yields a number, 0, and neither an exception nor a NaN or an
    infinity.  In what the operator report, the reports of a line and of a
    machine with the rows of their daily tables, and the summary for all
    lines return, a field whose denominator is zero is 0: the productive and
    non-productive percentages, the utilization percentage, the
    needle-runtime percentage, the average needle runtime, the average
    machine count and the average sewing speed.  [operator_reports_all]
    guards its productive percentage the same way, and answers 100 less that
    as non-productive percentage: 100, not 0, for an operator without
    available hours. *)
Theorem C8_zero_denominators :
  forall (operators : list Operator) (from_date to_date : option Z)
         (db logs : list MachineLog) (LINE_NUMBERer : Z) (machine_id : Py.scalar),
    (forall r, OperatorReportsByName.report operators logs = Py.Ret r ->
               zero_guards_by_name logs r)
    /\ (forall r, LineReports.process_line_data logs LINE_NUMBERer = Py.Ret r ->
                  zero_guards_line logs r)
    /\ (forall r, MachineReports.process_machine_data logs machine_id = Py.Ret r ->
                  zero_guards_machine logs machine_id r)
    /\ (forall reports summary,
          LineReports.line_reports operators None from_date to_date db
          = Py.Ret (LineReports.AllLines reports summary) ->
          zero_guards_summary (accumulated reports) summary)
    /\ (exists entries,
          OperatorReportsAll.operator_reports_all operators from_date to_date db
          = Py.Ret entries
          /\ Forall2 (fun operator e =>
                        zero_guards_operator_all
                          (OperatorReportsAll.report_logs operator from_date to_date db) e)
                     operators entries)
    /\ (forallb castable logs = true ->
        (exists r, OperatorReportsByName.report operators logs = Py.Ret r)
        /\ (exists r, LineReports.process_line_data logs LINE_NUMBERer = Py.Ret r)
        /\ (exists r, MachineReports.process_machine_data logs machine_id = Py.Ret r))
    /\ (forall name,
          OperatorReportsByName.operator_reports_by_name
            operators name from_date to_date db
          <> Py.Raise Py.ZeroDivisionError)
    /\ (forall n, LineReports.line_reports operators n from_date to_date db
                  <> Py.Raise Py.ZeroDivisionError)
    /\ (forall m, MachineReports.machine_reports operators m from_date to_date db
                  <> Py.Raise Py.ZeroDivisionError).
Proof.
  intros operators from_date to_date db logs LINE_NUMBERer machine_id.
  split; [|split; [|split; [|split; [|split; [|split; [|split; [|split]]]]]]].
  - intros r Hr. rewrite by_name_report_ret in Hr. apply evaluated_inv in Hr.
    destruct Hr as [-> _]. apply zero_guards_by_name_holds.
  - intros r Hr. rewrite process_line_data_ret in Hr. apply evaluated_inv in Hr.
    destruct Hr as [-> _]. apply zero_guards_line_holds.
  - intros r Hr. rewrite process_machine_data_ret in Hr. apply evaluated_inv in Hr.
    destruct Hr as [-> _]. apply zero_guards_machine_holds.
  - intros reports summary H. apply line_reports_all_inv in H.
    destruct H as (_ & _ & ->). apply zero_guards_summary_holds.
  - exists (map (fun operator =>
                   operator_entry_value operator
                     (OperatorReportsAll.report_logs operator from_date to_date db))
                operators).
    split.
    + unfold OperatorReportsAll.operator_reports_all. apply for_each_ret.
      intro operator. apply operator_entry_ret.
    + induction operators as [|o os IH]; simpl; constructor.
      * apply zero_guards_operator_all_holds.
      * exact IH.
  - intro C. split; [|split]; eexists.
    + rewrite by_name_report_ret. apply evaluated_ret, C.
    + rewrite process_line_data_ret. apply evaluated_ret, C.
    + rewrite process_machine_data_ret. apply evaluated_ret, C.
  - intros name H. apply by_name_exceptions in H.
    destruct H as [H|[H|H]]; discriminate H.
  - intros n H. apply line_reports_exceptions in H. discriminate H.
  - intros m H. apply machine_reports_exceptions in H. discriminate H.
Qed.

Lemma C8_zero_denominators_witness :
  exists r, OperatorReportsByName.report sample_operators [] = Py.Ret r
            /\ OperatorReportsByName.productionPercentage r == 0
            /\ OperatorReportsByName.nptPercentage r == 0.
Proof.
  destruct (C8_zero_denominators sample_operators None None [] [] 1%Z (Py.Int 7))
    as (Hz & _ & _ & _ & _ & Hret & _).
  destruct (Hret eq_refl) as [[r Hr] _].
  exists r. split; [exact Hr|]. apply (Hz r Hr). reflexivity.
Defined.

(** The claim as written fails in [operator_reports_all]: an operator
    without logs has no available hours, and the entry shows a
    non-productive percentage of 100. *)
Lemma C8_operator_summary_counterexample :
  exists e,
    OperatorReportsAll.operator_reports_all [mk_operator "A1" "Asha"] None None []
    = Py.Ret [e]
    /\ OperatorReportsAll.total_available_hours
         (OperatorReportsAll.report_logs (mk_operator "A1" "Asha") None None []) == 0
    /\ OperatorReportsAll.nptPercentage e == 100
    /\ ~ OperatorReportsAll.nptPercentage e == 0.
Proof.
  eexists. split; [vm_compute; reflexivity|].
  split; [reflexivity|]. split; [reflexivity|]. discriminate.
Qed.

(** Two lines with different hours: the summary speed is weighted by the
    hours, (100 x 1 + 200 x 3) / 4, where the simple mean would be 150. *)
Lemma weighted_speed_example :
  exists reports summary,
    LineReports.line_reports sample_operators None None None
      [log_morning; log_line_two] = Py.Ret (LineReports.AllLines reports summary)
    /\ map LineReports.averageSewingSpeed reports = [Py.round2 100; Py.round2 200]
    /\ map LineReports.totalHours reports = [Py.round2 1; Py.round2 3]
    /\ LineReports.s_averageSewingSpeed summary == 175
    /\ LineReports.s_totalHours summary == 4.
Proof.
  eexists. eexists. split; [vm_compute; reflexivity|].
  split; [reflexivity|]. split; [reflexivity|]. split; reflexivity.
Qed.

(* ================================================================== *)
(** * Times of day and the operator efficiency *)
(* ================================================================== *)

Lemma time_to_seconds_range (t : time) :
  valid_time t -> (0 <= time_to_seconds t < 86400)%Z.
Proof.
  destruct t as [h m s]. unfold valid_time, time_to_seconds. simpl. lia.
Qed.

(** X1.  On valid times of day [time_to_seconds] stays below 24 hours and
    tells any two times apart. *)
Theorem time_to_seconds_injective :
  forall t1 t2 : time,
    valid_time t1 -> valid_time t2 ->
    (0 <= time_to_seconds t1 < 86400)%Z
    /\ (time_to_seconds t1 = time_to_seconds t2 -> t1 = t2).
Proof.
  intros t1 t2 V1 V2. split; [apply time_to_seconds_range; exact V1|].
  destruct t1 as [h1 m1 s1]. destruct t2 as [h2 m2 s2].
  unfold valid_time, time_to_seconds in *. simpl in *.
  intro E.
  assert (h1 = h2) by lia. assert (m1 = m2) by lia. assert (s1 = s2) by lia.
  subst. reflexivity.
Qed.

Lemma time_to_seconds_injective_witness :
  (0 <= time_to_seconds (mk_time 8 30 0) < 86400)%Z.
Proof.
  refine (proj1 (time_to_seconds_injective (mk_time 8 30 0) (mk_time 19 30 0) _ _));
    unfold valid_time; simpl; lia.
Defined.

Lemma round_half_even_le (x : Q) (k : Z) :
  x <= inject_Z k -> (Py.round_half_even x <= k)%Z.
Proof.
  intro H. unfold Py.round_half_even.
  pose proof (Qfloor_le x) as F1.
  assert (F : (Qfloor x <= k)%Z).
  { rewrite <- (Qfloor_Z k). apply Qfloor_resp_le. exact H. }
  destruct (Z.eq_dec (Qfloor x) k) as [E|E].
  - assert (X : x - inject_Z (Qfloor x) == 0).
    { rewrite E in *. apply Qle_antisym; lra. }
    rewrite (Qcompare_comp _ _ X _ _ (Qeq_refl (1 # 2))). simpl. lia.
  - destruct (Qcompare _ _); [destruct (Z.even _)| |]; lia.
Qed.

Lemma round2_le (x : Q) (k : Z) : x <= inject_Z k -> Py.round2 x <= inject_Z k.
Proof.
  intro H. unfold Py.round2.
  assert (R : (Py.round_half_even (x * 100) <= k * 100)%Z).
  { apply round_half_even_le. rewrite inject_Z_mult.
    change (inject_Z 100) with 100. lra. }
  apply Qle_shift_div_r; [reflexivity|].
  rewrite Zle_Qle, inject_Z_mult in R. change (inject_Z 100) with 100 in R.
  exact R.
Qed.

(** The work time of a log is the time from its start to its end around
    the clock. *)
Lemma actual_work_time_mod (log : MachineLog) :
  valid_time (START_TIME log) -> valid_time (END_TIME log) ->
  OperatorEfficiency.actual_work_time log
  = ((time_to_seconds (END_TIME log) - time_to_seconds (START_TIME log)) mod 86400)%Z.
Proof.
  intros Vs Ve.
  pose proof (time_to_seconds_range _ Vs) as Bs.
  pose proof (time_to_seconds_range _ Ve) as Be.
  unfold OperatorEfficiency.actual_work_time. cbv zeta.
  destruct (Z.ltb_spec (time_to_seconds (END_TIME log))
                       (time_to_seconds (START_TIME log))) as [L|L].
  - apply Z.mod_unique with (q := (-1)%Z); lia.
  - symmetry. apply Z.mod_small. lia.
Qed.

(** X2.  [calculate_operator_efficiency] answers one entry for each log,
    in order, and raises no error.  For a log with valid times the work time
    is the time from start to end around the clock (an end before the start
    counts as on the next day), so the efficiency, its share of 8 hours in
    percent, rounded, lies between 0 and 300. *)
Theorem operator_efficiency_entries :
  forall db : list MachineLog,
    Forall (fun l => valid_time (START_TIME l) /\ valid_time (END_TIME l)) db ->
    exists entries,
      OperatorEfficiency.calculate_operator_efficiency db = Py.Ret entries
      /\ Forall2
           (fun l e =>
              OperatorEfficiency.operator e = ("Operator " ++ OPERATOR_ID l)%string
              /\ OperatorEfficiency.efficiency e
                 = Py.round2
                     (inject_Z ((time_to_seconds (END_TIME l)
                                 - time_to_seconds (START_TIME l)) mod 86400)
                      / 28800 * 100)
              /\ 0 <= OperatorEfficiency.efficiency e <= 300)
           db entries.
Proof.
  intros db Hv.
  exists (map (fun l =>
                 OperatorEfficiency.mk_entry ("Operator " ++ OPERATOR_ID l)
                   (Py.round2 (inject_Z (OperatorEfficiency.actual_work_time l)
                               / inject_Z OperatorEfficiency.standard_work_time * 100)))
              db).
  split.
  - unfold OperatorEfficiency.calculate_operator_efficiency. apply for_each_ret.
    intro l. unfold OperatorEfficiency.log_entry.
    rewrite div_ret by discriminate. reflexivity.
  - induction Hv as [|l db [Vs Ve] _ IH]; simpl; constructor; [|exact IH].
    cbn [OperatorEfficiency.operator OperatorEfficiency.efficiency].
    rewrite (actual_work_time_mod l Vs Ve).
    set (w := ((time_to_seconds (END_TIME l) - time_to_seconds (START_TIME l))
               mod 86400)%Z).
    assert (W : (0 <= w < 86400)%Z) by (apply Z.mod_pos_bound; lia).
    split; [reflexivity|]. split; [reflexivity|].
    assert (W1 : 0 <= inject_Z w) by (rewrite Zle_Qle in W; apply W).
    assert (W2 : inject_Z w <= 86400).
    { destruct W as [_ W]. apply Z.lt_le_incl in W. rewrite Zle_Qle in W. exact W. }
    clearbody w. split.
    + apply round2_nonneg.
      apply Qmult_le_0_compat; [|discriminate].
      apply Qle_shift_div_l; [reflexivity | lra].
    + change 300 with (inject_Z 300). apply round2_le.
      change (inject_Z 300) with 300.
      assert (D : inject_Z w / inject_Z OperatorEfficiency.standard_work_time * 100
                  == inject_Z w / 288)
        by (change (inject_Z OperatorEfficiency.standard_work_time) with 28800; field).
      rewrite D. apply Qle_shift_div_r; [reflexivity | lra].
Qed.

Lemma operator_efficiency_entries_witness :
  exists entries,
    OperatorEfficiency.calculate_operator_efficiency [log_backwards] = Py.Ret entries.
Proof.
  destruct (operator_efficiency_entries [log_backwards]) as [entries [H _]].
  - constructor; [|constructor]. split; unfold valid_time; simpl; lia.
  - exists entries. exact H.
Defined.

(* ================================================================== *)
(** * The clamped duration of the operator views *)
(* ================================================================== *)

Lemma div3600_eq (x y : Q) : x == y -> x / 3600 == y / 3600.
Proof. intro H. rewrite H. reflexivity. Qed.

(** X3.  For a log that does not end before it starts, the
    [duration_hours] of the operator views is the length of the part of the
    log inside 08:30-19:30, in hours: the time from the later of start and
    08:30 to the earlier of end and 19:30, or 0 when there is none. *)
Theorem operator_duration_is_overlap :
  forall l : MachineLog,
    start_seconds l <= end_seconds l ->
    OperatorFamily.duration_hours l
    == Qmax 0 (Qmin (end_seconds l) OperatorFamily.window_end
               - Qmax (start_seconds l) OperatorFamily.window_start) / 3600.
Proof.
  intros l H.
  unfold OperatorFamily.duration_hours, OperatorFamily.adjusted_end_seconds,
    OperatorFamily.adjusted_start_seconds, OperatorFamily.window_start,
    OperatorFamily.window_end.
  generalize dependent (end_seconds l). generalize (start_seconds l).
  intros s e H.
  destruct (Q.max_spec s (8.5 * 3600)) as [[Ha Ea]|[Ha Ea]];
  destruct (Q.min_spec e (19.5 * 3600)) as [[Hb Eb]|[Hb Eb]];
  rewrite Ea, Eb;
  match goal with
  | |- _ == Qmax 0 ?d / 3600 =>
      destruct (Q.max_spec 0 d) as [[Hm Em]|[Hm Em]]; rewrite Em
  end;
  destruct (Py.leb e (8.5 * 3600)) eqn:E1;
  destruct (Py.geb s (19.5 * 3600)) eqn:E2; cbn [orb];
  destruct (Py.ltb e (8.5 * 3600)) eqn:E3;
  destruct (Py.gtb e (19.5 * 3600)) eqn:E4;
  destruct (Py.ltb s (8.5 * 3600)) eqn:E5;
  destruct (Py.gtb s (19.5 * 3600)) eqn:E6;
  qprop;
  first [ reflexivity
        | exfalso; lra
        | apply div3600_eq; lra
        | change 0 with (0 / 3600) at 1; apply div3600_eq; lra ].
Qed.

Lemma operator_duration_is_overlap_witness :
  OperatorFamily.duration_hours log_early
  == Qmax 0 (Qmin (end_seconds log_early) OperatorFamily.window_end
             - Qmax (start_seconds log_early) OperatorFamily.window_start) / 3600.
Proof.
  apply (operator_duration_is_overlap log_early). vm_compute. discriminate.
Defined.

Lemma operator_duration_backwards (l : MachineLog) :
  end_seconds l <= start_seconds l -> OperatorFamily.duration_hours l <= 0.
Proof.
  intro H.
  unfold OperatorFamily.duration_hours, OperatorFamily.adjusted_end_seconds,
    OperatorFamily.adjusted_start_seconds, OperatorFamily.window_start,
    OperatorFamily.window_end.
  destruct (Py.leb (end_seconds l) (8.5 * 3600)) eqn:E1; cbn [orb]; [lra|].
  destruct (Py.geb (start_seconds l) (19.5 * 3600)) eqn:E2; cbn [orb]; [lra|].
  apply div3600_le.
  destruct (Py.ltb (end_seconds l) (8.5 * 3600)) eqn:E3;
  destruct (Py.gtb (end_seconds l) (19.5 * 3600)) eqn:E4;
  destruct (Py.ltb (start_seconds l) (8.5 * 3600)) eqn:E5;
  destruct (Py.gtb (start_seconds l) (19.5 * 3600)) eqn:E6;
  qprop; lra.
Qed.

(** X4.  The operator views never aggregate a log that ends before it
    starts, nor one of no length: its clamped duration is not positive. *)
Theorem operator_views_drop_backwards_logs :
  forall (f : family) (operators : list Operator) (from_date to_date : option Z)
         (db : list MachineLog) (l : MachineLog),
    clamped f = true ->
    end_seconds l <= start_seconds l ->
    ~ In l (aggregated_logs f operators from_date to_date db).
Proof.
  intros f operators from_date to_date db l Hf Hb Hin.
  apply aggregated_logs_normalized in Hin. destruct Hin as [rows Hin].
  rewrite Hf in Hin. apply In_operator_normalize in Hin.
  destruct Hin as (_ & _ & Hpos & _).
  apply (Qlt_not_le _ _ Hpos). apply operator_duration_backwards. exact Hb.
Qed.

Lemma operator_views_drop_backwards_logs_witness :
  ~ In log_backwards
      (aggregated_logs (operator_by_name "Asha") sample_operators None None
         [log_backwards; log_morning]).
Proof.
  apply operator_views_drop_backwards_logs; [reflexivity|].
  vm_compute. discriminate.
Defined.

(* ================================================================== *)
(** * The daily tables of the line and machine reports *)
(* ================================================================== *)

Lemma complementary_percentages (a b d : Q) :
  d == a + b ->
  shown_complementary (Py.round2 (guarded_percent a d)) (Py.round2 (guarded_percent b d)).
Proof.
  intro Hd. unfold shown_complementary, complementary, guarded_percent.
  destruct (Py.gtb d 0) eqn:E.
  - unfold Py.gtb in E. apply ltb_iff in E.
    assert (N : ~ d == 0) by (intro Z; rewrite Z in E; apply (Qlt_irrefl _ E)).
    assert (R : a / d * 100 + b / d * 100 == 100).
    { assert (B : b == d - a) by (rewrite Hd; ring). rewrite B. field. exact N. }
    split.
    + exists (a / d * 100), (b / d * 100). split; [reflexivity|].
      split; [reflexivity|]. left. exact R.
    + left. unfold within_a_hundredth.
      destruct (round2_error (a / d * 100)) as [A1 A2].
      destruct (round2_error (b / d * 100)) as [B1 B2]. split; lra.
  - split.
    + exists 0, 0. split; [reflexivity|]. split; [reflexivity|].
      right. split; reflexivity.
    + right. split; reflexivity.
Qed.

(** The loop keeps the total hours equal to the productive plus the
    non-productive hours. *)
Lemma fold_add_day_total_hours (last_column : Z -> Py.scalar) (days : list DailyTable.day)
    (t : DailyTable.totals) :
  DailyTable.total_hours t
  == DailyTable.total_sewing_hours t + non_productive_total t ->
  let r := fold_left (add_day last_column) days t in
  DailyTable.total_hours r == DailyTable.total_sewing_hours r + non_productive_total r.
Proof.
  revert t. induction days as [|d days IH]; intros t H; cbv zeta.
  - exact H.
  - cbn [fold_left]. apply IH.
    unfold add_day, non_productive_total, daily_total_hours, day_productive_time,
      day_non_productive_time in *.
    cbn [DailyTable.total_hours DailyTable.total_sewing_hours
         DailyTable.total_no_feeding_hours DailyTable.total_meeting_hours
         DailyTable.total_maintenance_hours DailyTable.total_idle_hours].
    rewrite H. ring.
Qed.

Lemma day_totals_total_hours (last_column : Z -> Py.scalar) (logs : list MachineLog) :
  let t := day_totals last_column logs in
  DailyTable.total_hours t == DailyTable.total_sewing_hours t + non_productive_total t.
Proof.
  apply fold_add_day_total_hours. reflexivity.
Qed.

Lemma day_totals_rows_complementary (last_column : Z -> Py.scalar) (logs : list MachineLog) :
  Forall row_complementary
    (DailyTable.formatted_table_data (day_totals last_column logs)).
Proof.
  unfold day_totals. rewrite fold_add_day_table.
  cbn [DailyTable.initial DailyTable.formatted_table_data app].
  apply Forall_forall. intros row H. apply in_map_iff in H.
  destruct H as [d [<- _]].
  unfold row_complementary, shown_day.
  cbn [DailyTable.Productive_Time_PT_pct DailyTable.Non_Productive_Time_NPT_pct].
  apply complementary_percentages. reflexivity.
Qed.

(** X5.  In what the report of a line and the report of a machine
    return, the productive and the non-productive percentage of the totals
    are the roundings of two percentages that add up to exactly 100, or are
    both 0 when there are no positive hours; as shown they add up to 100 up
    to one hundredth.  The same holds in every row of the daily table. *)
Theorem direct_idle_percentages_complementary :
  forall (logs : list MachineLog) (LINE_NUMBERer : Z) (machine_id : Py.scalar),
    (forall r, LineReports.process_line_data logs LINE_NUMBERer = Py.Ret r ->
               shown_complementary (LineReports.totalProductiveTime_percentage r)
                                   (LineReports.totalNonProductiveTime_percentage r)
               /\ Forall row_complementary (LineReports.tableData r))
    /\ (forall r, MachineReports.process_machine_data logs machine_id = Py.Ret r ->
                  shown_complementary (MachineReports.totalProductiveTime_percentage r)
                                      (MachineReports.totalNonProductiveTime_percentage r)
                  /\ Forall row_complementary (MachineReports.tableData r)).
Proof.
  intros logs LINE_NUMBERer machine_id. split.
  - intros r Hr. rewrite process_line_data_ret in Hr. apply evaluated_inv in Hr.
    destruct Hr as [-> _]. split.
    + apply complementary_percentages. apply day_totals_total_hours.
    + apply day_totals_rows_complementary.
  - intros r Hr. rewrite process_machine_data_ret in Hr. apply evaluated_inv in Hr.
    destruct Hr as [-> _]. split.
    + apply complementary_percentages. apply day_totals_total_hours.
    + apply day_totals_rows_complementary.
Qed.

Lemma direct_idle_percentages_complementary_witness :
  exists r,
    LineReports.process_line_data [log_morning; log_no_feeding] 1 = Py.Ret r
    /\ shown_complementary (LineReports.totalProductiveTime_percentage r)
                           (LineReports.totalNonProductiveTime_percentage r).
Proof.
  assert (H : exists r, LineReports.process_line_data [log_morning; log_no_feeding] 1
                        = Py.Ret r)
    by (eexists; vm_compute; reflexivity).
  destruct H as [r Hr]. exists r. split; [exact Hr|].
  apply (proj1 (direct_idle_percentages_complementary
                  [log_morning; log_no_feeding] 1 (Py.Int 7)) r Hr).
Defined.

(** ** The order of the rows *)

Section OrderBy.
Context {K : Type} (leb : K -> K -> bool).
Hypothesis leb_total : forall a b, leb a b = true \/ leb b a = true.

Let R (a b : K) : Prop := leb a b = true.

Lemma insert_sorted_Sorted (k : K) (ks : list K) :
  Sorted R ks -> Sorted R (insert_sorted leb k ks).
Proof.
  induction ks as [|a ks IH]; intro H; simpl.
  - repeat constructor.
  - destruct (leb k a) eqn:E.
    + constructor; [exact H|]. constructor. exact E.
    + apply Sorted_inv in H. destruct H as [Hs Hh].
      constructor; [apply IH; exact Hs|].
      assert (Ra : R a k) by (destruct (leb_total a k) as [T|T]; [exact T | congruence]).
      destruct ks as [|b ks]; simpl.
      * constructor. exact Ra.
      * destruct (leb k b); constructor; [exact Ra|].
        apply HdRel_inv in Hh. exact Hh.
Qed.

Lemma order_by_Sorted (ks : list K) : Sorted R (order_by leb ks).
Proof.
  induction ks as [|k ks IH]; simpl.
  - constructor.
  - apply insert_sorted_Sorted. exact IH.
Qed.

End OrderBy.

Lemma Sorted_le_NoDup_lt (ks : list Z) :
  Sorted (fun a b => (a <=? b)%Z = true) ks -> NoDup ks -> StronglySorted Z.lt ks.
Proof.
  intros Hs Hn.
  assert (S : StronglySorted Z.le ks).
  { apply Sorted_StronglySorted; [exact Z.le_trans|].
    induction Hs as [|a ks Hs IH Hh]; constructor.
    - apply IH. apply NoDup_cons_iff in Hn. apply Hn.
    - destruct Hh as [|b ks Hb]; constructor. apply Z.leb_le. exact Hb. }
  clear Hs. induction S as [|a ks S IH Ha]; constructor.
  - apply IH. apply NoDup_cons_iff in Hn. apply Hn.
  - apply NoDup_cons_iff in Hn. destruct Hn as [Hn _].
    rewrite Forall_forall in *. intros b Hb.
    specialize (Ha b Hb). assert (a <> b) by (intro; subst; contradiction). lia.
Qed.

Lemma Zleb_total (a b : Z) : (a <=? b)%Z = true \/ (b <=? a)%Z = true.
Proof. rewrite !Z.leb_le. lia. Qed.

(** The distinct values of an integer column, in the order of [order_by]:
    strictly ascending, and exactly the values of the column. *)
Lemma ordered_distinct (ks : list Z) :
  StronglySorted Z.lt (order_by Z.leb (distinct Z.eqb ks))
  /\ (forall k, In k (order_by Z.leb (distinct Z.eqb ks)) <-> In k ks)
  /\ List.length (order_by Z.leb (distinct Z.eqb ks))
     = List.length (distinct Z.eqb ks).
Proof.
  pose proof (order_by_perm Z.leb (distinct Z.eqb ks)) as P.
  split; [|split].
  - apply Sorted_le_NoDup_lt.
    + apply order_by_Sorted. exact Zleb_total.
    + apply (Permutation_NoDup (Permutation_sym P)). apply NoDup_distinct.
  - intro k. split; intro H.
    + apply In_distinct. apply (Permutation_in _ P H).
    + apply In_distinct in H. apply (Permutation_in _ (Permutation_sym P) H).
  - apply Permutation_length. exact P.
Qed.





(* ================================================================== *)
(** * One entity and all entities *)
(* ================================================================== *)

Lemma filter_comm {A : Type} (p q : A -> bool) (l : list A) :
  filter p (filter q l) = filter q (filter p l).
Proof.
  induction l as [|x l IH]; simpl; [reflexivity|].
  destruct (p x) eqn:P; destruct (q x) eqn:Q; simpl; rewrite ?P, ?Q, IH; reflexivity.
Qed.

Lemma filter_andb {A : Type} (p q : A -> bool) (l : list A) :
  filter (fun x => p x && q x) l = filter p (filter q l).
Proof.
  induction l as [|x l IH]; simpl; [reflexivity|].
  destruct (p x) eqn:P; destruct (q x) eqn:Q; simpl; rewrite ?P, IH; reflexivity.
Qed.

(** The filters of the line, machine and global views commute with the
    choice of the rows of one entity. *)
Lemma window_logs_of_entity (p : MachineLog -> bool) (valid_operators : list string)
    (from_date to_date : option Z) (db : list MachineLog) :
  WindowFamily.normalize
    (date_filter from_date to_date
       (filter (fun l => p l && WindowFamily.valid_operator valid_operators l) db))
  = filter p
      (WindowFamily.normalize
         (date_filter from_date to_date
            (filter (WindowFamily.valid_operator valid_operators) db))).
Proof.
  unfold WindowFamily.normalize, exclude.
  rewrite !date_filter_spec, filter_andb.
  rewrite (filter_comm p (fun r => negb (in_some_break WindowFamily.breaks r))).
  rewrite (filter_comm p WindowFamily.in_window).
  rewrite (filter_comm p (date_ok from_date to_date)).
  reflexivity.
Qed.

Lemma filter_Sorted {A : Type} (R : A -> A -> Prop) (p : A -> bool) (xs : list A) :
  StronglySorted R xs -> StronglySorted R (filter p xs).
Proof.
  induction 1 as [|x xs S IH F]; simpl; [constructor|].
  destruct (p x); [|exact IH]. constructor; [exact IH|].
  rewrite Forall_forall in *. intros y Hy. apply filter_In in Hy. apply F, Hy.
Qed.






(** A log of machine 7 with the reserve "abc" and a log of machine 8: the
    operator, line and machine reports that read the log fail on the cast,
    [all_machines_report] lists machine 8 alone, and [operator_reports_all],
    which does not cast, answers. *)
Lemma failing_cast_example :
  let db := [log_bad_reserve; log_line_two] in
  OperatorReportsByName.operator_reports_by_name sample_operators "Asha" None None db
  = Py.Raise Py.DataError
  /\ LineReports.line_reports sample_operators (Some 1%Z) None None db
     = Py.Raise Py.DataError
  /\ MachineReports.machine_reports sample_operators MachineReports.all_machines
       None None db
     = Py.Raise Py.DataError
  /\ map MachineReports.machineId
       (fst (MachineReports.all_machines_report sample_operators None None db))
     = [Py.Int 8]
  /\ snd (MachineReports.all_machines_report sample_operators None None db) = 1%Z
  /\ exists entries,
       OperatorReportsAll.operator_reports_all sample_operators None None db
       = Py.Ret entries.
Proof.
  cbv zeta. repeat split; try (vm_compute; reflexivity).
  eexists. vm_compute. reflexivity.
Qed.

(** The loop over the days does not read the last column. *)
Lemma add_day_relabel (last_column last_column' : Z -> Py.scalar)
    (t : DailyTable.totals) (d : DailyTable.day) :
  add_day last_column' (relabel_totals last_column' t) d
  = relabel_totals last_column' (add_day last_column t d).
Proof.
  unfold add_day, relabel_totals.
  cbn [DailyTable.total_sewing_hours DailyTable.total_no_feeding_hours
       DailyTable.total_meeting_hours DailyTable.total_maintenance_hours
       DailyTable.total_idle_hours DailyTable.total_OPERATION_COUNT
       DailyTable.total_SKIP_COUNT DailyTable.total_hours
       DailyTable.formatted_table_data].
  rewrite map_app. reflexivity.
Qed.

Lemma day_totals_relabel (last_column last_column' : Z -> Py.scalar)
    (logs : list MachineLog) :
  day_totals last_column' logs = relabel_totals last_column' (day_totals last_column logs).
Proof.
  unfold day_totals.
  change DailyTable.initial with (relabel_totals last_column' DailyTable.initial) at 1.
  generalize DailyTable.initial.
  induction (daily_values logs) as [|d ds IH]; intro t; [reflexivity|].
  cbn [fold_left]. rewrite (add_day_relabel last_column). apply IH.
Qed.

Lemma machine_report_relabel (logs : list MachineLog) (machine_id machine_id' : Py.scalar) :
  machine_report_value logs machine_id'
  = relabel machine_id' (machine_report_value logs machine_id).
Proof.
  unfold machine_report_value. cbv zeta.
  rewrite (day_totals_relabel (fun _ => machine_id) (fun _ => machine_id')).
  reflexivity.
Qed.

(** X8.  The report of a machine inside the response for all machines and
    the report the view returns when asked for that machine alone: for any
    text of the URL that the lookup reads as the machine's id, the view
    answers, and with the same report but for the label, which is the id
    as an integer in the response for all machines and the text of the URL
    in the other, as [machineId] and in each row of the daily table. *)
Theorem machine_report_reconciles :
  forall (operators : list Operator) (from_date to_date : option Z)
         (db : list MachineLog) (reports : list MachineReports.machine_report)
         (n m : Z) (text : string) (r : MachineReports.machine_report),
    MachineReports.machine_reports operators MachineReports.all_machines
      from_date to_date db
    = Py.Ret (MachineReports.AllMachines reports n) ->
    In r reports ->
    MachineReports.machineId r = Py.Int m ->
    MachineReports.machine_reports operators (MachineReports.one_machine text m)
      from_date to_date db
    = Py.Ret (MachineReports.OneMachine (relabel (Py.Str text) r))
    /\ MachineReports.machineId (relabel (Py.Str text) r) <> MachineReports.machineId r.
Proof.
  intros operators from_date to_date db reports n m text r H Hr Hm.
  unfold MachineReports.machine_reports in H. cbn [MachineReports.lookup_value] in H.
  rewrite all_machine_reports_ret in H. unfold evaluated in H.
  destruct (forallb castable _) eqn:C; [|discriminate]. cbn [Py.bind] in H.
  injection H as H _. subst reports.
  apply in_map_iff in Hr. destruct Hr as [m' [<- _]].
  cbn [machine_report_value MachineReports.machineId] in Hm. injection Hm as ->.
  split.
  - unfold MachineReports.machine_reports. cbn [MachineReports.lookup_value].
    rewrite process_machine_data_ret.
    unfold MachineReports.report_logs, MachineReports.selected in *.
    rewrite window_logs_of_entity.
    rewrite (evaluated_ret _ _ (forallb_castable_filter _ _ C)). cbn [Py.bind].
    rewrite <- (machine_report_relabel _ (Py.Int m)). reflexivity.
  - cbn [relabel machine_report_value MachineReports.machineId]. discriminate.
Qed.

Lemma machine_report_reconciles_witness :
  exists r,
    MachineReports.machine_reports sample_operators (MachineReports.one_machine "7" 7)
      None None [log_morning; log_line_two]
    = Py.Ret (MachineReports.OneMachine r)
    /\ MachineReports.machineId r = Py.Str "7".
Proof.
  set (db := [log_morning; log_line_two]).
  set (rs := fst (MachineReports.all_machines_report sample_operators None None db)).
  assert (H : MachineReports.machine_reports sample_operators MachineReports.all_machines
                None None db
              = Py.Ret (MachineReports.AllMachines rs 2%Z))
    by (vm_compute; reflexivity).
  exists (relabel (Py.Str "7") (hd (machine_report_value [] (Py.Int 0)) rs)).
  split; [|reflexivity].
  apply (machine_report_reconciles sample_operators None None db rs 2%Z 7%Z "7"
           (hd (machine_report_value [] (Py.Int 0)) rs) H).
  - left. reflexivity.
  - reflexivity.
Defined.

(** X9.  The report of a line inside the response for all lines is the
    report the view returns when asked for that line alone. *)
Theorem line_report_reconciles :
  forall (operators : list Operator) (from_date to_date : option Z)
         (db : list MachineLog) (reports : list LineReports.line_report)
         (summary : LineReports.summary) (r : LineReports.line_report),
    LineReports.line_reports operators None from_date to_date db
    = Py.Ret (LineReports.AllLines reports summary) ->
    In r reports ->
    LineReports.line_reports operators (Some (LineReports.lineNumber r))
      from_date to_date db
    = Py.Ret (LineReports.OneLine r).
Proof.
  intros operators from_date to_date db reports summary r H Hr.
  apply line_reports_all_inv in H. destruct H as (C & -> & _).
  unfold line_report_values in Hr.
  apply in_map_iff in Hr. destruct Hr as [m [<- _]].
  cbn [line_report_value LineReports.lineNumber].
  unfold LineReports.line_reports.
  rewrite process_line_data_ret.
  unfold LineReports.report_logs, LineReports.selected in *.
  rewrite window_logs_of_entity.
  rewrite (evaluated_ret _ _ (forallb_castable_filter _ _ C)). reflexivity.
Qed.

Lemma line_report_reconciles_witness :
  exists r,
    LineReports.line_reports sample_operators (Some 1%Z) None None
      [log_morning; log_line_two]
    = Py.Ret (LineReports.OneLine r)
    /\ LineReports.lineNumber r = 1%Z.
Proof.
  set (db := [log_morning; log_line_two]).
  set (logs := LineReports.report_logs sample_operators None None None db).
  set (rs := line_report_values logs).
  assert (H : LineReports.line_reports sample_operators None None None db
              = Py.Ret (LineReports.AllLines rs
                          (summary_value (averaged (accumulated rs))))).
  { pose proof (line_reports_all_ret sample_operators None None db) as R.
    cbv zeta in R. rewrite R. rewrite all_line_reports_value.
    apply evaluated_ret. reflexivity. }
  exists (hd (line_report_value [] 0) rs). split; [|reflexivity].
  apply (line_report_reconciles sample_operators None None db rs _
           (hd (line_report_value [] 0) rs) H).
  left. reflexivity.
Defined.

(* ================================================================== *)
(** * The summary of the operator report *)
(* ================================================================== *)

Lemma by_name_hours (logs : list MachineLog) :
  OperatorReportsByName.total_production_hours logs
  + OperatorReportsByName.total_non_production_hours logs
  == Qmax (OperatorReportsByName.total_available_hours logs) (named_bucket_hours logs).
Proof.
  unfold OperatorReportsByName.total_non_production_hours,
    OperatorReportsByName.total_idle_hours, named_bucket_hours.
  destruct (mode_counters_buckets logs) as (H1 & H4 & H3 & H5).
  rewrite max_zero_Qmax, H1, H4, H3, H5.
  generalize (OperatorReportsByName.total_available_hours logs) as a.
  generalize (bucket_hours 1 logs) as p. generalize (bucket_hours 3 logs) as n.
  generalize (bucket_hours 4 logs) as m. generalize (bucket_hours 5 logs) as t.
  intros t m n p a.
  destruct (Q.max_spec (a - (p + n + m + t)) 0) as [[L E]|[L E]]; rewrite E.
  - rewrite Q.max_r by lra. ring.
  - rewrite Q.max_l by lra. ring.
Qed.

(** X10.  In the summary of the operator report the production and the
    non-production hours add up to the larger of the available hours (10 for
    each working day) and the hours of the four named buckets.  The two
    percentages of a response are the rounded shares of these hours in the
    available hours; while the buckets fit in the available hours, the
    shares add up to exactly 100, and the percentages of the response to
    100 up to one hundredth. *)
Theorem operator_summary_adds_up :
  forall (operators : list Operator) (logs : list MachineLog),
    let production := OperatorReportsByName.total_production_hours logs in
    let non_production := OperatorReportsByName.total_non_production_hours logs in
    let available := OperatorReportsByName.total_available_hours logs in
    production + non_production == Qmax available (named_bucket_hours logs)
    /\ forall r,
         OperatorReportsByName.report operators logs = Py.Ret r ->
         OperatorReportsByName.productionPercentage r
         = Py.round2 (guarded_percent production available)
         /\ OperatorReportsByName.nptPercentage r
            = Py.round2 (guarded_percent non_production available)
         /\ (0 < available -> named_bucket_hours logs <= available ->
             guarded_percent production available
             + guarded_percent non_production available == 100
             /\ within_a_hundredth
                  (OperatorReportsByName.productionPercentage r
                   + OperatorReportsByName.nptPercentage r) 100).
Proof.
  intros operators logs production non_production available.
  split; [apply by_name_hours|].
  intros r Hr. rewrite by_name_report_ret in Hr. apply evaluated_inv in Hr.
  destruct Hr as [-> _].
  split; [reflexivity|]. split; [reflexivity|].
  intros Ha Hb.
  cbn [by_name_value OperatorReportsByName.productionPercentage
       OperatorReportsByName.nptPercentage].
  fold production non_production available.
  pose proof (by_name_hours logs) as H. fold production non_production available in H.
  rewrite Q.max_l in H by exact Hb.
  assert (S : guarded_percent production available
              + guarded_percent non_production available == 100).
  { unfold guarded_percent.
    assert (G : Py.gtb available 0 = true) by (apply gtb_iff; exact Ha).
    rewrite G.
    assert (N : ~ available == 0) by (intro Z; rewrite Z in Ha; apply (Qlt_irrefl _ Ha)).
    assert (B : non_production == available - production) by (rewrite <- H; ring).
    rewrite B. field. exact N. }
  split; [exact S|].
  unfold within_a_hundredth.
  destruct (round2_error (guarded_percent production available)) as [A1 A2].
  destruct (round2_error (guarded_percent non_production available)) as [B1 B2].
  split; lra.
Qed.

Lemma operator_summary_adds_up_witness :
  exists r,
    OperatorReportsByName.report sample_operators [log_morning] = Py.Ret r
    /\ within_a_hundredth
         (OperatorReportsByName.productionPercentage r
          + OperatorReportsByName.nptPercentage r) 100.
Proof.
  assert (H : exists r, OperatorReportsByName.report sample_operators [log_morning]
                        = Py.Ret r)
    by (eexists; vm_compute; reflexivity).
  destruct H as [r Hr]. exists r. split; [exact Hr|].
  destruct (operator_summary_adds_up sample_operators [log_morning]) as [_ H].
  destruct (H r Hr) as (_ & _ & H3).
  apply H3; vm_compute; [reflexivity | discriminate].
Defined.

(* ================================================================== *)
(** * The operator of an operator report *)
(* ================================================================== *)





(** X13.  With a start date after the end date no view aggregates any log,
    and the operator report on no logs is all zeros with an empty table. *)
Theorem inverted_date_range_is_empty :
  forall (f : family) (operators : list Operator) (from_date to_date : Z)
         (db : list MachineLog),
    (to_date < from_date)%Z ->
    aggregated_logs f operators (Some from_date) (Some to_date) db = []
    /\ exists r,
         OperatorReportsByName.report operators [] = Py.Ret r
         /\ OperatorReportsByName.totalHours r == 0
         /\ OperatorReportsByName.totalProductionHours r == 0
         /\ OperatorReportsByName.totalNonProductionHours r == 0
         /\ OperatorReportsByName.productionPercentage r == 0
         /\ OperatorReportsByName.nptPercentage r == 0
         /\ OperatorReportsByName.averageSewingSpeed r == 0
         /\ OperatorReportsByName.totalStitchCount r = 0%Z
         /\ OperatorReportsByName.tableData r = [].
Proof.
  intros f operators from_date to_date db H. split.
  - assert (E : forall l, In l (aggregated_logs f operators (Some from_date)
                                  (Some to_date) db) -> False).
    { intros l Hl. rewrite aggregated_logs_selected, In_exclude in Hl.
      destruct Hl as [Hl _].
      assert (S : In l (selected_logs f operators (Some from_date) (Some to_date) db)).
      { unfold before_breaks, OperatorFamily.positive_duration in Hl.
        destruct (clamped f).
        - apply filter_In in Hl. destruct Hl as [Hl _].
          apply In_exclude in Hl. apply Hl.
        - apply filter_In in Hl. apply Hl. }
      apply In_selected_logs in S. destruct S as (_ & _ & _ & D).
      unfold date_ok in D. apply andb_true_iff in D.
      rewrite !Z.leb_le in D. lia. }
    destruct (aggregated_logs f operators (Some from_date) (Some to_date) db) as [|l ls];
      [reflexivity|].
    exfalso. apply (E l). left. reflexivity.
  - eexists. split; [rewrite by_name_report_ret; apply evaluated_nil|]. repeat split.
Qed.

Lemma inverted_date_range_is_empty_witness :
  aggregated_logs (line None) sample_operators (Some 101%Z) (Some 99%Z) [log_morning] = [].
Proof.
  apply (inverted_date_range_is_empty (line None) sample_operators 101 99 [log_morning]).
  reflexivity.
Defined.

(* ================================================================== *)
(** * log_machine_data *)
(* ================================================================== *)

Lemma time_eqb_eq (a b : time) : time_eqb a b = true <-> a = b.
Proof.
  destruct a, b. unfold time_eqb. simpl.
  rewrite !andb_true_iff, !Z.eqb_eq. split.
  - intros [[-> ->] ->]. reflexivity.
  - intro H. injection H as -> -> ->. auto.
Qed.

Lemma same_entry_refl (a : MachineLog) : LogMachineData.same_entry a a = true.
Proof.
  unfold LogMachineData.same_entry.
  rewrite !Z.eqb_refl, String.eqb_refl.
  rewrite (proj2 (time_eqb_eq _ _) eq_refl), (proj2 (time_eqb_eq _ _) eq_refl).
  reflexivity.
Qed.

Lemma same_entry_sym (a b : MachineLog) :
  LogMachineData.same_entry a b = LogMachineData.same_entry b a.
Proof.
  unfold LogMachineData.same_entry, time_eqb.
  rewrite (Z.eqb_sym (MACHINE_ID a)), (Z.eqb_sym (DATE a)),
    (String.eqb_sym (OPERATOR_ID a)),
    (Z.eqb_sym (hour (START_TIME a))), (Z.eqb_sym (minute (START_TIME a))),
    (Z.eqb_sym (second (START_TIME a))),
    (Z.eqb_sym (hour (END_TIME a))), (Z.eqb_sym (minute (END_TIME a))),
    (Z.eqb_sym (second (END_TIME a))).
  reflexivity.
Qed.

Lemma columns_adjust (v : payload) :
  columns (LogMachineData.adjust_stored_log_id v) = columns v.
Proof.
  unfold LogMachineData.adjust_stored_log_id.
  destruct (1000 <? STORED_LOG_ID v)%Z; reflexivity.
Qed.

Lemma unique_entries_app (db : list StoredLog) (row : StoredLog) :
  unique_entries db ->
  existsb (fun r => LogMachineData.same_entry (log_of r) (log_of row)) db = false ->
  unique_entries (db ++ [row]).
Proof.
  unfold unique_entries. intros U E.
  induction U as [|a db Ha U IH]; simpl.
  - constructor; constructor.
  - simpl in E. apply orb_false_iff in E. destruct E as [E1 E2].
    constructor.
    + apply Forall_app. split; [exact Ha|]. constructor; [exact E1 | constructor].
    + apply IH. exact E2.
Qed.

(** X14.  [log_machine_data] stores an entry at most once.  If no two rows
    of the table agree on machine, operator, start time, end time and date,
    the same holds after any request; and a request that was saved, when
    sent again, is answered as a duplicate, with status 201, and leaves the
    table as it is. *)
Theorem log_saved_at_most_once :
  forall (req : LogMachineData.request) (now later : Z) (db : list StoredLog),
    let db' := snd (LogMachineData.log_machine_data req now db) in
    (unique_entries db -> unique_entries db')
    /\ (fst (LogMachineData.log_machine_data req now db) = LogMachineData.LogSaved ->
        LogMachineData.log_machine_data req later db'
        = (LogMachineData.DuplicateLogEntry, db')
        /\ LogMachineData.status
             (fst (LogMachineData.log_machine_data req later db')) = 201%Z).
Proof.
  intros req now later db db'. unfold db', LogMachineData.log_machine_data.
  destruct (LogMachineData.MODE_is_integer req); cbn [negb];
    [|split; [auto | discriminate]].
  destruct (LogMachineData.validated_data req) as [v|];
    [|split; [auto | discriminate]].
  destruct (MACHINE_ID (columns v) =? 0)%Z eqn:M; [split; [auto | discriminate]|].
  cbv zeta.
  destruct (existsb _ db) eqn:E; cbn [fst snd]; [split; [auto | discriminate]|].
  split.
  - intro U. apply unique_entries_app; [exact U | exact E].
  - intros _. rewrite existsb_app. cbn [existsb log_of data].
    rewrite same_entry_refl, orb_true_r. split; reflexivity.
Qed.

Lemma log_saved_at_most_once_witness :
  unique_entries
    (snd (LogMachineData.log_machine_data
            (LogMachineData.mk_request true (Some (mk_payload log_morning 1 1500 9 0)))
            5 [])).
Proof.
  apply (proj1 (log_saved_at_most_once
                  (LogMachineData.mk_request true (Some (mk_payload log_morning 1 1500 9 0)))
                  5 6 [])).
  constructor.
Defined.

(** X15.  The table changes only when the response is "Log saved" (status
    200): it then gains one row at its end, the validated data stamped with
    the time of the request, with a STORED_LOG_ID above 1000 brought down
    by 1000.  A request whose MACHINE_ID is 0 is never saved. *)
Theorem log_machine_data_effect :
  forall (req : LogMachineData.request) (now : Z) (db : list StoredLog),
    let response := fst (LogMachineData.log_machine_data req now db) in
    let db' := snd (LogMachineData.log_machine_data req now db) in
    (response <> LogMachineData.LogSaved -> db' = db)
    /\ (response = LogMachineData.LogSaved ->
        exists v,
          LogMachineData.validated_data req = Some v
          /\ MACHINE_ID (columns v) <> 0%Z
          /\ db' = db ++ [mk_stored
                            (mk_payload (columns v) (Tx_LOG_ID v)
                               (if (1000 <? STORED_LOG_ID v)%Z
                                then STORED_LOG_ID v - 1000 else STORED_LOG_ID v)%Z
                               (DEVICE_ID v) (NEEDLE_STOPTIME v))
                            now])
    /\ (LogMachineData.status response = 200%Z <-> response = LogMachineData.LogSaved).
Proof.
  intros req now db response db'.
  unfold response, db', LogMachineData.log_machine_data.
  destruct (LogMachineData.MODE_is_integer req); cbn [negb fst snd];
    [|split; [reflexivity | split; [discriminate | split; discriminate]]].
  destruct (LogMachineData.validated_data req) as [v|]; cbn [fst snd];
    [|split; [reflexivity | split; [discriminate | split; discriminate]]].
  destruct (MACHINE_ID (columns v) =? 0)%Z eqn:M; cbn [fst snd];
    [split; [reflexivity | split; [discriminate | split; discriminate]]|].
  cbv zeta.
  destruct (existsb _ db) eqn:E; cbn [fst snd];
    [split; [reflexivity | split; [discriminate | split; discriminate]]|].
  split; [congruence|]. split; [|split; reflexivity].
  intros _. exists v. split; [reflexivity|]. split; [apply Z.eqb_neq; exact M|].
  unfold LogMachineData.adjust_stored_log_id.
  destruct v as [c tx sid dev stop]. cbn.
  destruct (1000 <? sid)%Z; reflexivity.
Qed.

Lemma log_machine_data_effect_witness :
  snd (LogMachineData.log_machine_data
         (LogMachineData.mk_request true
            (Some (mk_payload log_morning 1 1500 9 0))) 5 [])
  = [mk_stored (mk_payload log_morning 1 500 9 0) 5].
Proof.
  destruct (proj1 (proj2 (log_machine_data_effect
              (LogMachineData.mk_request true (Some (mk_payload log_morning 1 1500 9 0)))
              5 [])) eq_refl) as [v [Hv [_ H]]].
  injection Hv as <-. exact H.
Defined.

(* ================================================================== *)
(** * get_machine_logs and get_consolidated_logs *)
(* ================================================================== *)

Lemma stored_date_filter_spec (from_date to_date : option Z) (logs : list StoredLog) :
  Serializer.stored_date_filter from_date to_date logs
  = stored_in_range from_date to_date logs.
Proof.
  unfold Serializer.stored_date_filter, stored_in_range, date_ok.
  destruct from_date as [f|], to_date as [t|]; simpl.
  - induction logs as [|l logs IH]; simpl; [reflexivity|].
    destruct (f <=? DATE (log_of l))%Z; simpl; [|exact IH].
    destruct (DATE (log_of l) <=? t)%Z; simpl; rewrite IH; reflexivity.
  - apply filter_ext. intro l. now rewrite andb_true_r.
  - reflexivity.
  - induction logs as [|l logs IH]; simpl; [reflexivity|]. now rewrite <- IH.
Qed.

Lemma enumerate_fst {A : Type} (xs : list A) (i : Z) :
  map fst (enumerate i xs) = map (fun k => (i + Z.of_nat k)%Z) (seq 0 (List.length xs)).
Proof.
  revert i. induction xs as [|x xs IH]; intro i; simpl; [reflexivity|].
  rewrite IH, <- seq_shift, map_map. f_equal; [f_equal; lia|].
  apply map_ext. intro k. lia.
Qed.

Lemma enumerate_snd {A : Type} (xs : list A) (i : Z) :
  map snd (enumerate i xs) = xs.
Proof.
  revert i. induction xs as [|x xs IH]; intro i; simpl; [reflexivity|].
  rewrite IH. reflexivity.
Qed.

Lemma serialized_indexes (operators : list Operator) (messages : list ModeMessage)
    (logs : list StoredLog) :
  map Serializer.index (map (Serializer.serialize operators messages) (enumerate 1 logs))
  = map (fun k => (1 + Z.of_nat k)%Z) (seq 0 (List.length logs))
  /\ map Serializer.fields
       (map (Serializer.serialize operators messages) (enumerate 1 logs))
     = logs.
Proof.
  rewrite !map_map. split.
  - rewrite <- enumerate_fst. apply map_ext. intro item. reflexivity.
  - rewrite <- (enumerate_snd logs 1) at 2. apply map_ext. intro item. reflexivity.
Qed.

Lemma filter_Permutation {A : Type} (p : A -> bool) (xs ys : list A) :
  Permutation xs ys -> Permutation (filter p xs) (filter p ys).
Proof.
  induction 1 as [|x xs ys _ IH|x y xs|xs ys zs _ IH1 _ IH2]; simpl.
  - constructor.
  - destruct (p x); [apply perm_skip|]; exact IH.
  - destruct (p x), (p y); try apply Permutation_refl.
    apply perm_swap.
  - apply perm_trans with (filter p ys); assumption.
Qed.

(** Descending order of an integer column after [order_by]. *)
Lemma order_by_descending {A : Type} (key : A -> Z) (xs : list A) :
  StronglySorted (fun a b => (key b <= key a)%Z)
    (order_by (fun a b => (key b <=? key a)%Z) xs).
Proof.
  apply Sorted_StronglySorted.
  - intros a b c H1 H2. lia.
  - assert (S := order_by_Sorted (fun a b => (key b <=? key a)%Z)
                   (fun a b => Zleb_total (key b) (key a)) xs).
    induction S as [|a l S IH Hh]; constructor; [exact IH|].
    destruct Hh as [|b l Hb]; constructor. apply Z.leb_le. exact Hb.
Qed.

(** X16.  [get_machine_logs] answers the logs of the date range, each
    once, by descending [created_at], and numbers them 1, 2, 3, ... in that
    order. *)
Theorem get_machine_logs_indexed :
  forall (operators : list Operator) (messages : list ModeMessage)
         (from_date to_date : option Z) (db : list StoredLog),
    let response := Serializer.get_machine_logs operators messages from_date to_date db in
    map Serializer.index response
    = map (fun k => (1 + Z.of_nat k)%Z) (seq 0 (List.length response))
    /\ Permutation (map Serializer.fields response)
                   (stored_in_range from_date to_date db)
    /\ StronglySorted (fun a b => (created_at b <= created_at a)%Z)
                      (map Serializer.fields response).
Proof.
  intros operators messages from_date to_date db response.
  unfold response, Serializer.get_machine_logs.
  destruct (serialized_indexes operators messages
              (Serializer.stored_date_filter from_date to_date
                 (order_by (fun a b => (created_at b <=? created_at a)%Z) db)))
    as [I F].
  rewrite F. split; [|split].
  - rewrite I. rewrite !length_map.
    rewrite <- (length_map snd), enumerate_snd. reflexivity.
  - rewrite stored_date_filter_spec. unfold stored_in_range.
    apply filter_Permutation. apply order_by_perm.
  - rewrite stored_date_filter_spec. apply filter_Sorted.
    apply order_by_descending.
Qed.

Lemma In_firstn {A : Type} (n : nat) (xs : list A) (a : A) :
  In a (firstn n xs) -> In a xs.
Proof.
  revert xs. induction n as [|n IH]; intros [|x xs] H; simpl in *; try tauto.
  destruct H as [H|H]; [left; exact H | right; apply IH; exact H].
Qed.

Lemma In_skipn {A : Type} (n : nat) (xs : list A) (a : A) :
  In a (skipn n xs) -> In a xs.
Proof.
  revert xs. induction n as [|n IH]; intros [|x xs] H; simpl in *; try tauto.
  right. apply IH. exact H.
Qed.

Lemma firstn_Sorted {A : Type} (R : A -> A -> Prop) (n : nat) (xs : list A) :
  StronglySorted R xs ->
  StronglySorted R (firstn n xs)
  /\ forall a b, In a (firstn n xs) -> In b (skipn n xs) -> R a b.
Proof.
  intro S. revert n. induction S as [|x xs S IH F]; intro n.
  - rewrite firstn_nil, skipn_nil. split; [constructor | intros a b []].
  - destruct n as [|n]; simpl.
    + split; [constructor | intros a b []].
    + destruct (IH n) as [IH1 IH2]. split.
      * constructor; [exact IH1|].
        rewrite Forall_forall in *. intros y Hy. apply F.
        apply (In_firstn _ _ _ Hy).
      * intros a b [<-|Ha] Hb.
        -- rewrite Forall_forall in F. apply F. apply (In_skipn _ _ _ Hb).
        -- apply IH2; assumption.
Qed.

(** X17.  [get_consolidated_logs] answers at most 10000 logs of the date
    range, by descending date and numbered from 1; they are the most recent
    ones: a log of the range that is left out is not dated after any log
    that is listed. *)
Theorem get_consolidated_logs_latest :
  forall (operators : list Operator) (messages : list ModeMessage)
         (from_date to_date : option Z) (db : list StoredLog),
    let response :=
      Serializer.get_consolidated_logs operators messages from_date to_date db in
    List.length response
    = Nat.min (Z.to_nat 10000) (List.length (stored_in_range from_date to_date db))
    /\ map Serializer.index response
       = map (fun k => (1 + Z.of_nat k)%Z) (seq 0 (List.length response))
    /\ StronglySorted (fun a b => (DATE (log_of b) <= DATE (log_of a))%Z)
                      (map Serializer.fields response)
    /\ exists left_out,
         Permutation (map Serializer.fields response ++ left_out)
                     (stored_in_range from_date to_date db)
         /\ forall a b, In a (map Serializer.fields response) -> In b left_out ->
                        (DATE (log_of b) <= DATE (log_of a))%Z.
Proof.
  intros operators messages from_date to_date db response.
  unfold response, Serializer.get_consolidated_logs.
  rewrite stored_date_filter_spec.
  set (range := stored_in_range from_date to_date db).
  set (sorted := order_by (fun a b => (DATE (log_of b) <=? DATE (log_of a))%Z) range).
  destruct (serialized_indexes operators messages (firstn (Z.to_nat 10000) sorted)) as [I F].
  assert (L : List.length (map (Serializer.serialize operators messages)
                             (enumerate 1 (firstn (Z.to_nat 10000) sorted)))
              = List.length (firstn (Z.to_nat 10000) sorted)).
  { rewrite length_map, <- (length_map snd), enumerate_snd. reflexivity. }
  assert (P : Permutation sorted range) by apply order_by_perm.
  destruct (firstn_Sorted _ (Z.to_nat 10000) sorted
              (order_by_descending (fun r => DATE (log_of r)) range)) as [S1 S2].
  rewrite F. split; [|split; [|split]].
  - rewrite L, length_firstn, (Permutation_length P). reflexivity.
  - rewrite I, L. reflexivity.
  - exact S1.
  - exists (skipn (Z.to_nat 10000) sorted). split.
    + rewrite firstn_skipn. exact P.
    + exact S2.
Qed.

(** X18.  The two fields the serializer adds to a log: the operator name
    is that of the operator with the log's card number and is missing when
    the directory has none, and the mode description is "N/A" exactly when
    no mode message is stored for the log's mode. *)
Theorem serializer_lookups :
  forall (operators : list Operator) (messages : list ModeMessage) (obj : StoredLog),
    (Serializer.get_operator_name operators obj = None
     <-> forall o, In o operators -> rfid_card_no o <> OPERATOR_ID (log_of obj))
    /\ (forall name, Serializer.get_operator_name operators obj = Some name ->
          exists o, In o operators /\ rfid_card_no o = OPERATOR_ID (log_of obj)
                    /\ operator_name o = name)
    /\ ((forall m, In m messages -> mode m <> MODE (log_of obj)) ->
        Serializer.get_mode_description messages obj = "N/A"%string)
    /\ (forall m, In m messages -> mode m = MODE (log_of obj) ->
          exists m', In m' messages /\ mode m' = MODE (log_of obj)
                     /\ Serializer.get_mode_description messages obj = message m').
Proof.
  intros operators messages obj.
  unfold Serializer.get_operator_name, Serializer.get_mode_description.
  split; [|split; [|split]].
  - destruct (filter _ operators) as [|o os] eqn:E.
    + split; [|reflexivity]. intros _ o Ho Hr.
      assert (I : In o (filter (fun o => String.eqb (rfid_card_no o)
                                           (OPERATOR_ID (log_of obj))) operators)).
      { apply filter_In. split; [exact Ho | apply String.eqb_eq; exact Hr]. }
      rewrite E in I. exact I.
    + split; [discriminate|]. intro H. exfalso.
      assert (I : In o (filter (fun o => String.eqb (rfid_card_no o)
                                           (OPERATOR_ID (log_of obj))) operators))
        by (rewrite E; left; reflexivity).
      apply filter_In in I. destruct I as [I1 I2]. apply String.eqb_eq in I2.
      exact (H o I1 I2).
  - intros name H. destruct (filter _ operators) as [|o os] eqn:E; [discriminate|].
    injection H as <-. exists o.
    assert (I : In o (filter (fun o => String.eqb (rfid_card_no o)
                                         (OPERATOR_ID (log_of obj))) operators))
      by (rewrite E; left; reflexivity).
    apply filter_In in I. destruct I as [I1 I2]. apply String.eqb_eq in I2. auto.
  - intro H. rewrite filter_none; [reflexivity|].
    intros m Hm. apply Z.eqb_neq. apply H. exact Hm.
  - intros m Hm Hmode.
    destruct (filter (fun m => (mode m =? MODE (log_of obj))%Z) messages)
      as [|m' ms] eqn:E.
    + exfalso.
      assert (I : In m (filter (fun m => (mode m =? MODE (log_of obj))%Z) messages)).
      { apply filter_In. split; [exact Hm | apply Z.eqb_eq; exact Hmode]. }
      rewrite E in I. exact I.
    + exists m'.
      assert (I : In m' (filter (fun m => (mode m =? MODE (log_of obj))%Z) messages))
        by (rewrite E; left; reflexivity).
      apply filter_In in I. destruct I as [I1 I2]. apply Z.eqb_eq in I2. auto.
Qed.

(* ================================================================== *)
(** * filter_logs and filter_logs_by_machine_id *)
(* ================================================================== *)

Lemma find_app_split {A : Type} (p : A -> bool) (xs ys : list A) :
  find p (xs ++ ys)
  = match find p xs with Some x => Some x | None => find p ys end.
Proof.
  induction xs as [|x xs IH]; simpl; [reflexivity|].
  destruct (p x); [reflexivity | exact IH].
Qed.

Lemma find_rev_filter {A : Type} (p q : A -> bool) (xs : list A) :
  (forall x, p x = true -> q x = true) ->
  find p (rev (filter q xs)) = find p (rev xs).
Proof.
  intro H. induction xs as [|x xs IH]; simpl; [reflexivity|].
  destruct (q x) eqn:Q; simpl.
  - rewrite !find_app_split, IH. reflexivity.
  - rewrite find_app_split, IH.
    destruct (find p (rev xs)); [reflexivity|]. simpl.
    destruct (p x) eqn:P; [|reflexivity].
    rewrite (H x P) in Q. discriminate.
Qed.

Lemma find_map_pair (operators : list Operator) (key : string) :
  match find (fun item : string * string => String.eqb (fst item) key)
             (map (fun op => (rfid_card_no op, operator_name op)) operators) with
  | Some item => snd item
  | None => ""%string
  end
  = match find (fun o => String.eqb (rfid_card_no o) key) operators with
    | Some o => operator_name o
    | None => ""%string
    end.
Proof.
  induction operators as [|o os IH]; simpl; [reflexivity|].
  destruct (String.eqb (rfid_card_no o) key); [reflexivity | exact IH].
Qed.

(** The prefetched operator map gives the name the whole directory gives,
    for the operator of every log that is answered. *)
Lemma operator_map_transparent (operators : list Operator) (logs : list StoredLog)
    (log : StoredLog) :
  In log logs ->
  String.eqb (OPERATOR_ID (log_of log)) "0" = false ->
  FilterLogs.operator_map_get
    (map (fun op => (rfid_card_no op, operator_name op))
       (filter (fun op =>
                  existsb (String.eqb (rfid_card_no op))
                    (map (fun log => OPERATOR_ID (log_of log))
                       (filter (fun log =>
                                  negb (String.eqb (OPERATOR_ID (log_of log)) "0"))
                               logs)))
               operators))
    (OPERATOR_ID (log_of log))
  = directory_name operators (OPERATOR_ID (log_of log)).
Proof.
  intros Hin Hz. unfold FilterLogs.operator_map_get, directory_name.
  rewrite <- map_rev, find_map_pair. rewrite find_rev_filter; [reflexivity|].
  intros o Ho. apply String.eqb_eq in Ho.
  apply existsb_exists. exists (OPERATOR_ID (log_of log)). split.
  - apply in_map_iff. exists log. split; [reflexivity|].
    apply filter_In. split; [exact Hin | rewrite Hz; reflexivity].
  - rewrite Ho. apply String.eqb_refl.
Qed.

(** X19.  [filter_logs] and [filter_logs_by_machine_id] answer one
    dictionary for each log of the date range (of the one line or machine
    when a number is given, of all of them for 'all' or no parameter), in
    the order of the table.  Its operator name is the one the directory
    gives for the log's card number, empty when there is none, and always
    empty for card number "0". *)
Theorem filter_logs_rows :
  forall (operators : list Operator) (parameter : FilterLogs.entity_parameter)
         (from_date to_date : option Z) (db : list StoredLog),
    let of_line :=
      match parameter with
      | FilterLogs.Number n => filter (fun r => (LINE_NUMBER (log_of r) =? n)%Z) db
      | _ => db
      end in
    let of_machine :=
      match parameter with
      | FilterLogs.Number n => filter (fun r => (MACHINE_ID (log_of r) =? n)%Z) db
      | _ => db
      end in
    let shown (log : StoredLog) :=
      FilterLogs.mk_log_data log
        (FilterLogs.MODES_get (MODE (log_of log)) "Unknown mode")
        (if String.eqb (OPERATOR_ID (log_of log)) "0" then ""%string
         else directory_name operators (OPERATOR_ID (log_of log))) in
    FilterLogs.filter_logs operators parameter from_date to_date db
    = map shown (stored_in_range from_date to_date of_line)
    /\ FilterLogs.filter_logs_by_machine_id operators parameter from_date to_date db
       = map shown (stored_in_range from_date to_date of_machine).
Proof.
  intros operators parameter from_date to_date db of_line of_machine shown.
  assert (R : forall logs, FilterLogs.respond operators logs = map shown logs).
  { intro logs. unfold FilterLogs.respond. apply map_ext_in. intros log Hin.
    unfold shown. f_equal.
    destruct (String.eqb (OPERATOR_ID (log_of log)) "0") eqn:Z; [reflexivity|].
    cbn [negb]. apply operator_map_transparent; assumption. }
  unfold FilterLogs.filter_logs, FilterLogs.filter_logs_by_machine_id.
  rewrite !R, !stored_date_filter_spec. split; reflexivity.
Qed.

(** The mode description of [filter_logs] is one of the five mode names
    for the modes 1 to 5 and 'Unknown mode' for every other mode. *)
Lemma mode_description_known :
  forall m : Z,
    ((1 <= m <= 5)%Z ->
     In (m, FilterLogs.MODES_get m "Unknown mode") FilterLogs.MODES)
    /\ (~ (1 <= m <= 5)%Z ->
        FilterLogs.MODES_get m "Unknown mode" = "Unknown mode"%string).
Proof.
  intro m. split; intro H.
  - assert (C : (m = 1 \/ m = 2 \/ m = 3 \/ m = 4 \/ m = 5)%Z) by lia.
    destruct C as [->|[->|[->|[->| ->]]]]; cbn; tauto.
  - unfold FilterLogs.MODES_get, FilterLogs.MODES. cbn [find fst snd].
    destruct (Z.eqb_spec 1 m); [lia|]. destruct (Z.eqb_spec 2 m); [lia|].
    destruct (Z.eqb_spec 3 m); [lia|]. destruct (Z.eqb_spec 4 m); [lia|].
    destruct (Z.eqb_spec 5 m); [lia|]. reflexivity.
Qed.

Lemma mode_description_known_witness :
  FilterLogs.MODES_get 7 "Unknown mode" = "Unknown mode"%string.
Proof. apply (proj2 (mode_description_known 7)). lia. Defined.

(* ================================================================== *)
(** * get_LINE_NUMBERers, get_machine_ids and get_operator_ids *)
(* ================================================================== *)

Lemma In_in_dates (f t : Z) (db : list MachineLog) (l : MachineLog) :
  In l (IdLists.in_dates f t db) <-> In l db /\ (f <= DATE l <= t)%Z.
Proof.
  unfold IdLists.in_dates. rewrite filter_In, andb_true_iff, !Z.leb_le. tauto.
Qed.

(** The sorted distinct values of an integer column over the logs of a
    date range. *)
Lemma sorted_ids (col : MachineLog -> Z) (f t : Z) (db : list MachineLog) :
  let ids := order_by Z.leb (distinct Z.eqb (map col (IdLists.in_dates f t db))) in
  StronglySorted Z.lt ids
  /\ forall n, In n ids <-> exists l, In l db /\ (f <= DATE l <= t)%Z /\ col l = n.
Proof.
  cbv zeta.
  destruct (ordered_distinct (map col (IdLists.in_dates f t db))) as (Hs & Hi & _).
  split; [exact Hs|]. intro n. rewrite Hi, in_map_iff.
  split; intros [l H]; exists l; rewrite In_in_dates in *; tauto.
Qed.

(** X20.  [get_LINE_NUMBERers], [get_machine_ids] and [get_operator_ids]
    refuse a request without both dates.  With both, they answer the line
    numbers, machine ids or operator ids of the logs dated in the range,
    each once and in ascending order; the operator ids leave out "0". *)
Theorem id_lists_sorted :
  forall (from_date to_date : option Z) (db : list MachineLog),
    ((from_date = None \/ to_date = None) ->
     IdLists.get_LINE_NUMBERers from_date to_date db = IdLists.BothDatesRequired
     /\ IdLists.get_machine_ids from_date to_date db = IdLists.BothDatesRequired
     /\ IdLists.get_operator_ids from_date to_date db = IdLists.BothDatesRequired)
    /\ (forall f t, from_date = Some f -> to_date = Some t ->
        (exists ids,
           IdLists.get_LINE_NUMBERers from_date to_date db = IdLists.Ids ids
           /\ StronglySorted Z.lt ids
           /\ forall n, In n ids <->
                exists l, In l db /\ (f <= DATE l <= t)%Z /\ LINE_NUMBER l = n)
        /\ (exists ids,
              IdLists.get_machine_ids from_date to_date db = IdLists.Ids ids
              /\ StronglySorted Z.lt ids
              /\ forall n, In n ids <->
                   exists l, In l db /\ (f <= DATE l <= t)%Z /\ MACHINE_ID l = n)
        /\ (exists ids,
              IdLists.get_operator_ids from_date to_date db = IdLists.Ids ids
              /\ Sorted (fun a b => String.leb a b = true) ids
              /\ NoDup ids
              /\ forall s, In s ids <->
                   s <> "0"%string
                   /\ exists l, In l db /\ (f <= DATE l <= t)%Z /\ OPERATOR_ID l = s)).
Proof.
  intros from_date to_date db. split.
  - intros [-> | ->]; [|destruct from_date]; repeat split.
  - intros f t -> ->. split; [|split].
    + eexists. split; [reflexivity|]. apply sorted_ids.
    + eexists. split; [reflexivity|]. apply sorted_ids.
    + eexists. split; [reflexivity|].
      set (ks := map OPERATOR_ID
                   (exclude (fun l => String.eqb (OPERATOR_ID l) "0")
                            (IdLists.in_dates f t db))).
      pose proof (order_by_perm String.leb (distinct String.eqb ks)) as P.
      split; [|split].
      * apply order_by_Sorted. exact String.leb_total.
      * apply (Permutation_NoDup (Permutation_sym P)).
        apply NoDup_distinct_by. exact String.eqb_eq.
      * intro s.
        assert (I : In s (order_by String.leb (distinct String.eqb ks)) <-> In s ks).
        { rewrite <- (In_distinct_by String.eqb String.eqb_eq ks s).
          split; intro H;
            [apply (Permutation_in _ P H) | apply (Permutation_in _ (Permutation_sym P) H)]. }
        rewrite I. unfold ks. rewrite in_map_iff. split.
        -- intros [l [E Hl]]. apply In_exclude in Hl. destruct Hl as [Hl Hz].
           apply In_in_dates in Hl. apply String.eqb_neq in Hz. subst s.
           split; [exact Hz|]. exists l. tauto.
        -- intros [Hz [l (H1 & H2 & H3)]]. exists l. split; [exact H3|].
           apply In_exclude. split; [apply In_in_dates; tauto|].
           apply String.eqb_neq. rewrite H3. exact Hz.
Qed.

Lemma id_lists_sorted_witness :
  IdLists.get_LINE_NUMBERers (Some 100%Z) None [log_morning]
  = IdLists.BothDatesRequired.
Proof.
  apply (proj1 (id_lists_sorted (Some 100%Z) None [log_morning])).
  right. reflexivity.
Defined.

(* ================================================================== *)
(** * Counts and the efficiency of the lines *)
(* ================================================================== *)

Lemma length_filter_out (k : Z) (ms : list Z) :
  NoDup ms ->
  (List.length (filter (fun k' => negb (k' =? k)%Z) ms)
   + (if existsb (Z.eqb k) ms then 1 else 0))%nat
  = List.length ms.
Proof.
  induction 1 as [|m ms Hm Hnd IH]; [reflexivity|].
  cbn [filter existsb]. rewrite (Z.eqb_sym m k).
  destruct (Z.eqb_spec k m) as [->|N]; cbn [negb orb].
  - assert (E : existsb (Z.eqb m) ms = false).
    { destruct (existsb (Z.eqb m) ms) eqn:E; [|reflexivity].
      apply existsb_eqb_In in E. contradiction. }
    rewrite E in IH. simpl. lia.
  - simpl. lia.
Qed.

Lemma distinct_count_cons (k : Z) (ks : list Z) :
  List.length (distinct Z.eqb (k :: ks))
  = (List.length (distinct Z.eqb ks)
     + (if existsb (Z.eqb k) ks then 0 else 1))%nat.
Proof.
  cbn [distinct List.length].
  pose proof (length_filter_out k (distinct Z.eqb ks) (NoDup_distinct ks)) as H.
  assert (E : existsb (Z.eqb k) (distinct Z.eqb ks) = existsb (Z.eqb k) ks).
  { apply eq_true_iff_eq. rewrite !existsb_eqb_In. apply In_distinct. }
  rewrite E in H. destruct (existsb (Z.eqb k) ks); lia.
Qed.

Lemma distinct_count_Permutation (ks ks' : list Z) :
  Permutation ks ks' ->
  List.length (distinct Z.eqb ks) = List.length (distinct Z.eqb ks').
Proof.
  intro P. apply Permutation_length. apply NoDup_Permutation.
  - apply NoDup_distinct.
  - apply NoDup_distinct.
  - intro k. rewrite !In_distinct. split; intro H.
    + apply (Permutation_in _ P H).
    + apply (Permutation_in _ (Permutation_sym P) H).
Qed.

(** X21.  [get_machine_id_count] counts the machines that have a log: it
    does not depend on the order of the table, a further log raises it by
    one when its machine had no log and leaves it as it is otherwise, and
    it is 0 only on the empty table.  [get_LINE_NUMBERer_count] does the
    same for the lines. *)
Theorem distinct_counts :
  forall (db db' : list MachineLog) (l : MachineLog),
    (Permutation db db' ->
     Counts.get_machine_id_count db = Counts.get_machine_id_count db'
     /\ Counts.get_LINE_NUMBERer_count db = Counts.get_LINE_NUMBERer_count db')
    /\ Counts.get_machine_id_count (l :: db)
       = (Counts.get_machine_id_count db
          + (if existsb (fun l' => (MACHINE_ID l =? MACHINE_ID l')%Z) db then 0 else 1))%Z
    /\ Counts.get_LINE_NUMBERer_count (l :: db)
       = (Counts.get_LINE_NUMBERer_count db
          + (if existsb (fun l' => (LINE_NUMBER l =? LINE_NUMBER l')%Z) db then 0 else 1))%Z
    /\ (Counts.get_machine_id_count db = 0%Z <-> db = [])
    /\ (Counts.get_LINE_NUMBERer_count db = 0%Z <-> db = []).
Proof.
  intros db db' l.
  assert (C : forall (col : MachineLog -> Z) (rows : list MachineLog) (x : MachineLog),
             Z.of_nat (List.length (distinct Z.eqb (map col (x :: rows))))
             = (Z.of_nat (List.length (distinct Z.eqb (map col rows)))
                + (if existsb (fun l' => (col x =? col l')%Z) rows then 0 else 1))%Z).
  { intros col rows x. cbn [map]. rewrite distinct_count_cons.
    assert (E : existsb (Z.eqb (col x)) (map col rows)
                = existsb (fun l' => (col x =? col l')%Z) rows).
    { induction rows as [|r rows IH]; simpl; [reflexivity|]. rewrite IH. reflexivity. }
    rewrite E. destruct (existsb _ rows); lia. }
  assert (Z0 : forall (col : MachineLog -> Z) (rows : list MachineLog),
             Z.of_nat (List.length (distinct Z.eqb (map col rows))) = 0%Z <-> rows = []).
  { intros col rows. destruct rows as [|r rows]; split; try reflexivity;
      discriminate. }
  unfold Counts.get_machine_id_count, Counts.get_LINE_NUMBERer_count.
  split; [|split; [|split; [|split]]].
  - intro P. split; f_equal; apply distinct_count_Permutation, Permutation_map, P.
  - apply C.
  - apply C.
  - apply Z0.
  - apply Z0.
Qed.

Lemma distinct_counts_witness :
  Counts.get_machine_id_count [log_morning; log_line_two]
  = Counts.get_machine_id_count [log_line_two; log_morning].
Proof.
  apply (proj1 (distinct_counts [log_morning; log_line_two]
                  [log_line_two; log_morning] log_morning)).
  apply perm_swap.
Defined.

Lemma SumG_nonneg {A : Type} (col : A -> Q) (rows : list A) :
  (forall r, In r rows -> 0 <= col r) -> 0 <= SumG col rows.
Proof.
  unfold SumG. induction rows as [|r rows IH]; intro H.
  - apply Qle_refl.
  - cbn [map]. rewrite sum_cons.
    assert (0 <= col r) by (apply H; left; reflexivity).
    assert (0 <= Py.sum (map col rows)) by (apply IH; intros; apply H; right; assumption).
    lra.
Qed.

Lemma percent_share_bounds (a b : Q) :
  0 <= a -> 0 <= b ->
  0 <= Py.round2 (guarded_percent a (a + b)) <= 100.
Proof.
  intros Ha Hb. unfold guarded_percent.
  destruct (Py.gtb (a + b) 0) eqn:E.
  - unfold Py.gtb in E. apply ltb_iff in E. split.
    + apply round2_nonneg. apply Qmult_le_0_compat; [|discriminate].
      apply Qle_shift_div_l; [exact E | lra].
    + change 100 with (inject_Z 100). apply round2_le. change (inject_Z 100) with 100.
      assert (a / (a + b) <= 1) by (apply Qle_shift_div_r; [exact E | lra]).
      lra.
  - split; discriminate.
Qed.

(** X22.  [calculate_line_efficiency] answers one entry for each line of
    the table, raises no division error, and every line counts at least one
    machine.  When no skip count and no needle stop time of the line's logs
    is negative, the efficiency of the line lies between 0 and 100. *)
Theorem line_efficiency_bounds :
  forall db : list StoredLog,
    exists entries,
      LineEfficiency.calculate_line_efficiency db = Py.Ret entries
      /\ map LineEfficiency.Line entries
         = distinct Z.eqb (map (fun r => LINE_NUMBER (log_of r)) db)
      /\ (forall e, In e entries ->
            (1 <= LineEfficiency.Total_Machines e)%Z
            /\ ((forall r, In r db ->
                   LINE_NUMBER (log_of r) = LineEfficiency.Line e ->
                   0 <= SKIP_COUNT (log_of r) /\ 0 <= NEEDLE_STOPTIME (data r)) ->
                0 <= LineEfficiency.Efficiency e <= 100)).
Proof.
  intro db.
  exists (map (fun s =>
                 LineEfficiency.mk_entry (LineEfficiency.stat_LINE_NUMBER s)
                   (LineEfficiency.total_machines s)
                   (Py.round2 (guarded_percent (LineEfficiency.total_runtime s)
                                 (LineEfficiency.total_runtime s
                                  + LineEfficiency.total_stoptime s))))
              (LineEfficiency.line_stats db)).
  split; [|split].
  - unfold LineEfficiency.calculate_line_efficiency. apply for_each_ret.
    intro s. unfold LineEfficiency.stat_entry.
    change (if Py.gtb (LineEfficiency.total_runtime s + LineEfficiency.total_stoptime s) 0
            then q <- Py.div (LineEfficiency.total_runtime s)
                        (LineEfficiency.total_runtime s + LineEfficiency.total_stoptime s) ;;
                 Py.Ret (q * 100)
            else Py.Ret 0)
      with (percent_if_positive (LineEfficiency.total_runtime s)
              (LineEfficiency.total_runtime s + LineEfficiency.total_stoptime s)).
    rewrite percent_if_positive_ret. reflexivity.
  - unfold LineEfficiency.line_stats. rewrite !map_map. cbn. apply map_id.
  - intros e He. apply in_map_iff in He.
    destruct He as [s [<- Hs]].
    cbn [LineEfficiency.Efficiency LineEfficiency.Total_Machines LineEfficiency.Line].
    unfold LineEfficiency.line_stats in Hs. apply in_map_iff in Hs.
    destruct Hs as [n [<- Hn]].
    cbn [LineEfficiency.total_runtime LineEfficiency.total_stoptime
         LineEfficiency.total_machines LineEfficiency.stat_LINE_NUMBER].
    split.
    + apply (proj1 (In_distinct _ _)) in Hn. apply in_map_iff in Hn.
      destruct Hn as [r [Hr Hin]].
      assert (I : In r (filter (fun r => (LINE_NUMBER (log_of r) =? n)%Z) db)).
      { apply filter_In. split; [exact Hin | apply Z.eqb_eq; exact Hr]. }
      destruct (filter (fun r => (LINE_NUMBER (log_of r) =? n)%Z) db) as [|x xs];
        [destruct I|].
      cbn [map distinct List.length]. lia.
    + intro Hpos.
      apply percent_share_bounds; apply SumG_nonneg; intros r Hr;
        apply filter_In in Hr; destruct Hr as [Hr1 Hr2]; apply Z.eqb_eq in Hr2;
        apply (Hpos r Hr1 Hr2).
Qed.

Lemma line_efficiency_bounds_witness :
  exists e,
    LineEfficiency.calculate_line_efficiency
      [mk_stored (mk_payload log_morning 1 1 9 120) 5] = Py.Ret [e]
    /\ 0 <= LineEfficiency.Efficiency e <= 100.
Proof.
  destruct (line_efficiency_bounds [mk_stored (mk_payload log_morning 1 1 9 120) 5])
    as [entries (H1 & H2 & H3)].
  destruct entries as [|e [|e' entries]]; try discriminate H2.
  exists e. split; [exact H1|].
  apply (H3 e); [left; reflexivity|].
  intros r [<-|[]] _. split; vm_compute; discriminate.
Defined.

(* ================================================================== *)
(** * all_operators_report *)
(* ================================================================== *)

Lemma Sum_nonneg {A : Type} (col : A -> Q) (rows : list A) :
  (forall r, In r rows -> 0 <= col r) -> 0 <= Py.or0 (Sum col rows).
Proof.
  intro H. unfold Sum. destruct rows as [|r rows]; [discriminate|].
  rewrite or0_some. apply (SumG_nonneg col (r :: rows) H).
Qed.

Lemma Sum_filter_le {A : Type} (col : A -> Q) (p : A -> bool) (rows : list A) :
  (forall r, In r rows -> 0 <= col r) ->
  Py.or0 (Sum col (filter p rows)) <= Py.or0 (Sum col rows).
Proof.
  intro H.
  assert (E : forall xs : list A, Py.or0 (Sum col xs) == Py.sum (map col xs)).
  { intros [|x xs]; [reflexivity|]. apply or0_some. }
  rewrite !E. induction rows as [|r rows IH]; [apply Qle_refl|].
  assert (0 <= col r) by (apply H; left; reflexivity).
  assert (I : Py.sum (map col (filter p rows)) <= Py.sum (map col rows))
    by (apply IH; intros; apply H; right; assumption).
  cbn [filter]. destruct (p r); cbn [map]; rewrite ?sum_cons; lra.
Qed.

(** X23.  [all_operators_report] refuses a request without both dates.
    With both, and in whatever order the database returns the operator ids,
    it answers one entry for each operator id, other than "0", that has a
    log in the range, each once, and raises no division error.  When no
    skip count is negative, the productive percentage of every entry lies
    between 0 and 100. *)
Theorem all_operators_report_entries :
  forall (returned : list string -> list string)
         (operators : list Operator) (from_date to_date : option Z)
         (db : list MachineLog),
    (forall ids, Permutation (returned ids) ids) ->
    ((from_date = None \/ to_date = None) ->
     AllOperatorsReport.all_operators_report returned operators from_date to_date db
     = Py.Ret AllOperatorsReport.BothDatesRequired)
    /\ (forall f t, from_date = Some f -> to_date = Some t ->
        exists entries,
          AllOperatorsReport.all_operators_report returned operators from_date to_date db
          = Py.Ret (AllOperatorsReport.Report entries)
          /\ NoDup (map AllOperatorsReport.operator_id entries)
          /\ (forall s, In s (map AllOperatorsReport.operator_id entries) <->
                s <> "0"%string
                /\ exists l, In l db /\ (f <= DATE l <= t)%Z /\ OPERATOR_ID l = s)
          /\ ((forall l, In l db -> 0 <= SKIP_COUNT l) ->
              Forall (fun e => 0 <= AllOperatorsReport.productive_percentage e <= 100)
                     entries)).
Proof.
  intros returned operators from_date to_date db Hperm. split.
  - intros [-> | ->]; [|destruct from_date]; reflexivity.
  - intros f t -> ->.
    set (ids := returned
                  (distinct String.eqb
                     (map OPERATOR_ID
                        (exclude (fun l => String.eqb (OPERATOR_ID l) "0")
                                 (IdLists.in_dates f t db))))).
    set (data := fun operator_id =>
                   filter (fun l => String.eqb (OPERATOR_ID l) operator_id
                                    && (f <=? DATE l)%Z && (DATE l <=? t)%Z) db).
    set (value := fun operator_id =>
           AllOperatorsReport.mk_entry operator_id
             (AllOperatorsReport.name_or_empty operators operator_id)
             (Py.round2 (Py.or0 (Sum SKIP_COUNT (data operator_id))))
             (Py.round2 (Py.or0 (Sum SKIP_COUNT
                                   (filter (fun l => (MODE l =? 1)%Z) (data operator_id)))))
             (Py.round2 (guarded_percent
                           (Py.or0 (Sum SKIP_COUNT
                                      (filter (fun l => (MODE l =? 1)%Z) (data operator_id))))
                           (Py.or0 (Sum SKIP_COUNT (data operator_id)))))
             (SumZ OPERATION_COUNT (data operator_id))
             (Z.of_nat (List.length (distinct Z.eqb (map MACHINE_ID (data operator_id)))))).
    exists (map value ids).
    assert (Ids : map AllOperatorsReport.operator_id (map value ids) = ids).
    { rewrite map_map. cbn. apply map_id. }
    split; [|split; [|split]].
    + unfold AllOperatorsReport.all_operators_report. fold ids.
      rewrite (for_each_ret _ value); [reflexivity|].
      intro operator_id. unfold AllOperatorsReport.operator_entry. cbv zeta.
      rewrite percent_if_positive_ret. reflexivity.
    + rewrite Ids. unfold ids.
      apply (Permutation_NoDup (Permutation_sym (Hperm _))).
      apply NoDup_distinct_by. exact String.eqb_eq.
    + intro s. rewrite Ids. unfold ids.
      assert (P : In s (returned
                          (distinct String.eqb
                             (map OPERATOR_ID
                                (exclude (fun l => String.eqb (OPERATOR_ID l) "0")
                                         (IdLists.in_dates f t db)))))
                  <-> In s (distinct String.eqb
                              (map OPERATOR_ID
                                 (exclude (fun l => String.eqb (OPERATOR_ID l) "0")
                                          (IdLists.in_dates f t db))))).
      { split; intro H.
        - apply (Permutation_in _ (Hperm _) H).
        - apply (Permutation_in _ (Permutation_sym (Hperm _)) H). }
      rewrite P.
      rewrite (In_distinct_by String.eqb String.eqb_eq), in_map_iff. split.
      * intros [l [E Hl]]. apply In_exclude in Hl. destruct Hl as [Hl Hz].
        apply In_in_dates in Hl. apply String.eqb_neq in Hz. subst s.
        split; [exact Hz|]. exists l. tauto.
      * intros [Hz [l (H1 & H2 & H3)]]. exists l. split; [exact H3|].
        apply In_exclude. split; [apply In_in_dates; tauto|].
        apply String.eqb_neq. rewrite H3. exact Hz.
    + intro Hpos. apply Forall_forall. intros e He. apply in_map_iff in He.
      destruct He as [s [<- _]]. cbn [value AllOperatorsReport.productive_percentage].
      assert (P : forall r, In r (data s) -> 0 <= SKIP_COUNT r).
      { intros r Hr. apply filter_In in Hr. apply Hpos, Hr. }
      set (total := Py.or0 (Sum SKIP_COUNT (data s))).
      set (prod := Py.or0 (Sum SKIP_COUNT (filter (fun l => (MODE l =? 1)%Z) (data s)))).
      assert (H0 : 0 <= prod).
      { apply Sum_nonneg. intros r Hr. apply filter_In in Hr. apply P, Hr. }
      assert (H1 : prod <= total) by (apply Sum_filter_le; exact P).
      assert (E : guarded_percent prod total
                  == guarded_percent prod (prod + (total - prod))).
      { apply guarded_percent_comp; [reflexivity | ring]. }
      rewrite (round2_comp _ _ E). apply percent_share_bounds; lra.
Qed.

Lemma all_operators_report_entries_witness :
  AllOperatorsReport.all_operators_report (fun ids => ids) sample_operators
    None (Some 100%Z) [log_morning]
  = Py.Ret AllOperatorsReport.BothDatesRequired.
Proof.
  apply (proj1 (all_operators_report_entries (fun ids => ids) sample_operators
                  None (Some 100%Z) [log_morning] (fun ids => Permutation_refl ids))).
  left. reflexivity.
Defined.
